(** * cvxportfolio: forecasters, online cache and policies

    A shallow embedding of [cvxportfolio/forecast.py] and
    [cvxportfolio/policies.py].

    Conventions used throughout:
    - a Python float is an exact rational ([Qc]); a division whose result
      is not a finite number (NaN, inf) is [None];
    - a pandas/numpy missing value (NaN in the data) is [None];
    - a [pandas.Timestamp] is an integer;
    - a function that can raise returns a [result]. *)

From Stdlib Require Import QArith Qcanon Qround ZArith List Lia.
From stdpp Require Import base numbers list functions gmap.

Open Scope Qc_scope.

Abbreviation Timestamp := Z.

(** The exceptions of [cvxportfolio/errors.py] and the built-in ones the
    modelled code can raise. *)
Inductive exn :=
  | IndexError
  | ValueError
  | AttributeError
  | LinAlgError
  | AssertionError
  | UnboundLocalError
  | SyntaxError
  | DataError
  | ForecastError
  | MissingTimesError
  | ConvexSpecificationError
  | ConvexityError
  | PortfolioOptimizationError.

Global Instance exn_eq_dec : EqDecision exn.
Proof. solve_decision. Defined.

Inductive result (A : Type) :=
  | Ok (a : A)
  | Raise (e : exn).
Arguments Ok {A} a.
Arguments Raise {A} e.

(** Sequencing: the first exception raised ends the computation. *)
Global Instance result_bind : MBind result := fun A B k r =>
  match r with
  | Ok a => k a
  | Raise e => Raise e
  end.

Global Instance result_ret : MRet result := fun A a => Ok a.
Global Instance result_fmap : FMap result := fun A B f r =>
  match r with
  | Ok a => Ok (f a)
  | Raise e => Raise e
  end.

(** ** Series arithmetic (numpy / pandas, elementwise) *)

(** A float that may be NaN. *)
Abbreviation Float := (option Qc).

(** The float written [n/d]. *)
Definition q (n : Z) (d : positive) : Qc := Q2Qc (n # d).

(** [a / b] of two floats known to be numbers. *)
Definition fdiv (a : Qc) (b : Z) : Float :=
  if decide (b = 0%Z) then None else Some (a / Q2Qc (inject_Z b)).

Definition fsub (a b : Float) : Float :=
  match a, b with
  | Some x, Some y => Some (x - y)
  | _, _ => None
  end.

Definition fsquare (a : Float) : Float :=
  match a with
  | Some x => Some (x * x)
  | None => None
  end.

Definition fadd (a b : Float) : Float :=
  match a, b with
  | Some x, Some y => Some (x + y)
  | _, _ => None
  end.

Definition fmul (a b : Float) : Float :=
  match a, b with
  | Some x, Some y => Some (x * y)
  | _, _ => None
  end.

(** [a / b] of two floats; a division by zero gives no number. *)
Definition fdivf (a b : Float) : Float :=
  match a, b with
  | Some x, Some y => if decide (y = 0) then None else Some (x / y)
  | _, _ => None
  end.

(** [sum(f(k) for k in range(n))] *)
Fixpoint fsum (n : nat) (f : nat -> Float) : Float :=
  match n with
  | O => Some 0
  | S n => fadd (fsum n f) (f n)
  end.

(** The same sum on numbers. *)
Fixpoint qsum (n : nat) (g : nat -> Qc) : Qc :=
  match n with
  | O => 0
  | S n => qsum n g + g n
  end.

(** ** numpy arrays: a shape and the entries *)
Record Vector := {
  size : nat;
  item : nat -> Float
}.

Record Matrix := {
  nrows : nat;
  ncols : nat;
  entry : nat -> nat -> Float
}.

(** [M.T] *)
Definition transpose (M : Matrix) : Matrix :=
  {| nrows := ncols M; ncols := nrows M; entry := fun i j => entry M j i |}.

(** [A @ B] for factors that conform. *)
Definition matmul (A B : Matrix) : Matrix :=
  {| nrows := nrows A; ncols := ncols B;
     entry := fun i j => fsum (ncols A) (fun k => fmul (entry A i k) (entry B k j)) |}.

(** [A @ B]: numpy refuses factors that do not conform. *)
Definition matmul_np (A B : Matrix) : result Matrix :=
  if decide (ncols A = nrows B) then Ok (matmul A B) else Raise ValueError.

(** [np.diag(v)] *)
Definition diag (v : Vector) : Matrix :=
  {| nrows := size v; ncols := size v;
     entry := fun i j => if decide (i = j) then item v i else Some 0 |}.

(** [np.outer(a, b)] *)
Definition outer (a b : Vector) : Matrix :=
  {| nrows := size a; ncols := size b;
     entry := fun i j => fmul (item a i) (item b j) |}.

(** Elementwise operations; the operands have the same shape. *)
Definition vmap (f : Float -> Float) (v : Vector) : Vector :=
  {| size := size v; item := fun i => f (item v i) |}.
Definition mmap (f : Float -> Float) (M : Matrix) : Matrix :=
  {| nrows := nrows M; ncols := ncols M; entry := fun i j => f (entry M i j) |}.
Definition mzip (f : Float -> Float -> Float) (A B : Matrix) : Matrix :=
  {| nrows := nrows A; ncols := ncols A;
     entry := fun i j => f (entry A i j) (entry B i j) |}.

(** [x @ M @ x] for a vector [x] of numbers, and what it is for a
    square matrix to be positive semidefinite. *)
Definition quadratic_form (M : Matrix) (x : nat -> Qc) : Float :=
  fsum (nrows M) (fun i => fsum (ncols M) (fun j =>
    fmul (fmul (Some (x i)) (entry M i j)) (Some (x j)))).

Definition positive_semidefinite (M : Matrix) : Prop :=
  forall x : nat -> Qc, exists v, quadratic_form M x = Some v /\ 0 <= v.

(** [np.maximum(x, 0.)] *)
Definition maximum0 (x : Float) : Float :=
  (fun q => if decide (q <= 0) then 0 else q) <$> x.

(** ** forecast.py *)
Module Forecast.

(** One line of the returns dataframe; the last entry is cash. *)
Abbreviation Row := (list Float).

(** [past_returns]: the number of columns (cash included) and the lines
    with their index, oldest first. *)
Record DataFrame := {
  columns : nat;
  rows : list (Timestamp * Row)
}.

(** Every line has one entry per column. *)
Definition rectangular (df : DataFrame) : Prop :=
  Forall (fun r => length r.2 = columns df) (rows df).

Global Instance rectangular_dec df : Decision (rectangular df).
Proof. unfold rectangular. apply _. Defined.

(** [past_returns.index[-1]] *)
Definition index_last (df : DataFrame) : result Timestamp :=
  match last (rows df) with
  | Some r => Ok r.1
  | None => Raise IndexError
  end.

(** [row.iloc[:-1]] *)
Definition drop_cash (r : Row) : Row := take (length r - 1) r.

(** [past_returns.iloc[:, :-1]] *)
Definition iloc_noncash (df : DataFrame) : DataFrame :=
  {| columns := pred (columns df);
     rows := map (fun r => (r.1, drop_cash r.2)) (rows df) |}.

(** [past_returns.iloc[-1, :-1]] *)
Definition iloc_last_noncash (df : DataFrame) : result Row :=
  match last (rows df) with
  | Some r => Ok (drop_cash r.2)
  | None => Raise IndexError
  end.

(** Entry of column [j] in a line. *)
Definition cell (r : Row) (j : nat) : Float := mjoin (r !! j).

(** [~x.isnull()] as a number, and [x.fillna(0.)]. *)
Definition notnull (x : Float) : Z := if x is Some _ then 1%Z else 0%Z.
Definition fillna0 (x : Float) : Qc := default 0 x.

(** [Series.count()]: the non-missing entries of one column. *)
Fixpoint count_col (j : nat) (rs : list (Timestamp * Row)) : Z :=
  match rs with
  | [] => 0%Z
  | r :: rs => (notnull (cell r.2 j) + count_col j rs)%Z
  end.

(** [Series.sum()] of [f] over one column; missing entries are skipped. *)
Fixpoint sum_col (f : Qc -> Qc) (j : nat) (rs : list (Timestamp * Row)) : Qc :=
  match rs with
  | [] => 0
  | r :: rs => fillna0 (f <$> cell r.2 j) + sum_col f j rs
  end.

(** [df.count()], [df.sum()] and [(df**2).sum()], one value per column. *)
Definition count (df : DataFrame) : list Z :=
  map (fun j => count_col j (rows df)) (seq 0 (columns df)).
Definition sum (df : DataFrame) : list Qc :=
  map (fun j => sum_col id j (rows df)) (seq 0 (columns df)).
Definition sum_squares (df : DataFrame) : list Qc :=
  map (fun j => sum_col (fun x => x * x) j (rows df)) (seq 0 (columns df)).

(** The attributes [_last_time], [_last_counts], [_last_sum] once they
    are set; a forecaster whose three attributes are still [None] (after
    [__post_init__]) is [None : option Stats]. *)
Record Stats := {
  last_time : Timestamp;
  last_counts : list Z;
  last_sum : list Qc
}.

(** [(self._last_sum / self._last_counts).values] *)
Definition current_ratio (s : Stats) : list Float :=
  zip_with fdiv (last_sum s) (last_counts s).

(** *** BaseForecast._agnostic_update

    [S] is the state of a forecaster whose attributes are set and
    [_last_time] reads its [_last_time]; a forecaster whose attributes are
    still [None] is [None : option S]. *)
Section BaseForecast.
Context {S : Type}.
Variable _last_time : S -> Timestamp.
Variable _initial_compute : Timestamp -> DataFrame -> S.
Variable _online_update : Timestamp -> DataFrame -> S -> result S.

Definition _agnostic_update (t : Timestamp) (past_returns : DataFrame)
    (self : option S) : result S :=
  match self with
  | None => Ok (_initial_compute t past_returns)
  | Some s =>
      last ← index_last past_returns;
      if decide (_last_time s <> last)
      then Ok (_initial_compute t past_returns)
      else _online_update t past_returns s
  end.
End BaseForecast.

(** *** HistoricalMeanReturn *)
Module HistoricalMeanReturn.

Definition _initial_compute (t : Timestamp) (past_returns : DataFrame) : Stats :=
  {| last_counts := count (iloc_noncash past_returns);
     last_sum := sum (iloc_noncash past_returns);
     last_time := t |}.

Definition _online_update (t : Timestamp) (past_returns : DataFrame)
    (self : Stats) : result Stats :=
  r ← iloc_last_noncash past_returns;
  Ok {| last_counts := zip_with Z.add (last_counts self) (notnull <$> r);
        last_sum := zip_with Qcplus (last_sum self) (fillna0 <$> r);
        last_time := t |}.

(** Returns the new state and the emitted value. *)
Definition values_in_time (t : Timestamp) (past_returns : DataFrame)
    (self : option Stats) : result (Stats * list Float) :=
  s ← _agnostic_update last_time _initial_compute _online_update t past_returns self;
  Ok (s, current_ratio s).

End HistoricalMeanReturn.

(** *** HistoricalVariance *)
Module HistoricalVariance.

(** [kelly], the [meanforecaster] sub-estimator (only there when
    [kelly] is false) and the three attributes. *)
Record State := {
  kelly : bool;
  meanforecaster : option Stats;
  stats : option Stats
}.

(** [__post_init__] *)
Definition __post_init__ (k : bool) : State :=
  {| kelly := k; meanforecaster := None; stats := None |}.

Definition _initial_compute (t : Timestamp) (past_returns : DataFrame) : Stats :=
  {| last_counts := count (iloc_noncash past_returns);
     last_sum := sum_squares (iloc_noncash past_returns);
     last_time := t |}.

Definition _online_update (t : Timestamp) (past_returns : DataFrame)
    (self : Stats) : result Stats :=
  r ← iloc_last_noncash past_returns;
  Ok {| last_counts := zip_with Z.add (last_counts self) (notnull <$> r);
        last_sum :=
          zip_with Qcplus (last_sum self) ((fun x => fillna0 x * fillna0 x) <$> r);
        last_time := t |}.

(** [values_in_time]; [mean_current_value] is
    [self.meanforecaster.current_value]. *)
Definition values_in_time (t : Timestamp) (past_returns : DataFrame)
    (k : bool) (mean_current_value : list Float) (self : option Stats)
    : result (Stats * list Float) :=
  s ← _agnostic_update last_time _initial_compute _online_update t past_returns self;
  let result := current_ratio s in
  Ok (s, if k then result
         else zip_with fsub result (fsquare <$> mean_current_value)).

(** Modelled from the spec: [Estimator.values_in_time_recursive] of
    estimator.py, which is not part of the sources at hand: "children
    refresh before the parent computes its own value", and the value of
    a child is kept as its [current_value]. *)
Definition values_in_time_recursive (t : Timestamp) (past_returns : DataFrame)
    (self : State) : result (State * list Float) :=
  if kelly self then
    '(s, v) ← values_in_time t past_returns true [] (stats self);
    Ok ({| kelly := true; meanforecaster := meanforecaster self; stats := Some s |}, v)
  else
    '(m, mv) ←
      HistoricalMeanReturn.values_in_time t past_returns (meanforecaster self);
    '(s, v) ← values_in_time t past_returns false mv (stats self);
    Ok ({| kelly := false; meanforecaster := Some m; stats := Some s |}, v).

End HistoricalVariance.

(** *** A forecaster followed along a history

    The history [hist] is revealed one line at a time: the decision
    number [k] is taken at time [time k] and sees the first [k] lines. *)
Section Runs.
Variable cols : nat.
Variable hist : list (Timestamp * Row).
Variable time : nat -> Timestamp.

Definition frame (k : nat) : DataFrame :=
  {| columns := cols; rows := take k hist |}.

(** From scratch on the first [j] lines, then [n] online updates, one
    per new line. *)
Fixpoint incremental
    (_initial_compute : Timestamp -> DataFrame -> Stats)
    (_online_update : Timestamp -> DataFrame -> Stats -> result Stats)
    (j n : nat) : result Stats :=
  match n with
  | O => Ok (_initial_compute (time j) (frame j))
  | S n' =>
      s ← incremental _initial_compute _online_update j n';
      _online_update (time (j + n)) (frame (j + n)) s
  end.

(** [HistoricalMeanReturn.values_in_time] called at the decisions
    [j], [j+1], ..., [j+n] on a forecaster that starts with its
    attributes unset; the last state and value. *)
Fixpoint mean_run (j n : nat) : result (Stats * list Float) :=
  match n with
  | O => HistoricalMeanReturn.values_in_time (time j) (frame j) None
  | S n' =>
      '(s, _) ← mean_run j n';
      HistoricalMeanReturn.values_in_time (time (j + n)) (frame (j + n)) (Some s)
  end.

(** The same for [HistoricalVariance(kelly)]. *)
Fixpoint variance_run (kelly : bool) (j n : nat)
    : result (HistoricalVariance.State * list Float) :=
  match n with
  | O =>
      HistoricalVariance.values_in_time_recursive (time j) (frame j)
        (HistoricalVariance.__post_init__ kelly)
  | S n' =>
      '(s, _) ← variance_run kelly j n';
      HistoricalVariance.values_in_time_recursive (time (j + n)) (frame (j + n)) s
  end.
End Runs.

(** The history [hist] with the entry at line [i], column [c] missing. *)
Definition set_missing (i c : nat) (hist : list (Timestamp * Row))
    : list (Timestamp * Row) :=
  alter (fun r => (r.1, <[c := None]> r.2)) i hist.

(** A small history: three assets and cash, three lines, one value
    missing. *)
Definition example_history : list (Timestamp * Row) :=
  [ (10%Z, [Some (q 1 100); Some (q (-2) 100); Some (q 3 100); Some 0]);
    (11%Z, [Some (q 2 100); None;              Some (q 1 100); Some 0]);
    (12%Z, [Some (q (-1) 100); Some (q 4 100); Some (q 5 100); Some 0]) ].

Definition example_time (k : nat) : Timestamp := (10 + Z.of_nat k)%Z.

End Forecast.

(** *** online_cache

    The decorator [online_cache] around a method [values_in_time]. The
    cache is a dict of dicts: the outer key is the forecaster, hashed and
    compared as a dataclass, that is by its class and the values of
    its fields (its [signature]) and not by the object it is; the inner key
    is the time. *)
Module OnlineCache.
Section OnlineCache.
Context {Sig : Type} `{Countable Sig}.
(** Values returned, internal state of a forecaster, other keyword
    arguments. *)
Context {V St Kw : Type}.

Local Abbreviation Cache := (gmap Sig (gmap Timestamp V)).

(** A forecaster object: where it lives and what it is equal to. *)
Record Instance := {
  address : nat;
  signature : Sig
}.

(** The attributes of every forecaster object, and the calls of the
    decorated method made so far, oldest first. *)
Record World := {
  store : nat -> St;
  computed : list (Sig * Timestamp)
}.

(** The decorated method: it sees the cache it is given, and returns a
    value and the new attributes of [self], or raises. *)
Variable values_in_time : Sig -> St -> Timestamp -> Cache -> Kw -> result (V * St).

(** [cache[self][t]], when both keys are there. *)
Definition cached (cache : Cache) (k : Sig * Timestamp) : option V :=
  cache !! k.1 ≫= fun d => d !! k.2.

(** The body of [wrapped] on a cache that is not [None]: the result, the
    cache and the world after the call. *)
Definition wrapped_on (self : Instance) (t : Timestamp) (cache : Cache)
    (kwargs : Kw) (w : World) : result V * Cache * World :=
  let cache :=
    if decide (is_Some (cache !! signature self)) then cache
    else <[signature self := ∅]> cache in
  let cache_self := default ∅ (cache !! signature self) in
  match cache_self !! t with
  | Some result => (Ok result, cache, w)
  | None =>
      let w' := {| store := store w;
                   computed := computed w ++ [(signature self, t)] |} in
      match values_in_time (signature self) (store w (address self)) t cache kwargs with
      | Ok (result, st) =>
          (Ok result,
           <[signature self := <[t := result]> cache_self]> cache,
           {| store := <[address self := st]> (store w);
              computed := computed w' |})
      | Raise e => (Raise e, cache, w')
      end
  end.

(** [wrapped(self, t, cache=None, **kwargs)] *)
Definition wrapped (self : Instance) (t : Timestamp) (cache : option Cache)
    (kwargs : Kw) (w : World) : result V * Cache * World :=
  wrapped_on self t (default ∅ cache) kwargs w.

(** One run: calls made one after the other with the same cache dict;
    an exception ends the run. Returns the values of the calls made. *)
Fixpoint run (calls : list (Instance * Timestamp * Kw)) (cache : Cache)
    (w : World) : result (list V) * Cache * World :=
  match calls with
  | [] => (Ok [], cache, w)
  | (self, t, kwargs) :: calls =>
      match wrapped self t (Some cache) kwargs w with
      | (Ok v, cache, w) =>
          match run calls cache w with
          | (Ok vs, cache, w) => (Ok (v :: vs), cache, w)
          | (Raise e, cache, w) => (Raise e, cache, w)
          end
      | (Raise e, cache, w) => (Raise e, cache, w)
      end
  end.

Definition key_of (call : Instance * Timestamp * Kw) : Sig * Timestamp :=
  (signature call.1.1, call.1.2).
End OnlineCache.
Arguments Instance : clear implicits.
Arguments World : clear implicits.

(** Two forecaster objects of one class with the same fields, whose
    method counts the times it was called on the object, and a run in
    which both are asked for the time 10. *)
Definition counting (_ : bool) (st : nat) (_ : Timestamp)
    (_ : gmap bool (gmap Timestamp nat)) (_ : unit) : result (nat * nat) :=
  Ok (S st, S st).

Definition example_calls : list (Instance bool * Timestamp * unit) :=
  [ ({| address := 0; signature := true |}, 10%Z, ());
    ({| address := 1; signature := true |}, 10%Z, ());
    ({| address := 0; signature := true |}, 11%Z, ()) ].

Definition example_world : World bool nat :=
  {| store := fun _ => O; computed := [] |}.
End OnlineCache.

(** *** project_on_psd_cone_and_factorize and HistoricalFactorizedCovariance *)
Module HistoricalFactorizedCovariance.
Import Forecast.
Section Covariance.
(** [np.linalg.eigh], eigenvalues and eigenvectors (the columns), which
    may raise [LinAlgError]; and the square root of a float that is not
    negative. *)
Variable eigh : Matrix -> result (Vector * Matrix).
Variable sqrt : Qc -> Qc.

(** [np.sqrt] *)
Definition np_sqrt (x : Float) : Float :=
  x ≫= fun q => if decide (q < 0) then None else Some (sqrt q).

Definition project_on_psd_cone_and_factorize (covariance : Matrix) : result Matrix :=
  '(eigval, eigvec) ← eigh covariance;
  let eigval := vmap maximum0 eigval in
  matmul_np eigvec (diag (vmap np_sqrt eigval)).

(** The attributes once they are set; [_joint_mean] stays [None] when
    [kelly] is true. *)
Record State := {
  _last_time : Timestamp;
  _last_counts_matrix : Matrix;
  _last_sum_matrix : Matrix;
  _joint_mean : option Matrix
}.

(** [df.values] *)
Definition values (df : DataFrame) : Matrix :=
  {| nrows := length (rows df); ncols := columns df;
     entry := fun t j => r ← rows df !! t; cell r.2 j |}.

(** [series.values] *)
Definition series (r : Row) : Vector :=
  {| size := length r; item := cell r |}.

(** [(~x.isnull()) * 1.] and [x.fillna(0.)] on one entry. *)
Definition nonnull1 (x : Float) : Float := Some (if x is Some _ then 1 else 0).
Definition fillna (x : Float) : Float := Some (fillna0 x).

Definition _get_count_matrix (past_returns : DataFrame) : Matrix :=
  let tmp := mmap nonnull1 (values (iloc_noncash past_returns)) in
  matmul (transpose tmp) tmp.

Definition _get_initial_joint_mean (past_returns : DataFrame) : Matrix :=
  let nonnull := mmap nonnull1 (values (iloc_noncash past_returns)) in
  let tmp := matmul (transpose nonnull)
               (mmap fillna (values (iloc_noncash past_returns))) in
  tmp.

Definition _initial_compute (kelly : bool) (t : Timestamp)
    (past_returns : DataFrame) : State :=
  let filled := mmap fillna (values (iloc_noncash past_returns)) in
  {| _last_counts_matrix := _get_count_matrix past_returns;
     _last_sum_matrix := matmul (transpose filled) filled;
     _joint_mean :=
       if kelly then None else Some (_get_initial_joint_mean past_returns);
     _last_time := t |}.

(** [frame += series]: pandas adds the series to every line. *)
Definition add_to_lines (M : Matrix) (v : Vector) : Matrix :=
  {| nrows := nrows M; ncols := ncols M;
     entry := fun i j => fadd (entry M i j) (item v j) |}.

Definition _online_update (kelly : bool) (t : Timestamp)
    (past_returns : DataFrame) (self : State) : result State :=
  r ← iloc_last_noncash past_returns;
  let nonnull := vmap nonnull1 (series r) in
  let last_ret := vmap fillna (series r) in
  Ok {| _last_counts_matrix :=
          mzip fadd (_last_counts_matrix self) (outer nonnull nonnull);
        _last_sum_matrix :=
          mzip fadd (_last_sum_matrix self) (outer last_ret last_ret);
        _last_time := t;
        _joint_mean :=
          if kelly then _joint_mean self
          else (fun m => add_to_lines m last_ret) <$> _joint_mean self |}.

(** The covariance estimated from the attributes. *)
Definition covariance_of (kelly : bool) (self : State) : Matrix :=
  let covariance :=
    mzip fdivf (_last_sum_matrix self) (_last_counts_matrix self) in
  match kelly, _joint_mean self with
  | false, Some joint_mean =>
      let tmp := mzip fdivf joint_mean (_last_counts_matrix self) in
      mzip fsub covariance (mzip fmul (transpose tmp) tmp)
  | _, _ => covariance
  end.

(** The method under the decorator: the value and the new attributes. *)
Definition values_in_time_body (kelly : bool) (self : option State)
    (t : Timestamp) (past_returns : DataFrame) : result (Matrix * option State) :=
  s ← _agnostic_update _last_time (_initial_compute kelly)
        (_online_update kelly) t past_returns self;
  match project_on_psd_cone_and_factorize (covariance_of kelly s) with
  | Ok F => Ok (F, Some s)
  | Raise LinAlgError => Raise ForecastError
  | Raise e => Raise e
  end.

(** [values_in_time], decorated by [online_cache]. The signature of a
    forecaster of this class is its field [kelly]. *)
Definition values_in_time (self : OnlineCache.Instance bool) (t : Timestamp)
    (cache : option (gmap bool (gmap Timestamp Matrix)))
    (past_returns : DataFrame) (w : OnlineCache.World bool (option State)) :=
  OnlineCache.wrapped
    (fun kelly st t _ past_returns => values_in_time_body kelly st t past_returns)
    self t cache past_returns w.
End Covariance.

(** A covariance with a negative eigenvalue, [[4, 0], [0, -1]], with what
    [eigh] returns for it and a square root that is exact on the squares
    of integers. *)
Definition example_covariance : Matrix :=
  {| nrows := 2; ncols := 2;
     entry := fun i j =>
       match i, j with
       | O, O => Some (q 4 1)
       | S O, S O => Some (q (-1) 1)
       | _, _ => Some 0
       end |}.

Definition example_eigval : Vector :=
  {| size := 2; item := fun j => if j is O then Some (q (-1) 1) else Some (q 4 1) |}.

Definition example_eigvec : Matrix :=
  {| nrows := 2; ncols := 2;
     entry := fun i j =>
       match i, j with
       | O, S O => Some 1
       | S O, O => Some 1
       | _, _ => Some 0
       end |}.

Definition example_eigh (_ : Matrix) : result (Vector * Matrix) :=
  Ok (example_eigval, example_eigvec).

Definition example_sqrt (x : Qc) : Qc :=
  Q2Qc (inject_Z (Z.sqrt (Qfloor x))).
End HistoricalFactorizedCovariance.

(** ** policies.py *)
Module Policies.
Import Forecast.

(** A pandas series indexed by the universe (cash last), as its values. *)
Abbreviation Series := (list Float).

(** What a policy does that other code can observe, in the order it
    happens. *)
Inductive event :=
  | TradingCalendar                       (* market_data.trading_calendar() *)
  | Serve (t : Timestamp)                 (* market_data.serve(t) *)
  | InitializeEstimator                   (* policy.initialize_estimator_recursive *)
  | ValuesInTime (t : Timestamp)          (* policy.values_in_time_recursive *)
  | InitializeObjective (i : nat)
  | InitializeConstraint (i j : nat)
  | InitializeBenchmark
  | Compile                               (* _compile_to_cvxpy *)
  | ValuesInTimeObjective (i : nat)
  | ValuesInTimeConstraint (i j : nat)
  | ValuesInTimeBenchmark
  | Solve.                                (* problem.solve *)

Global Instance event_eq_dec : EqDecision event.
Proof. solve_decision. Defined.

(** Code that logs events and may raise: from the log so far, a result
    and the log after. *)
Definition Eff (A : Type) : Type := list event -> result A * list event.

Global Instance Eff_ret : MRet Eff := fun A a log => (Ok a, log).
Global Instance Eff_bind : MBind Eff := fun A B k m log =>
  match m log with
  | (Ok a, log) => k a log
  | (Raise e, log) => (Raise e, log)
  end.

Definition tell (e : event) : Eff unit := fun log => (Ok (), log ++ [e]).
Definition raise {A} (e : exn) : Eff A := fun log => (Raise e, log).
Definition lift {A} (r : result A) : Eff A := fun log => (r, log).

(** Code that only adds events with the property [P] to the log. *)
Definition logs {A} (P : event -> Prop) (m : Eff A) : Prop :=
  forall log, exists new, (m log).2 = log ++ new /\ Forall P new.

(** [assert b] *)
Definition assert (b : bool) : Eff unit :=
  if b then mret () else raise AssertionError.

(** *** Series arithmetic *)

(** The built-in [sum] of the entries, and [np.sum] of an array: a NaN
    makes the sum NaN. *)
Definition np_sum (h : Series) : Float := foldl fadd (Some 0) h.

(** [series.sum()] of pandas, which skips the NaN; [np.sum(series)] is
    this sum too, since numpy leaves the sum of a series to pandas. *)
Definition pd_sum (h : Series) : Float := Some (foldl Qcplus 0 (fillna0 <$> h)).

(** [x < 0.], [x > 0.] on floats: false on NaN. *)
Definition flt0 (x : Float) : bool := if x is Some q then bool_decide (q < 0) else false.
Definition fgt0 (x : Float) : bool := if x is Some q then bool_decide (0 < q) else false.

Definition series_add (a b : Series) : Series := zip_with fadd a b.
Definition series_sub (a b : Series) : Series := zip_with fsub a b.
Definition series_scale (a : Series) (c : Float) : Series := (fun x => fmul x c) <$> a.
Definition series_div (a : Series) (c : Float) : Series := (fun x => fdivf x c) <$> a.

(** [pd.Series(values, index)]: the lengths must agree. *)
Definition pd_Series (values : Series) (index : nat) : result Series :=
  if decide (length values = index) then Ok values else Raise ValueError.

(** [np.round] on a number: to the nearest integer, a half to the even
    one. *)
Definition round_half_even (x : Qc) : Z :=
  let fl := Qfloor x in
  let frac := x - Q2Qc (inject_Z fl) in
  if decide (frac < q 1 2) then fl
  else if decide (q 1 2 < frac) then (fl + 1)%Z
  else if Z.even fl then fl else (fl + 1)%Z.

(** [pd.Series(np.round(x), dtype=int)]: a NaN cannot be an integer. *)
Definition round_to_int (x : Series) : result (list Z) :=
  match mapM id x with
  | Some l => Ok (round_half_even <$> l)
  | None => Raise ValueError
  end.

(** *** Policy.execute *)

(** [MarketData]: the trading calendar and, for a time, the past returns,
    the past volumes and the current prices (the last two may be
    [None]). *)
Record MarketData := {
  trading_calendar : list Timestamp;
  serve : Timestamp -> DataFrame * option DataFrame * option Series
}.

(** The keyword arguments of [values_in_time_recursive]. *)
Record Args := {
  t : Timestamp;
  past_returns : DataFrame;
  past_volumes : option DataFrame;
  current_weights : Series;
  current_portfolio_value : Float;
  current_prices : option Series
}.

(** The time at which [execute] works: [t], or the last trading time. *)
Definition resolve (market_data : MarketData) (t : option Timestamp)
    : option Timestamp :=
  match t with
  | Some t => Some t
  | None => last (trading_calendar market_data)
  end.

Section Policy.
(** A policy object and its two methods; the universe is given by its
    size. *)
Context {P : Type}.
Variable initialize_estimator_recursive : P -> nat -> list Timestamp -> Eff P.
Variable values_in_time_recursive : P -> Args -> Eff (P * Series).

Definition execute (self : P) (h : Series) (market_data : MarketData)
    (t : option Timestamp) : Eff (P * (Series * Timestamp * option (list Z))) :=
  _ ← tell TradingCalendar;
  let trading_calendar := trading_calendar market_data in
  t ← match t with
      | None => lift (from_option Ok (Raise IndexError) (last trading_calendar))
      | Some t => mret t
      end;
  _ ← assert (bool_decide (t ∈ trading_calendar));
  let v := pd_sum h in
  _ ← (if flt0 v then raise DataError else mret ());
  let w := series_div h v in
  _ ← tell (Serve t);
  let '(past_returns, past_volumes, current_prices) := serve market_data t in
  self ← initialize_estimator_recursive self (columns past_returns)
           (filter (fun t' => t <= t')%Z trading_calendar);
  '(self, w_plus) ← values_in_time_recursive self
      {| t := t; past_returns := past_returns; past_volumes := past_volumes;
         current_weights := w; current_portfolio_value := v;
         current_prices := current_prices |};
  let z := series_sub w_plus w in
  let u := series_scale z v in
  shares_traded ← match current_prices with
                  | Some current_prices =>
                      lift (Some <$> round_to_int
                              (zip_with fdivf (drop_cash u) current_prices))
                  | None => mret None
                  end;
  mret (self, (u, t, shares_traded)).
End Policy.

(** *** DataEstimator

    [DataEstimator] of estimator.py is not part of the sources at hand. It
    holds data given by the user, constant or indexed by time, and at each
    time makes the entry of that time its [current_value]; policies.py says
    that a policy defaults to not trading when a time "is not present in
    the data provided", which [DataEstimator] signals by
    [MissingTimesError]. *)
Module DataEstimator.
(** Modelled from the spec: the data a [DataEstimator] of estimator.py is
    given, a series or a frame indexed by time. *)
Inductive Data :=
  | Constant (values : Series)
  | InTime (frame : gmap Timestamp Series).

(** Modelled from the spec: the attributes of a [DataEstimator] of
    estimator.py. *)
Record State := {
  data : Data;
  current_value : option Series
}.

(** Modelled from the spec: the constructor of [DataEstimator] of
    estimator.py. *)
Definition __init__ (d : Data) : State := {| data := d; current_value := None |}.

(** Modelled from the spec: [DataEstimator.values_in_time_recursive] of
    estimator.py, the lookup "[lookup(t) -> value | none]" with
    [MissingTimesError] for none. *)
Definition values_in_time_recursive (self : State) (t : Timestamp) : result State :=
  match data self with
  | Constant values => Ok {| data := data self; current_value := Some values |}
  | InTime frame =>
      match frame !! t with
      | Some values => Ok {| data := data self; current_value := Some values |}
      | None => Raise MissingTimesError
      end
  end.
End DataEstimator.

(** [try: ... except MissingTimesError: result = current_weights
     finally: self._current_value = result; return result], from what the
    [try] block gives: an exception that is not caught leaves [result]
    unbound, and reading it in the [finally] block raises. *)
Definition try_except_finally (body : result Series) (current_weights : Series)
    : result Series :=
  match body with
  | Ok result => Ok result
  | Raise MissingTimesError => Ok current_weights
  | Raise _ => Raise UnboundLocalError
  end.

(** *** FixedTrades *)
Module FixedTrades.
Record State := {
  trades_weights : DataEstimator.State;
  _current_value : option Series
}.

Definition __init__ (trades_weights : DataEstimator.Data) : State :=
  {| trades_weights := DataEstimator.__init__ trades_weights;
     _current_value := None |}.

(** Modelled from the spec: [Estimator.initialize_estimator_recursive]
    of estimator.py, which is not part of the sources at hand, here on an
    object whose only sub-estimator is [trades_weights] and that has no
    [initialize_estimator]: "children initialize before the parent". *)
Definition initialize_estimator_recursive (self : State) (universe : nat)
    (trading_calendar : list Timestamp) : Eff State :=
  _ ← tell InitializeEstimator;
  mret self.

(** Modelled from the spec: [Estimator.values_in_time_recursive] of
    estimator.py, which is not part of the sources at hand, here on an
    object whose only sub-estimator is [trades_weights] and that has no
    [values_in_time]: "children refresh before the parent computes its own
    value". *)
Definition super_values_in_time_recursive (self : State) (t : Timestamp)
    : result DataEstimator.State :=
  DataEstimator.values_in_time_recursive (trades_weights self) t.

Definition values_in_time_recursive (self : State) (a : Args)
    : Eff (State * Series) :=
  _ ← tell (ValuesInTime (t a));
  let sub := super_values_in_time_recursive self (t a) in
  let body :=
    s ← sub;
    tw ← pd_Series (default [] (DataEstimator.current_value s))
           (length (current_weights a));
    Ok (series_add (current_weights a) tw) in
  result ← lift (try_except_finally body (current_weights a));
  mret ({| trades_weights := if sub is Ok s then s else trades_weights self;
           _current_value := Some result |}, result).
End FixedTrades.

(** *** FixedWeights *)
Module FixedWeights.
Record State := {
  target_weights : DataEstimator.State;
  _current_value : option Series
}.

Definition __init__ (target_weights : DataEstimator.Data) : State :=
  {| target_weights := DataEstimator.__init__ target_weights;
     _current_value := None |}.

(** Modelled from the spec: [Estimator.initialize_estimator_recursive]
    of estimator.py, as for [FixedTrades]. *)
Definition initialize_estimator_recursive (self : State) (universe : nat)
    (trading_calendar : list Timestamp) : Eff State :=
  _ ← tell InitializeEstimator;
  mret self.

(** Modelled from the spec: [Estimator.values_in_time_recursive] of
    estimator.py, as for [FixedTrades], with [target_weights] the only
    sub-estimator. *)
Definition super_values_in_time_recursive (self : State) (t : Timestamp)
    : result DataEstimator.State :=
  DataEstimator.values_in_time_recursive (target_weights self) t.

Definition values_in_time_recursive (self : State) (a : Args)
    : Eff (State * Series) :=
  _ ← tell (ValuesInTime (t a));
  let sub := super_values_in_time_recursive self (t a) in
  let body :=
    s ← sub;
    tw ← pd_Series (default [] (DataEstimator.current_value s))
           (length (current_weights a));
    Ok (series_sub (series_add (current_weights a) tw) (current_weights a)) in
  result ← lift (try_except_finally body (current_weights a));
  mret ({| target_weights := if sub is Ok s then s else target_weights self;
           _current_value := Some result |}, result).
End FixedWeights.

(** *** Uniform *)
Module Uniform.
(** [target_weights] is only set by [initialize_estimator]. *)
Record State := {
  leverage : Float;
  target_weights : option DataEstimator.State;
  _current_value : option Series
}.

Definition __init__ (leverage : Float) : State :=
  {| leverage := leverage; target_weights := None; _current_value := None |}.

(** [series.iloc[-1] = x] *)
Definition set_last (s : Series) (x : Float) : result Series :=
  match s with
  | [] => Raise IndexError
  | _ => Ok (<[(length s - 1)%nat := x]> s)
  end.

Definition initialize_estimator (self : State) (universe : nat)
    (trading_calendar : list Timestamp) : result State :=
  let target_weights := replicate universe (Some 1) in
  target_weights ← set_last target_weights (Some 0);
  let target_weights := series_div target_weights (np_sum target_weights) in
  let target_weights := series_scale target_weights (leverage self) in
  target_weights ← set_last target_weights
                      (fsub (Some 1) (pd_sum target_weights));
  Ok {| leverage := leverage self;
        target_weights :=
          Some (DataEstimator.__init__ (DataEstimator.Constant target_weights));
        _current_value := _current_value self |}.

(** Modelled from the spec: [Estimator.initialize_estimator_recursive],
    as for [FixedTrades]; the sub-estimator [target_weights], when there
    is one already, is replaced by [initialize_estimator]. *)
Definition initialize_estimator_recursive (self : State) (universe : nat)
    (trading_calendar : list Timestamp) : Eff State :=
  _ ← tell InitializeEstimator;
  lift (initialize_estimator self universe trading_calendar).

(** Inherited from [FixedWeights]; reading [self.target_weights] before
    [initialize_estimator] has set it raises [AttributeError], which the
    [try] block does not catch. *)
Definition values_in_time_recursive (self : State) (a : Args)
    : Eff (State * Series) :=
  _ ← tell (ValuesInTime (t a));
  let sub :=
    match target_weights self with
    | Some tw => DataEstimator.values_in_time_recursive tw (t a)
    | None => Raise AttributeError
    end in
  let body :=
    s ← sub;
    tw ← pd_Series (default [] (DataEstimator.current_value s))
           (length (current_weights a));
    Ok (series_sub (series_add (current_weights a) tw) (current_weights a)) in
  result ← lift (try_except_finally body (current_weights a));
  mret ({| leverage := leverage self;
           target_weights := if sub is Ok s then Some s else target_weights self;
           _current_value := Some result |}, result).
End Uniform.

(** The weights [Uniform] with leverage 1 aims at, for five assets and
    cash. *)
Definition uniform6 : Series :=
  [Some (q 1 5); Some (q 1 5); Some (q 1 5); Some (q 1 5); Some (q 1 5); Some 0].

(** The state of [Uniform] with leverage 1 once initialized for five
    assets and cash. *)
Definition uniform_initialized (current_value : option Series) : Uniform.State :=
  {| Uniform.leverage := Some 1;
     Uniform.target_weights :=
       Some {| DataEstimator.data := DataEstimator.Constant uniform6;
               DataEstimator.current_value := current_value |};
     Uniform._current_value := current_value |}.

(** All the weight in the first asset. *)
Definition first_asset_only : Series :=
  [Some 1; Some 0; Some 0; Some 0; Some 0; Some 0].

(** Five assets and cash, four trading times, the returns seen so far
    and no prices. *)
Definition example_market_data : MarketData :=
  {| trading_calendar := [10; 11; 12; 13]%Z;
     serve := fun t =>
       ({| columns := 6;
           rows := filter (fun r => r.1 < t)%Z
                     [ (10%Z, [Some (q 1 100); Some (q (-2) 100); Some (q 3 100);
                               Some (q 1 100); Some (q (-1) 100); Some 0]);
                       (11%Z, [Some (q 2 100); Some (q 1 100); Some (q (-1) 100);
                               Some (q 2 100); Some (q 1 100); Some 0]);
                       (12%Z, [Some (q (-1) 100); Some (q 4 100); Some (q 5 100);
                               Some (q (-3) 100); Some (q 2 100); Some 0]) ] |},
        None, None) |}.

(** *** MultiPeriodOptimization *)
Module MultiPeriodOptimization.

(** The cvxpy variables and parameters of a policy, and the expressions
    and constraints that the policy builds from them itself. *)
Inductive Var :=
  | z_at_lag (i : nat)
  | w_plus_at_lag (i : nat)
  | w_plus_minus_w_bm_at_lag (i : nat).

Inductive Par :=
  | w_bm
  | w_current.

Inductive Expr :=
  | Variable_ (v : Var)
  | Parameter_ (p : Par)
  | Constant_ (s : Series)
  | Scalar_ (c : Qc)
  | Plus (a b : Expr)
  | Minus (a b : Expr)
  | cp_sum (a : Expr).

(** The status strings of cvxpy. *)
Inductive Status :=
  | optimal
  | optimal_inaccurate
  | infeasible
  | infeasible_inaccurate
  | unbounded
  | unbounded_inaccurate
  | infeasible_or_unbounded
  | user_limit
  | solver_error.

Global Instance Status_eq_dec : EqDecision Status.
Proof. solve_decision. Defined.

(** What [problem.solve] does: it raises [cp.SolverError], or it sets
    [problem.status] and the [value] of the variables ([None] when the
    solver gives none). *)
Inductive SolverOutcome :=
  | SolverError
  | Solved (status : Status) (value : Var -> option Series).

(** How the policy is created. *)
Inductive InitArgs (Cost Constraint : Type) :=
  | SameAtEveryStep (objective : Cost) (constraints : list Constraint)
      (planning_horizon : option Z)
  | StepByStep (objective : list Cost) (constraints : list (list Constraint)).
Arguments SameAtEveryStep {Cost Constraint}.
Arguments StepByStep {Cost Constraint}.

(** The weights before the trades of step [i]. *)
Definition weights_before (i : nat) : Expr :=
  match i with
  | O => Parameter_ w_current
  | S j => Variable_ (w_plus_at_lag j)
  end.

(** The events of the initialization of the terms and of the benchmark. *)
Definition is_initialize_event (e : event) : bool :=
  match e with
  | InitializeObjective _ | InitializeConstraint _ _ | InitializeBenchmark => true
  | _ => false
  end.

(** The events of the refresh of the policy, of its terms and of its
    benchmark. *)
Definition is_values_in_time_event (e : event) : bool :=
  match e with
  | ValuesInTime _ | ValuesInTimeObjective _ | ValuesInTimeConstraint _ _
  | ValuesInTimeBenchmark => true
  | _ => false
  end.

(** [l[i]] *)
Definition index {A} (l : list A) (i : nat) : result A :=
  from_option Ok (Raise IndexError) (l !! i).

Section MPO.
(** The objective terms, the constraints and the benchmark given by the
    user, the cvxpy expressions and constraints they compile to, and
    their methods. *)
Context {Cost Constraint Benchmark Term CompiledConstraint : Type}.

Inductive CvxpyConstraint :=
  | Equality (lhs rhs : Expr)
  | Compiled (c : CompiledConstraint).

Record Problem := {
  maximize : list Term;                  (* the sum of the terms *)
  subject_to : list CvxpyConstraint
}.

Record State := {
  objective : list Cost;
  constraints : list (list Constraint);
  _planning_horizon : Z;
  terminal_constraint : option Series;
  benchmark : Benchmark;
  w_bm_value : option Series;
  w_current_value : option Series;
  z_at_lags : list Var;
  w_plus_at_lags : list Var;
  w_plus_minus_w_bm_at_lags : list Var;
  problem : option Problem;
  _current_value : option Series
}.

(** A policy whose variables are allocated for [H] steps. *)
Definition allocated (self : State) (H : nat) : Prop :=
  z_at_lags self = z_at_lag <$> seq 0 H
  /\ w_plus_at_lags self = w_plus_at_lag <$> seq 0 H
  /\ w_plus_minus_w_bm_at_lags self = w_plus_minus_w_bm_at_lag <$> seq 0 H.

(** [el + CashReturn()] *)
Variable plus_cash_return : Cost -> Cost.
(** [initialize_estimator_recursive] of the terms. *)
Variable cost_initialize : Cost -> nat -> list Timestamp -> result Cost.
Variable constraint_initialize : Constraint -> nat -> list Timestamp -> result Constraint.
Variable benchmark_initialize : Benchmark -> nat -> list Timestamp -> result Benchmark.
(** [compile_to_cvxpy(w_plus, z, w_plus_minus_w_bm)] of the terms; a
    constraint may compile to several. *)
Variable cost_compile : Cost -> Var -> Var -> Var -> Term.
Variable constraint_compile : Constraint -> Var -> Var -> Var -> list CompiledConstraint.
(** [is_dcp()] and [is_concave()] of cvxpy. *)
Variable term_is_dcp : Term -> bool.
Variable term_is_concave : Term -> bool.
Variable constraint_is_dcp : CompiledConstraint -> bool.
Variable problem_is_dcp : Problem -> bool.
(** [values_in_time_recursive] of the terms, with [mpo_step]. *)
Variable cost_values_in_time : Cost -> Args -> nat -> result Cost.
Variable constraint_values_in_time : Constraint -> Args -> nat -> result Constraint.
Variable benchmark_values_in_time : Benchmark -> Args -> result (Benchmark * Series).
(** [problem.solve] with the keyword arguments of the policy, which
    sees the policy with the values of its parameters set. *)
Variable solve : State -> SolverOutcome.

(** A compiled term that passes the two checks. *)
Definition passes (term : Term) : Prop :=
  term_is_dcp term = true /\ term_is_concave term = true.

(** What a constraint compiles to at step [i] follows the rules. *)
Definition constraint_passes (i : nat) (constr : Constraint) : Prop :=
  forallb constraint_is_dcp
    (constraint_compile constr (w_plus_at_lag i) (z_at_lag i)
       (w_plus_minus_w_bm_at_lag i)) = true.

Definition __init__ (args : InitArgs Cost Constraint) (include_cash_return : bool)
    (terminal_constraint : option Series) (benchmark : Benchmark) : result State :=
  '(planning_horizon, objective, constraints) ←
    match args with
    | StepByStep objective constraints =>
        if bool_decide (length constraints ≠ 0%nat
                        /\ length objective = length constraints)
        then Ok (Z.of_nat (length objective), objective, constraints)
        else Raise SyntaxError
    | SameAtEveryStep objective constraints planning_horizon =>
        match planning_horizon with
        | None => Raise SyntaxError
        | Some planning_horizon =>
            Ok (planning_horizon,
                if bool_decide (1 < planning_horizon)%Z
                then replicate (Z.to_nat planning_horizon) objective
                else [objective],
                if bool_decide (1 < planning_horizon)%Z
                then replicate (Z.to_nat planning_horizon) constraints
                else [constraints])
        end
    end;
  Ok {| _planning_horizon := planning_horizon;
        objective :=
          if include_cash_return then plus_cash_return <$> objective
          else objective;
        constraints := constraints;
        terminal_constraint := terminal_constraint;
        benchmark := benchmark;
        w_bm_value := None; w_current_value := None;
        z_at_lags := []; w_plus_at_lags := []; w_plus_minus_w_bm_at_lags := [];
        problem := None; _current_value := None |}.

(** **** _compile_to_cvxpy *)

(** [[el.compile_to_cvxpy(...) for i, el in enumerate(self.objective)]],
    from [i] on. *)
Fixpoint compile_objective (self : State) (i : nat) (objective : list Cost)
    : result (list Term) :=
  match objective with
  | [] => Ok []
  | el :: objective =>
      w ← index (w_plus_at_lags self) i;
      z ← index (z_at_lags self) i;
      d ← index (w_plus_minus_w_bm_at_lags self) i;
      terms ← compile_objective self (S i) objective;
      Ok (cost_compile el w z d :: terms)
  end.

(** [for el, term in zip(...)]: the two checks, term after term. *)
Fixpoint check_objective (terms : list Term) : result unit :=
  match terms with
  | [] => Ok ()
  | term :: terms =>
      if negb (term_is_dcp term) then Raise ConvexSpecificationError
      else if negb (term_is_concave term) then Raise ConvexityError
      else check_objective terms
  end.

Definition compile_and_check_constraint (self : State) (constr : Constraint)
    (i : nat) : result (list CompiledConstraint) :=
  w ← index (w_plus_at_lags self) i;
  z ← index (z_at_lags self) i;
  d ← index (w_plus_minus_w_bm_at_lags self) i;
  let result := constraint_compile constr w z d in
  if forallb constraint_is_dcp result then Ok result
  else Raise ConvexSpecificationError.

(** [flatten_heterogeneous_list([... for constr in el])] *)
Fixpoint compile_constraints_at (self : State) (i : nat) (el : list Constraint)
    : result (list CompiledConstraint) :=
  match el with
  | [] => Ok []
  | constr :: el =>
      r ← compile_and_check_constraint self constr i;
      rs ← compile_constraints_at self i el;
      Ok (r ++ rs)
  end.

(** [sum([... for i, el in enumerate(self.constraints)], [])], from [i]
    on. *)
Fixpoint compile_constraints (self : State) (i : nat)
    (constraints : list (list Constraint)) : result (list CompiledConstraint) :=
  match constraints with
  | [] => Ok []
  | el :: constraints =>
      r ← compile_constraints_at self i el;
      rs ← compile_constraints self (S i) constraints;
      Ok (r ++ rs)
  end.

(** The loop [for i in range(self._planning_horizon)], from [i] on for
    [n] rounds, with [w] the weights before the trades of step [i]. *)
Fixpoint dynamics (self : State) (i n : nat) (w : Expr)
    : result (list CvxpyConstraint * Expr) :=
  match n with
  | O => Ok ([], w)
  | S n =>
      w_plus ← index (w_plus_at_lags self) i;
      z ← index (z_at_lags self) i;
      d ← index (w_plus_minus_w_bm_at_lags self) i;
      '(rest, w_last) ← dynamics self (S i) n (Variable_ w_plus);
      Ok (Equality (Variable_ w_plus) (Plus (Variable_ z) w)
          :: Equality (Minus (Variable_ w_plus) (Parameter_ w_bm)) (Variable_ d)
          :: rest, w_last)
  end.

Definition _compile_to_cvxpy (self : State) : Eff State :=
  _ ← tell Compile;
  cvxpy_objective ← lift (compile_objective self 0 (objective self));
  _ ← lift (check_objective cvxpy_objective);
  cvxpy_constraints ← lift (compile_constraints self 0 (constraints self));
  let cvxpy_constraints :=
    (Compiled <$> cvxpy_constraints)
    ++ ((fun z => Equality (cp_sum (Variable_ z)) (Scalar_ 0)) <$> z_at_lags self) in
  '(wiring, w) ← lift (dynamics self 0 (Z.to_nat (_planning_horizon self))
                         (Parameter_ w_current));
  let cvxpy_constraints := cvxpy_constraints ++ wiring in
  let cvxpy_constraints :=
    match terminal_constraint self with
    | Some target => cvxpy_constraints ++ [Equality w (Constant_ target)]
    | None => cvxpy_constraints
    end in
  let problem := {| maximize := cvxpy_objective; subject_to := cvxpy_constraints |} in
  if problem_is_dcp problem
  then mret {| objective := objective self; constraints := constraints self;
               _planning_horizon := _planning_horizon self;
               terminal_constraint := terminal_constraint self;
               benchmark := benchmark self;
               w_bm_value := w_bm_value self;
               w_current_value := w_current_value self;
               z_at_lags := z_at_lags self;
               w_plus_at_lags := w_plus_at_lags self;
               w_plus_minus_w_bm_at_lags := w_plus_minus_w_bm_at_lags self;
               problem := Some problem;
               _current_value := _current_value self |}
  else raise SyntaxError.

(** **** initialize_estimator_recursive *)

Fixpoint initialize_objective (i : nat) (objective : list Cost) (universe : nat)
    (trading_calendar : list Timestamp) : Eff (list Cost) :=
  match objective with
  | [] => mret []
  | obj :: objective =>
      _ ← tell (InitializeObjective i);
      obj ← lift (cost_initialize obj universe trading_calendar);
      objective ← initialize_objective (S i) objective universe trading_calendar;
      mret (obj :: objective)
  end.

Fixpoint initialize_constraints_at (i j : nat) (constr_at_lag : list Constraint)
    (universe : nat) (trading_calendar : list Timestamp) : Eff (list Constraint) :=
  match constr_at_lag with
  | [] => mret []
  | constr :: constr_at_lag =>
      _ ← tell (InitializeConstraint i j);
      constr ← lift (constraint_initialize constr universe trading_calendar);
      constr_at_lag ←
        initialize_constraints_at i (S j) constr_at_lag universe trading_calendar;
      mret (constr :: constr_at_lag)
  end.

Fixpoint initialize_constraints (i : nat) (constraints : list (list Constraint))
    (universe : nat) (trading_calendar : list Timestamp)
    : Eff (list (list Constraint)) :=
  match constraints with
  | [] => mret []
  | constr_at_lag :: constraints =>
      constr_at_lag ←
        initialize_constraints_at i 0 constr_at_lag universe trading_calendar;
      constraints ←
        initialize_constraints (S i) constraints universe trading_calendar;
      mret (constr_at_lag :: constraints)
  end.

(** The part of [initialize_estimator_recursive] before the call of
    [_compile_to_cvxpy]: the terms, the benchmark, and fresh variables. *)
Definition initialize_and_allocate (self : State) (universe : nat)
    (trading_calendar : list Timestamp) : Eff State :=
  objective ← initialize_objective 0 (objective self) universe trading_calendar;
  constraints ←
    initialize_constraints 0 (constraints self) universe trading_calendar;
  _ ← tell InitializeBenchmark;
  benchmark ← lift (benchmark_initialize (benchmark self) universe trading_calendar);
  let range := seq 0 (Z.to_nat (_planning_horizon self)) in
  mret {| objective := objective; constraints := constraints;
          _planning_horizon := _planning_horizon self;
          terminal_constraint := terminal_constraint self;
          benchmark := benchmark;
          w_bm_value := None; w_current_value := None;
          z_at_lags := z_at_lag <$> range;
          w_plus_at_lags := w_plus_at_lag <$> range;
          w_plus_minus_w_bm_at_lags := w_plus_minus_w_bm_at_lag <$> range;
          problem := problem self;
          _current_value := _current_value self |}.

Definition initialize_estimator_recursive (self : State) (universe : nat)
    (trading_calendar : list Timestamp) : Eff State :=
  self ← initialize_and_allocate self universe trading_calendar;
  _compile_to_cvxpy self.

(** **** values_in_time_recursive *)

Fixpoint values_in_time_objective (i : nat) (objective : list Cost) (a : Args)
    : Eff (list Cost) :=
  match objective with
  | [] => mret []
  | obj :: objective =>
      _ ← tell (ValuesInTimeObjective i);
      obj ← lift (cost_values_in_time obj a i);
      objective ← values_in_time_objective (S i) objective a;
      mret (obj :: objective)
  end.

Fixpoint values_in_time_constraints_at (i j : nat) (constr_at_lag : list Constraint)
    (a : Args) : Eff (list Constraint) :=
  match constr_at_lag with
  | [] => mret []
  | constr :: constr_at_lag =>
      _ ← tell (ValuesInTimeConstraint i j);
      constr ← lift (constraint_values_in_time constr a i);
      constr_at_lag ← values_in_time_constraints_at i (S j) constr_at_lag a;
      mret (constr :: constr_at_lag)
  end.

Fixpoint values_in_time_constraints (i : nat) (constraints : list (list Constraint))
    (a : Args) : Eff (list (list Constraint)) :=
  match constraints with
  | [] => mret []
  | constr_at_lag :: constraints =>
      constr_at_lag ← values_in_time_constraints_at i 0 constr_at_lag a;
      constraints ← values_in_time_constraints (S i) constraints a;
      mret (constr_at_lag :: constraints)
  end.

(** [np.isclose(x, 1)], with the default tolerances of numpy. *)
Definition isclose1 (x : Float) : bool :=
  match x with
  | Some x =>
      bool_decide (x - 1 <= q 1 100000000 + q 1 100000
                   /\ 1 - x <= q 1 100000000 + q 1 100000)
  | None => false
  end.

(** The part of [values_in_time_recursive] before the [try] block: the
    checks, the terms, the benchmark and the values of the two
    parameters. *)
Definition refresh (self : State) (a : Args) : Eff State :=
  _ ← tell (ValuesInTime (t a));
  _ ← (if negb (fgt0 (current_portfolio_value a)) then raise DataError
       else mret ());
  _ ← assert (isclose1 (np_sum (current_weights a)));
  objective ← values_in_time_objective 0 (objective self) a;
  constraints ← values_in_time_constraints 0 (constraints self) a;
  _ ← tell ValuesInTimeBenchmark;
  '(benchmark, benchmark_current_value) ←
    lift (benchmark_values_in_time (benchmark self) a);
  mret {| objective := objective; constraints := constraints;
          _planning_horizon := _planning_horizon self;
          terminal_constraint := terminal_constraint self;
          benchmark := benchmark;
          w_bm_value := Some benchmark_current_value;
          w_current_value := Some (current_weights a);
          z_at_lags := z_at_lags self;
          w_plus_at_lags := w_plus_at_lags self;
          w_plus_minus_w_bm_at_lags := w_plus_minus_w_bm_at_lags self;
          problem := problem self;
          _current_value := _current_value self |}.

(** [current_weights + pd.Series(self.z_at_lags[0].value,
    current_weights.index)]; a value that is [None] gives a series of
    NaN. *)
Definition extract (self : State) (a : Args) (value : Var -> option Series)
    : result Series :=
  z ← index (z_at_lags self) 0;
  z_value ← pd_Series
              (default (replicate (length (current_weights a)) None) (value z))
              (length (current_weights a));
  Ok (series_add (current_weights a) z_value).

(** The [try] block and what follows it. *)
Definition solve_and_extract (self : State) (a : Args) : Eff (State * Series) :=
  _ ← (if problem self is Some _ then mret () else raise AttributeError);
  _ ← tell Solve;
  match solve self with
  | SolverError => raise PortfolioOptimizationError
  | Solved status value =>
      if bool_decide (status ∈ [unbounded; unbounded_inaccurate])
      then raise PortfolioOptimizationError
      else if bool_decide (status ∈ [infeasible; infeasible_inaccurate])
      then raise PortfolioOptimizationError
      else
        result ← lift (extract self a value);
        mret ({| objective := objective self; constraints := constraints self;
                 _planning_horizon := _planning_horizon self;
                 terminal_constraint := terminal_constraint self;
                 benchmark := benchmark self;
                 w_bm_value := w_bm_value self;
                 w_current_value := w_current_value self;
                 z_at_lags := z_at_lags self;
                 w_plus_at_lags := w_plus_at_lags self;
                 w_plus_minus_w_bm_at_lags := w_plus_minus_w_bm_at_lags self;
                 problem := problem self;
                 _current_value := Some result |}, result)
  end.

Definition values_in_time_recursive (self : State) (a : Args)
    : Eff (State * Series) :=
  self ← refresh self a;
  solve_and_extract self a.

(** **** What the constraints built by the policy mean

    The variables take series as values; [cp.sum] gives a scalar, a
    series of length one; what a constraint compiled from a term of the
    user means is given with the term. *)
Variable compiled_holds : (Var -> Series) -> CompiledConstraint -> Prop.

Fixpoint eval (value : Var -> Series) (bm current : Series) (e : Expr) : Series :=
  match e with
  | Variable_ v => value v
  | Parameter_ w_bm => bm
  | Parameter_ w_current => current
  | Constant_ s => s
  | Scalar_ c => [Some c]
  | Plus a b => series_add (eval value bm current a) (eval value bm current b)
  | Minus a b => series_sub (eval value bm current a) (eval value bm current b)
  | cp_sum a => [np_sum (eval value bm current a)]
  end.

Definition holds (value : Var -> Series) (bm current : Series)
    (c : CvxpyConstraint) : Prop :=
  match c with
  | Equality lhs rhs => eval value bm current lhs = eval value bm current rhs
  | Compiled c => compiled_holds value c
  end.

(** The values of the variables are a solution of the problem. *)
Definition feasible (p : Problem) (value : Var -> Series) (bm current : Series) : Prop :=
  Forall (holds value bm current) (subject_to p).
End MPO.

End MultiPeriodOptimization.

(** *** Terms, benchmark and solver for examples

    A term of the user is given by the curvature cvxpy finds for the
    expression it compiles to, a constraint by whether what it compiles to
    follows the rules of cvxpy. *)
Module Example.
Import MultiPeriodOptimization.

Inductive Curvature := CONSTANT | AFFINE | CONVEX | CONCAVE | UNKNOWN.

Definition is_dcp (c : Curvature) : bool :=
  if c is UNKNOWN then false else true.

Definition is_concave (c : Curvature) : bool :=
  match c with
  | CONSTANT | AFFINE | CONCAVE => true
  | _ => false
  end.

Definition cost_compile (el : Curvature) (w z d : Var) : Curvature := el.
Definition constraint_compile (constr : bool) (w z d : Var) : list bool := [constr].

Definition problem_is_dcp (p : @Problem Curvature bool) : bool :=
  forallb is_concave (maximize p)
  && forallb (fun c => match c with
                       | Equality _ _ => true
                       | Compiled c => c
                       end) (subject_to p).

Definition initialize {A} (x : A) (universe : nat)
    (trading_calendar : list Timestamp) : result A := Ok x.

Definition values_in_time {A} (x : A) (a : Args) (mpo_step : nat) : result A := Ok x.

(** [AllCash] as benchmark. *)
Definition benchmark_values_in_time (_ : unit) (a : Args) : result (unit * Series) :=
  Ok ((), replicate (columns (past_returns a) - 1) (Some 0) ++ [Some 1]).

Abbreviation State := (@State Curvature bool unit Curvature bool).

(** A solver that finds the trades [1/2, -1/2, 0] at every step, and
    one that fails. *)
Definition solve_optimal (_ : State) : SolverOutcome :=
  Solved optimal (fun _ => Some [Some (q 1 2); Some (q (-1) 2); Some 0]).
Definition solve_infeasible (_ : State) : SolverOutcome :=
  Solved infeasible (fun _ => None).

Definition initialize_estimator_recursive :=
  initialize_estimator_recursive (Benchmark:=unit) initialize initialize initialize
    cost_compile constraint_compile is_dcp is_concave id problem_is_dcp.

Definition values_in_time_recursive (solve : State -> SolverOutcome) :=
  values_in_time_recursive (Term:=Curvature) (CompiledConstraint:=bool)
    values_in_time values_in_time benchmark_values_in_time solve.

(** The policy after [__init__], or a policy with nothing in it when
    [__init__] raises. *)
Definition policy (args : InitArgs Curvature bool)
    (terminal_constraint : option Series) : State :=
  match __init__ id args false terminal_constraint () with
  | Ok self => self
  | Raise _ =>
      {| objective := []; constraints := []; _planning_horizon := 0;
         terminal_constraint := None; benchmark := ();
         w_bm_value := None; w_current_value := None;
         z_at_lags := []; w_plus_at_lags := []; w_plus_minus_w_bm_at_lags := [];
         problem := None; _current_value := None |}
  end.

(** Two steps, concave terms, and a target for the last step. *)
Definition two_steps : State :=
  policy (SameAtEveryStep CONCAVE [true] (Some 2%Z))
    (Some [Some 0; Some 0; Some 1]).

(** Two steps: a convex term, then a term outside the rules. *)
Definition convex_then_unknown : State :=
  policy (StepByStep [CONVEX; UNKNOWN] [[]; []]) None.

(** The policy [two_steps] after [initialize_estimator_recursive] for
    three assets, and what that logs. *)
Definition two_steps_compiled : State :=
  match (initialize_estimator_recursive two_steps 3 [10%Z] []).1 with
  | Ok self => self
  | Raise _ => two_steps
  end.

Definition two_steps_compiled_log : list event :=
  (initialize_estimator_recursive two_steps 3 [10%Z] []).2.

(** Three assets and no history yet, with all the weight in cash. *)
Definition args : Args :=
  {| t := 10%Z;
     past_returns := {| columns := 3; rows := [] |};
     past_volumes := None;
     current_weights := [Some 0; Some 0; Some 1];
     current_portfolio_value := Some (q 1000 1);
     current_prices := None |}.

(** The policy [two_steps_compiled] with its terms, its benchmark and its
    parameters refreshed, and what that logs. *)
Definition two_steps_refreshed : State :=
  match (refresh (Term:=Curvature) (CompiledConstraint:=bool) values_in_time
           values_in_time benchmark_values_in_time two_steps_compiled args []).1 with
  | Ok self => self
  | Raise _ => two_steps_compiled
  end.

Definition two_steps_refreshed_log : list event :=
  (refresh (Term:=Curvature) (CompiledConstraint:=bool) values_in_time
     values_in_time benchmark_values_in_time two_steps_compiled args []).2.

(** Holdings whose sum is negative. *)
Definition negative_holdings : Series :=
  [Some (q 100 1); Some 0; Some 0; Some 0; Some 0; Some (q (-500) 1)].

(** Target weights given for the time 10 only. *)
Definition weights_at_10 : DataEstimator.Data :=
  DataEstimator.InTime {[ 10%Z := uniform6 ]}.
End Example.

End Policies.


(** ** forecast.py: the forecasters that take a square root *)
Module HistoricalStandardDeviation.
Import Forecast.
Section StandardDeviation.
(** The square root of a float that is not negative. *)
Variable sqrt : Qc -> Qc.

Definition values_in_time (t : Timestamp) (past_returns : DataFrame)
    (k : bool) (mean_current_value : list Float) (self : option Stats)
    : result (Stats * list Float) :=
  '(s, variances) ←
    HistoricalVariance.values_in_time t past_returns k mean_current_value self;
  Ok (s, HistoricalFactorizedCovariance.np_sqrt sqrt <$> (variances : list Float)).

(** Modelled from the spec: [Estimator.values_in_time_recursive] of
    estimator.py, as for [HistoricalVariance]: "children refresh before the
    parent computes its own value". *)
Definition values_in_time_recursive (t : Timestamp) (past_returns : DataFrame)
    (self : HistoricalVariance.State)
    : result (HistoricalVariance.State * list Float) :=
  if HistoricalVariance.kelly self then
    '(s, v) ← values_in_time t past_returns true []
                (HistoricalVariance.stats self);
    Ok ({| HistoricalVariance.kelly := true;
           HistoricalVariance.meanforecaster :=
             HistoricalVariance.meanforecaster self;
           HistoricalVariance.stats := Some s |}, v)
  else
    '(m, mv) ←
      HistoricalMeanReturn.values_in_time t past_returns
        (HistoricalVariance.meanforecaster self);
    '(s, v) ← values_in_time t past_returns false mv
                (HistoricalVariance.stats self);
    Ok ({| HistoricalVariance.kelly := false;
           HistoricalVariance.meanforecaster := Some m;
           HistoricalVariance.stats := Some s |}, v).
End StandardDeviation.
End HistoricalStandardDeviation.

Module HistoricalMeanError.
Import Forecast.
Section MeanError.
Variable sqrt : Qc -> Qc.

(** [__init__]: the variance is the centered one. *)
Definition __init__ : HistoricalVariance.State :=
  HistoricalVariance.__post_init__ false.

(** [x / n] for a float and a count. *)
Definition fdiv_count (x : Float) (n : Z) : Float := x ≫= fun v => fdiv v n.

Definition values_in_time (t : Timestamp) (past_returns : DataFrame)
    (mean_current_value : list Float) (self : option Stats)
    : result (Stats * list Float) :=
  '(s, variance) ←
    HistoricalVariance.values_in_time t past_returns false mean_current_value self;
  Ok (s, HistoricalFactorizedCovariance.np_sqrt sqrt
           <$> zip_with fdiv_count (variance : list Float) (last_counts s)).

(** Modelled from the spec: [Estimator.values_in_time_recursive] of
    estimator.py, as for [HistoricalVariance] without [kelly]. *)
Definition values_in_time_recursive (t : Timestamp) (past_returns : DataFrame)
    (self : HistoricalVariance.State)
    : result (HistoricalVariance.State * list Float) :=
  '(m, mv) ←
    HistoricalMeanReturn.values_in_time t past_returns
      (HistoricalVariance.meanforecaster self);
  '(s, v) ← values_in_time t past_returns mv (HistoricalVariance.stats self);
  Ok ({| HistoricalVariance.kelly := false;
         HistoricalVariance.meanforecaster := Some m;
         HistoricalVariance.stats := Some s |}, v).
End MeanError.
End HistoricalMeanError.

(** ** forecast.py: more on the histories the forecasters see *)
Module ForecastRuns.
Import Forecast HistoricalFactorizedCovariance.

(** Two arrays with the same shape and the same entries. *)
Definition same_entries (A B : Matrix) : Prop :=
  nrows A = nrows B /\ ncols A = ncols B /\ forall i j, entry A i j = entry B i j.

(** [M == M.T], entry by entry. *)
Definition symmetric (M : Matrix) : Prop :=
  forall i j, entry M i j = entry M j i.

Section IncrementalRuns.
Variable cols : nat.
Variable hist : list (Timestamp * Row).
Variable time : nat -> Timestamp.

(** [HistoricalFactorizedCovariance]: from scratch on the first [j]
    lines, then [n] online updates, one per new line. *)
Fixpoint covariance_incremental (kelly : bool) (j n : nat) : result State :=
  match n with
  | O => Ok (_initial_compute kelly (time j) (frame cols hist j))
  | S n' =>
      s ← covariance_incremental kelly j n';
      _online_update kelly (time (j + n)) (frame cols hist (j + n)) s
  end.
End IncrementalRuns.

(** The history with the cash entry of line [i] replaced by [x]. *)
Definition set_cash (i : nat) (x : Float) (hist : list (Timestamp * Row))
    : list (Timestamp * Row) :=
  alter (fun r => (r.1, <[(length r.2 - 1)%nat := x]> r.2)) i hist.

(** Two assets and cash: the second asset has no value on the second
    line. *)
Definition example_gap : list (Timestamp * Row) :=
  [ (10%Z, [Some (q 1 100); Some (q 2 100); Some 0]);
    (11%Z, [Some (q 3 100); None; Some 0]) ].
End ForecastRuns.

(** ** policies.py: the policies that do not optimize *)
Module SimplePolicies.
Import Forecast Policies.

Section Estimator.
Context {P : Type}.
(** [initialize_estimator] and [values_in_time] of the policy. *)
Variable initialize_estimator : P -> nat -> list Timestamp -> result P.
Variable values_in_time : P -> Args -> result Series.

(** Modelled from the spec: [Estimator.initialize_estimator_recursive] of
    estimator.py, which is not part of the sources at hand, on a policy
    without sub-estimators: "children initialize before the parent", then
    the policy's own [initialize_estimator]. *)
Definition initialize_estimator_recursive (self : P) (universe : nat)
    (trading_calendar : list Timestamp) : Eff P :=
  _ ← tell InitializeEstimator;
  lift (initialize_estimator self universe trading_calendar).

(** Modelled from the spec: [Estimator.values_in_time_recursive] of
    estimator.py, which is not part of the sources at hand, on a policy
    without sub-estimators: "children refresh before the parent computes
    its own value", which is what [values_in_time] returns. *)
Definition values_in_time_recursive (self : P) (a : Args) : Eff (P * Series) :=
  _ ← tell (ValuesInTime (t a));
  result ← lift (values_in_time self a);
  mret (self, result).
End Estimator.

(** A policy that defines no [initialize_estimator]. *)
Definition no_initialize_estimator {P} (self : P) (universe : nat)
    (trading_calendar : list Timestamp) : result P := Ok self.

(** *** Hold *)
Module Hold.
Definition values_in_time (self : unit) (a : Args) : result Series :=
  Ok (current_weights a).
End Hold.

(** *** AllCash *)
Module AllCash.
Definition values_in_time (self : unit) (a : Args) : result Series :=
  let result := replicate (columns (past_returns a)) (Some 0) in
  Uniform.set_last result (Some 1).
End AllCash.

(** *** SellAll *)
Module SellAll.
Definition values_in_time (self : unit) (a : Args) : result Series :=
  let target := replicate (length (current_weights a)) (Some 0) in
  target ← Uniform.set_last target (Some 1);
  pd_Series target (length (current_weights a)).
End SellAll.

(** *** MarketBenchmark *)
Module MarketBenchmark.
Section MarketBenchmark.
(** [pd.Timedelta('365d')], in the unit of the timestamps. *)
Variable days365 : Z.

(** [df.mean()], one value per column; missing entries are skipped, and
    a column without entries has no mean. *)
Definition mean (df : DataFrame) : list Float :=
  zip_with fdiv (sum df) (count df).

Definition values_in_time (self : unit) (a : Args) : result Series :=
  match past_volumes a with
  | None => Raise DataError
  | Some past_volumes =>
      last ← index_last past_volumes;
      let sumvolumes :=
        mean {| columns := columns past_volumes;
                rows := filter (fun r => (last - days365 <= r.1)%Z)
                          (rows past_volumes) |} in
      let result := series_div sumvolumes (np_sum sumvolumes) ++ [Some 0] in
      pd_Series result (columns (past_returns a))
  end.
End MarketBenchmark.
End MarketBenchmark.

(** *** ProportionalTradeToTargets *)
Module ProportionalTradeToTargets.
(** [targets], a frame indexed by time, and [trading_days], which is only
    set by [initialize_estimator]. *)
Record State := {
  targets : DataFrame;
  trading_days : option (list Timestamp)
}.

Definition __init__ (targets : DataFrame) : State :=
  {| targets := targets; trading_days := None |}.

Definition initialize_estimator (self : State) (universe : nat)
    (trading_calendar : list Timestamp) : result State :=
  Ok {| targets := targets self; trading_days := Some trading_calendar |}.

(** [x / n] for a series and a whole number. *)
Definition series_div_int (x : Series) (n : nat) : Series :=
  series_div x (Some (Q2Qc (inject_Z (Z.of_nat n)))).

Definition values_in_time (self : State) (a : Args) : result Series :=
  let next_targets :=
    filter (fun r => (t a <= r.1)%Z) (rows (targets self)) in
  if negb (forallb (fun r => MultiPeriodOptimization.isclose1 (pd_sum r.2))
             next_targets)
  then Raise ValueError
  else
    match next_targets with
    | [] => Ok (current_weights a)
    | next :: _ =>
        let next_target := next.2 in
        let next_target_day := next.1 in
        trading_days ← from_option Ok (Raise AttributeError) (trading_days self);
        let trading_days_to_target :=
          length (filter (fun d => (t a <= d)%Z /\ (d < next_target_day)%Z)
                    trading_days) in
        if decide (trading_days_to_target = 0%nat) then Ok (current_weights a)
        else Ok (series_add (current_weights a)
                   (series_div_int (series_sub next_target (current_weights a))
                      trading_days_to_target))
    end.
End ProportionalTradeToTargets.

(** *** PeriodicRebalance *)
Module PeriodicRebalance.
(** [pd.DataFrame({el: target for el in rebalancing_times}).T], given to
    [FixedWeights]. *)
Definition __init__ (target : Series) (rebalancing_times : list Timestamp)
    : FixedWeights.State :=
  FixedWeights.__init__
    (DataEstimator.InTime
       (list_to_map ((fun el => (el, target)) <$> rebalancing_times))).
End PeriodicRebalance.

(** *** SinglePeriodOptimization *)
Module SinglePeriodOptimization.
Import MultiPeriodOptimization.
Section SPO.
Context {Cost Constraint Benchmark Term CompiledConstraint : Type}.
Variable plus_cash_return : Cost -> Cost.

Definition __init__ (objective : Cost) (constraints : list Constraint)
    (include_cash_return : bool) (benchmark : Benchmark)
    : result (@State Cost Constraint Benchmark Term CompiledConstraint) :=
  MultiPeriodOptimization.__init__ plus_cash_return
    (StepByStep [objective] [constraints]) include_cash_return None benchmark.
End SPO.
End SinglePeriodOptimization.

(** The trades of the steps [0] to [i] added to the current weights, in
    the order the policy adds them. *)
Fixpoint cumulative_trades (value : MultiPeriodOptimization.Var -> Series)
    (current : Series) (i : nat) : Series :=
  match i with
  | O => series_add (value (MultiPeriodOptimization.z_at_lag 0)) current
  | S j =>
      series_add (value (MultiPeriodOptimization.z_at_lag i))
        (cumulative_trades value current j)
  end.

End SimplePolicies.
(** ** Examples for the policies *)
Module MoreExamples.
Import Forecast Policies MultiPeriodOptimization.

(** Holdings of 600 and 300 in the first two of five assets, and 100 in
    cash. *)
Definition example_assets : list Qc := [q 600 1; q 300 1; 0; 0; 0].
Definition example_cash : Qc := q 100 1.
Definition example_holdings : list Qc := example_assets ++ [example_cash].

(** Trade weights: a tenth of the value from the second asset to the
    first. *)
Definition example_trades : list Qc := [q 1 10; q (-1) 10; 0; 0; 0; 0].

(** Two assets and cash; one target, half in each asset, for the time 12,
    and the trading days of [example_market_data]. *)
Definition example_target : Series := [Some (q 1 2); Some (q 1 2); Some 0].

Definition example_targets : SimplePolicies.ProportionalTradeToTargets.State :=
  {| SimplePolicies.ProportionalTradeToTargets.targets :=
       {| columns := 3; rows := [(12%Z, example_target)] |};
     SimplePolicies.ProportionalTradeToTargets.trading_days :=
       Some [10; 11; 12; 13]%Z |}.

(** The same with a second target, for the time 20, that sums to 2. *)
Definition example_bad_targets : SimplePolicies.ProportionalTradeToTargets.State :=
  {| SimplePolicies.ProportionalTradeToTargets.targets :=
       {| columns := 3;
          rows := [(12%Z, example_target);
                   (20%Z, [Some 1; Some 1; Some 0])] |};
     SimplePolicies.ProportionalTradeToTargets.trading_days :=
       Some [10; 11; 12; 13]%Z |}.

(** The arguments of a decision at time [t], with all the weight in the
    first of two assets. *)
Definition example_args (t : Timestamp) : Args :=
  {| Policies.t := t;
     past_returns := {| columns := 3; rows := [] |};
     past_volumes :=
       Some {| columns := 2;
               rows := [ (8%Z, [Some (q 100 1); Some (q 300 1)]);
                         (9%Z, [Some (q 300 1); Some (q 100 1)]) ] |};
     current_weights := [Some 1; Some 0; Some 0];
     current_portfolio_value := Some (q 1000 1);
     current_prices := None |}.

(** A solution of the problem of [Example.two_steps]: half of the cash
    goes to the first asset at the first step and comes back at the
    second. *)
Definition example_solution (x : Var) : Series :=
  let z0 := [Some (q 1 2); Some 0; Some (q (-1) 2)] in
  let z1 := [Some (q (-1) 2); Some 0; Some (q 1 2)] in
  let current := [Some 0; Some 0; Some 1] in
  let w0 := series_add z0 current in
  let w1 := series_add z1 w0 in
  match x with
  | z_at_lag O => z0
  | z_at_lag (S O) => z1
  | w_plus_at_lag O => w0
  | w_plus_at_lag (S O) => w1
  | w_plus_minus_w_bm_at_lag O => series_sub w0 current
  | w_plus_minus_w_bm_at_lag (S O) => series_sub w1 current
  | _ => [Some 0; Some 0; Some 0]
  end.

(** An objective term whose forecast fails at the second step. *)
Definition failing_values_in_time (x : Example.Curvature) (a : Args)
    (mpo_step : nat) : result Example.Curvature :=
  if decide (mpo_step = 1%nat) then Raise ForecastError else Ok x.

(** A solver that finds no trade to make, for a universe of six names. *)
Definition solve_no_trade (_ : Example.State) : SolverOutcome :=
  Solved optimal (fun _ => Some (replicate 6 (Some 0))).

(** One step, a concave term, no terminal constraint. *)
Definition one_step : Example.State :=
  Example.policy (SameAtEveryStep Example.CONCAVE [true] (Some 1%Z)) None.
End MoreExamples.

(** * Properties *)

(** ** Incremental forecasts *)
Section ForecastFacts.
Import Forecast.
Local Arguments _agnostic_update : simpl never.

Lemma count_col_snoc j rs r :
  count_col j (rs ++ [r]) = (count_col j rs + notnull (cell r.2 j))%Z.
Proof. induction rs as [|a rs IH]; simpl; [lia | rewrite IH; lia]. Qed.

Lemma sum_col_snoc f j rs r :
  sum_col f j (rs ++ [r]) = sum_col f j rs + fillna0 (f <$> cell r.2 j).
Proof. induction rs as [|a rs IH]; simpl; [ring | rewrite IH; ring]. Qed.

(** Adding a series built from a line to a series indexed by the
    columns. *)
Lemma zip_with_columns {A} (op : A -> A -> A) (f : nat -> A)
    (g : Float -> A) (l : Row) n :
  length l = n ->
  zip_with op (f <$> seq 0 n) (g <$> l)
  = (fun j => op (f j) (g (cell l j))) <$> seq 0 n.
Proof.
  intros Hlen. apply list_eq. intros i.
  rewrite lookup_zip_with, !list_lookup_fmap.
  destruct (decide (i < n)%nat) as [Hi|Hi].
  - rewrite lookup_seq_lt by done.
    destruct (lookup_lt_is_Some_2 l i) as [x Hx]; [lia|].
    unfold cell. simpl. rewrite Hx. reflexivity.
  - rewrite lookup_seq_ge by lia. reflexivity.
Qed.

Lemma frame_snoc cols hist k r :
  hist !! k = Some r ->
  rows (frame cols hist (S k)) = rows (frame cols hist k) ++ [r].
Proof. intros H. simpl. by apply take_S_r. Qed.

Lemma drop_cash_length (r : Row) n : length r = n -> length (drop_cash r) = pred n.
Proof.
  intros <-. unfold drop_cash. rewrite length_take. lia.
Qed.

(** The statistics of a frame with one more line, from those of the
    frame without it. *)
Section OneMoreLine.
Variables (df df' : DataFrame) (r : Timestamp * Row).
Hypothesis Hcols : columns df' = columns df.
Hypothesis Hrows : rows df' = rows df ++ [r].
Hypothesis Hlen : length r.2 = columns df.

Lemma iloc_last_noncash_snoc : iloc_last_noncash df' = Ok (drop_cash r.2).
Proof. unfold iloc_last_noncash. by rewrite Hrows, last_snoc. Qed.

Lemma index_last_snoc : index_last df' = Ok r.1.
Proof. unfold index_last. by rewrite Hrows, last_snoc. Qed.

Lemma count_snoc :
  zip_with Z.add (count (iloc_noncash df)) (notnull <$> drop_cash r.2)
  = count (iloc_noncash df').
Proof.
  unfold count. simpl. rewrite Hcols, Hrows, map_app. simpl.
  rewrite zip_with_columns by (by apply drop_cash_length).
  apply map_ext. intros j. by rewrite count_col_snoc.
Qed.

Lemma sum_snoc :
  zip_with Qcplus (sum (iloc_noncash df)) (fillna0 <$> drop_cash r.2)
  = sum (iloc_noncash df').
Proof.
  unfold sum. simpl. rewrite Hcols, Hrows, map_app. simpl.
  rewrite zip_with_columns by (by apply drop_cash_length).
  apply map_ext. intros j. rewrite sum_col_snoc. simpl.
  by destruct (cell (drop_cash r.2) j).
Qed.

Lemma sum_squares_snoc :
  zip_with Qcplus (sum_squares (iloc_noncash df))
    ((fun x => fillna0 x * fillna0 x) <$> drop_cash r.2)
  = sum_squares (iloc_noncash df').
Proof.
  unfold sum_squares. simpl. rewrite Hcols, Hrows, map_app. simpl.
  rewrite zip_with_columns by (by apply drop_cash_length).
  apply map_ext. intros j. rewrite sum_col_snoc. simpl.
  destruct (cell (drop_cash r.2) j); simpl; [done | f_equal; ring].
Qed.

Lemma mean_online_update_snoc t t' :
  HistoricalMeanReturn._online_update t df'
    (HistoricalMeanReturn._initial_compute t' df)
  = Ok (HistoricalMeanReturn._initial_compute t df').
Proof.
  unfold HistoricalMeanReturn._online_update. rewrite iloc_last_noncash_snoc.
  simpl. by rewrite count_snoc, sum_snoc.
Qed.

Lemma variance_online_update_snoc t t' :
  HistoricalVariance._online_update t df'
    (HistoricalVariance._initial_compute t' df)
  = Ok (HistoricalVariance._initial_compute t df').
Proof.
  unfold HistoricalVariance._online_update. rewrite iloc_last_noncash_snoc.
  simpl. by rewrite count_snoc, sum_squares_snoc.
Qed.

(** Whichever branch [_agnostic_update] takes on the longer frame, the
    state is the one computed from scratch. *)
Lemma mean_agnostic_update_snoc t t' :
  _agnostic_update last_time HistoricalMeanReturn._initial_compute
    HistoricalMeanReturn._online_update t df'
    (Some (HistoricalMeanReturn._initial_compute t' df))
  = Ok (HistoricalMeanReturn._initial_compute t df').
Proof.
  unfold _agnostic_update. rewrite index_last_snoc. simpl.
  case_decide; [done | apply mean_online_update_snoc].
Qed.

Lemma variance_agnostic_update_snoc t t' :
  _agnostic_update last_time HistoricalVariance._initial_compute
    HistoricalVariance._online_update t df'
    (Some (HistoricalVariance._initial_compute t' df))
  = Ok (HistoricalVariance._initial_compute t df').
Proof.
  unfold _agnostic_update. rewrite index_last_snoc. simpl.
  case_decide; [done | apply variance_online_update_snoc].
Qed.
End OneMoreLine.

(** With the last line indexed by the time of the last call, the update
    is online. *)
Lemma agnostic_update_contiguous {St} (_last_time : St -> Timestamp)
    _initial_compute _online_update cols hist k r t (s : St) :
  hist !! k = Some r -> _last_time s = r.1 ->
  _agnostic_update _last_time _initial_compute _online_update t
    (frame cols hist (S k)) (Some s)
  = _online_update t (frame cols hist (S k)) s.
Proof.
  intros Hk Hs. unfold _agnostic_update, index_last.
  rewrite (frame_snoc _ _ _ _ Hk), last_snoc. simpl.
  by rewrite decide_False by (by intros ?).
Qed.

Section AlongHistory.
Variables (cols : nat) (hist : list (Timestamp * Row)) (time : nat -> Timestamp).
Hypothesis Hrect : rectangular {| columns := cols; rows := hist |}.

Lemma next_line k :
  (S k <= length hist)%nat ->
  exists r, rows (frame cols hist (S k)) = rows (frame cols hist k) ++ [r]
            /\ length r.2 = columns (frame cols hist k).
Proof.
  intros Hk. destruct (lookup_lt_is_Some_2 hist k) as [r Hr]; [lia|].
  exists r. split; [by apply frame_snoc|].
  unfold rectangular in Hrect. rewrite Forall_lookup in Hrect.
  apply (Hrect _ _ Hr).
Qed.

Lemma incremental_mean j n :
  (j + n <= length hist)%nat ->
  incremental cols hist time HistoricalMeanReturn._initial_compute
    HistoricalMeanReturn._online_update j n
  = Ok (HistoricalMeanReturn._initial_compute (time (j + n)%nat)
          (frame cols hist (j + n))).
Proof.
  induction n as [|n IH]; intros Hn.
  - simpl. by rewrite Nat.add_0_r.
  - cbn [incremental]. rewrite IH by lia. simpl.
    replace (j + S n)%nat with (S (j + n)) by lia.
    destruct (next_line (j + n)) as (r & Hr & Hl); [lia|].
    by apply (mean_online_update_snoc _ _ r).
Qed.

Lemma incremental_variance j n :
  (j + n <= length hist)%nat ->
  incremental cols hist time HistoricalVariance._initial_compute
    HistoricalVariance._online_update j n
  = Ok (HistoricalVariance._initial_compute (time (j + n)%nat)
          (frame cols hist (j + n))).
Proof.
  induction n as [|n IH]; intros Hn.
  - simpl. by rewrite Nat.add_0_r.
  - cbn [incremental]. rewrite IH by lia. simpl.
    replace (j + S n)%nat with (S (j + n)) by lia.
    destruct (next_line (j + n)) as (r & Hr & Hl); [lia|].
    by apply (variance_online_update_snoc _ _ r).
Qed.

Lemma mean_run_scratch j n :
  (j + n <= length hist)%nat ->
  mean_run cols hist time j n
  = HistoricalMeanReturn.values_in_time (time (j + n)%nat)
      (frame cols hist (j + n)) None.
Proof.
  induction n as [|n IH]; intros Hn.
  - simpl. by rewrite Nat.add_0_r.
  - cbn [mean_run]. rewrite IH by lia.
    replace (j + S n)%nat with (S (j + n)) by lia.
    destruct (next_line (j + n)) as (r & Hr & Hl); [lia|].
    unfold HistoricalMeanReturn.values_in_time. simpl.
    by rewrite (mean_agnostic_update_snoc _ _ r).
Qed.

Lemma variance_run_scratch kelly j n :
  (j + n <= length hist)%nat ->
  variance_run cols hist time kelly j n
  = HistoricalVariance.values_in_time_recursive (time (j + n)%nat)
      (frame cols hist (j + n)) (HistoricalVariance.__post_init__ kelly).
Proof.
  induction n as [|n IH]; intros Hn.
  - simpl. by rewrite Nat.add_0_r.
  - cbn [variance_run]. rewrite IH by lia.
    replace (j + S n)%nat with (S (j + n)) by lia.
    destruct (next_line (j + n)) as (r & Hr & Hl); [lia|].
    unfold HistoricalVariance.values_in_time_recursive,
      HistoricalVariance.values_in_time, HistoricalMeanReturn.values_in_time.
    destruct kelly; simpl.
    + by rewrite (variance_agnostic_update_snoc _ _ r).
    + rewrite (mean_agnostic_update_snoc _ _ r) by done. simpl.
      by rewrite (variance_agnostic_update_snoc _ _ r).
Qed.
End AlongHistory.

(** C1. [HistoricalMeanReturn] and [HistoricalVariance]: a computation
    from scratch followed by online updates, one per new line of the
    history, gives the counts, the sums and the emitted value of one
    computation from scratch on all the lines seen. The initial
    computation may be on no line at all ([j = 0], the claim's case) or on
    the first [j] lines; the history may have missing values. Both the two
    methods applied by hand ([incremental]) and the calls of
    [values_in_time], which chooses between them, are covered; the last
    part says that [values_in_time] does update online when the last line
    of the history is the one of the time it was last called at. *)
Theorem incremental_equals_scratch cols hist time (kelly : bool) (j n : nat) :
  rectangular {| columns := cols; rows := hist |} ->
  (j + n <= length hist)%nat ->
  let t := time (j + n)%nat in
  let df := frame cols hist (j + n) in
  incremental cols hist time HistoricalMeanReturn._initial_compute
    HistoricalMeanReturn._online_update j n
  = Ok (HistoricalMeanReturn._initial_compute t df)
  /\ incremental cols hist time HistoricalVariance._initial_compute
       HistoricalVariance._online_update j n
     = Ok (HistoricalVariance._initial_compute t df)
  /\ mean_run cols hist time j n
     = Ok (HistoricalMeanReturn._initial_compute t df,
           current_ratio (HistoricalMeanReturn._initial_compute t df))
  /\ variance_run cols hist time kelly j n
     = HistoricalVariance.values_in_time_recursive t df
         (HistoricalVariance.__post_init__ kelly)
  /\ (exists v, HistoricalVariance.values_in_time_recursive t df
                  (HistoricalVariance.__post_init__ kelly)
                = Ok ({| HistoricalVariance.kelly := kelly;
                         HistoricalVariance.meanforecaster :=
                           if kelly then None
                           else Some (HistoricalMeanReturn._initial_compute t df);
                         HistoricalVariance.stats :=
                           Some (HistoricalVariance._initial_compute t df) |}, v))
  /\ (forall k r s,
        hist !! k = Some r -> last_time s = r.1 ->
        _agnostic_update last_time HistoricalMeanReturn._initial_compute
          HistoricalMeanReturn._online_update (time (S k)) (frame cols hist (S k))
          (Some s)
        = HistoricalMeanReturn._online_update (time (S k)) (frame cols hist (S k)) s
        /\ _agnostic_update last_time HistoricalVariance._initial_compute
             HistoricalVariance._online_update (time (S k)) (frame cols hist (S k))
             (Some s)
           = HistoricalVariance._online_update (time (S k))
               (frame cols hist (S k)) s).
Proof.
  intros Hrect Hn t df. repeat split.
  - by apply incremental_mean.
  - by apply incremental_variance.
  - by rewrite mean_run_scratch.
  - by apply variance_run_scratch.
  - destruct kelly; eexists; reflexivity.
  - eapply agnostic_update_contiguous; eassumption.
  - eapply agnostic_update_contiguous; eassumption.
Qed.

Lemma incremental_equals_scratch_witness :
  incremental 4 example_history example_time
    HistoricalMeanReturn._initial_compute
    HistoricalMeanReturn._online_update 0 3
  = Ok (HistoricalMeanReturn._initial_compute (example_time 3)
          (frame 4 example_history 3)).
Proof.
  apply (incremental_equals_scratch 4 example_history example_time true 0 3).
  - unfold rectangular, example_history. simpl. repeat constructor.
  - simpl. lia.
Defined.

(** *** Missing values *)

Lemma map_seq_alter {A} (f f' : nat -> A) (g : A -> A) c n :
  f' c = g (f c) ->
  (forall j, j <> c -> f' j = f j) ->
  f' <$> seq 0 n = alter g c (f <$> seq 0 n).
Proof.
  intros Hc Hne. apply list_eq. intros j.
  destruct (decide (j = c)) as [->|Hj].
  - rewrite list_lookup_alter_eq, !list_lookup_fmap.
    destruct (seq 0 n !! c) as [x|] eqn:Hx; [|done].
    apply lookup_seq in Hx as [-> _]. simpl. by rewrite Hc.
  - rewrite list_lookup_alter_ne by done. rewrite !list_lookup_fmap.
    destruct (seq 0 n !! j) as [x|] eqn:Hx; [|done].
    apply lookup_seq in Hx as [-> _]. simpl. by rewrite Hne.
Qed.

Lemma cell_drop_cash_insert (row : Row) c j :
  (S c < length row)%nat ->
  cell (drop_cash (<[c := None]> row)) j
  = if decide (j = c) then None else cell (drop_cash row) j.
Proof.
  intros Hc. unfold cell, drop_cash. rewrite length_insert.
  destruct (decide (j < length row - 1)%nat) as [Hj|Hj].
  - rewrite !lookup_take_lt by done. case_decide as Hjc.
    + subst j. by rewrite list_lookup_insert_eq by lia.
    + by rewrite list_lookup_insert_ne by done.
  - rewrite !lookup_take_ge by lia. case_decide; [lia | done].
Qed.

Section SetMissing.
Variables (c : nat) (ti : Timestamp) (row : Row) (v : Qc).
Hypothesis Hc : (S c < length row)%nat.
Hypothesis Hv : row !! c = Some (Some v).

Local Abbreviation dc := (fun r : Timestamp * Row => (r.1, drop_cash r.2)).

Lemma cell_present : cell (drop_cash row) c = Some v.
Proof. unfold cell, drop_cash. rewrite lookup_take_lt by lia. by rewrite Hv. Qed.

Lemma count_col_set_missing hist i j :
  hist !! i = Some (ti, row) ->
  count_col j (dc <$> set_missing i c hist)
  = if decide (j = c) then (count_col j (dc <$> hist) - 1)%Z
    else count_col j (dc <$> hist).
Proof.
  revert i. induction hist as [|a hist IH]; intros [|i] Hi; try done.
  - simpl in Hi. injection Hi as ->. simpl.
    rewrite cell_drop_cash_insert by done. case_decide as Hj; [|done].
    subst j. rewrite cell_present. simpl. lia.
  - simpl in Hi. cbn. unfold set_missing in IH. rewrite (IH i Hi).
    case_decide; lia.
Qed.

Lemma sum_col_set_missing hist i j :
  hist !! i = Some (ti, row) ->
  sum_col id j (dc <$> set_missing i c hist)
  = if decide (j = c) then sum_col id j (dc <$> hist) - v
    else sum_col id j (dc <$> hist).
Proof.
  revert i. induction hist as [|a hist IH]; intros [|i] Hi; try done.
  - simpl in Hi. injection Hi as ->. simpl.
    rewrite cell_drop_cash_insert by done. case_decide as Hj; [|done].
    subst j. rewrite cell_present. simpl. unfold id. ring.
  - simpl in Hi. cbn. unfold set_missing in IH. rewrite (IH i Hi).
    case_decide; [ring | done].
Qed.
End SetMissing.

Lemma set_missing_rectangular cols hist i c :
  rectangular {| columns := cols; rows := hist |} ->
  rectangular {| columns := cols; rows := set_missing i c hist |}.
Proof.
  unfold rectangular, set_missing. simpl. intros H.
  apply Forall_alter; [done|]. intros r Hr. simpl. by rewrite length_insert.
Qed.

(** C7. [HistoricalMeanReturn]: when the value [v] at line [i] and
    non-cash column [c] of the history is made missing, the count of
    column [c] goes down by one and its sum by [v] (the entry is left out,
    it does not count as a return of zero), and the count, the sum and the
    emitted mean of every other column stay as they were. This holds for
    the computation from scratch and for the sequence of [values_in_time]
    calls that updates online. *)
Theorem missing_value_excluded cols hist time t i c ti row v :
  rectangular {| columns := cols; rows := hist |} ->
  hist !! i = Some (ti, row) ->
  (S c < cols)%nat ->
  row !! c = Some (Some v) ->
  let s := HistoricalMeanReturn._initial_compute t
             {| columns := cols; rows := hist |} in
  let s' := HistoricalMeanReturn._initial_compute t
              {| columns := cols; rows := set_missing i c hist |} in
  (c < length (last_counts s))%nat
  /\ last_counts s' = alter (fun x => x - 1)%Z c (last_counts s)
  /\ last_sum s' = alter (fun x => x - v) c (last_sum s)
  /\ (forall c', c' <> c -> current_ratio s' !! c' = current_ratio s !! c')
  /\ mean_run cols (set_missing i c hist) time 0 (length hist)
     = Ok ({| last_time := time (length hist);
              last_counts := last_counts s';
              last_sum := last_sum s' |},
           current_ratio s').
Proof.
  intros Hrect Hi Hc Hv s s'.
  assert (Hlen : length row = cols).
  { unfold rectangular in Hrect. rewrite Forall_lookup in Hrect.
    apply (Hrect _ _ Hi). }
  assert (Hcounts : last_counts s'
                    = alter (fun x => x - 1)%Z c (last_counts s)).
  { simpl. unfold count. simpl. apply map_seq_alter.
    - rewrite (count_col_set_missing c ti row v) by (done || lia).
      by rewrite decide_True.
    - intros j Hj.
      rewrite (count_col_set_missing c ti row v) by (done || lia).
      by rewrite decide_False. }
  assert (Hsums : last_sum s' = alter (fun x => x - v) c (last_sum s)).
  { simpl. unfold sum. simpl. apply map_seq_alter.
    - rewrite (sum_col_set_missing c ti row v) by (done || lia).
      by rewrite decide_True.
    - intros j Hj.
      rewrite (sum_col_set_missing c ti row v) by (done || lia).
      by rewrite decide_False. }
  split; [|split; [done|split; [done|split]]].
  - simpl. unfold count. rewrite length_map, length_seq. simpl. lia.
  - intros c' Hc'. unfold current_ratio.
    rewrite !lookup_zip_with, Hcounts, Hsums.
    by rewrite !list_lookup_alter_ne by done.
  - rewrite mean_run_scratch.
    + simpl. unfold frame. rewrite firstn_all2; [done|].
      unfold set_missing. by rewrite length_alter.
    + by apply set_missing_rectangular.
    + unfold set_missing. rewrite length_alter. simpl. lia.
Qed.

Lemma missing_value_excluded_witness :
  last_counts (HistoricalMeanReturn._initial_compute 13%Z
                 {| columns := 4; rows := set_missing 0 2 example_history |})
  = alter (fun x => x - 1)%Z 2%nat
      (last_counts (HistoricalMeanReturn._initial_compute 13%Z
                      {| columns := 4; rows := example_history |})).
Proof.
  apply (missing_value_excluded 4 example_history example_time 13%Z 0 2
           10%Z [Some (q 1 100); Some (q (-2) 100); Some (q 3 100); Some 0]
           (q 3 100)).
  - unfold rectangular, example_history. simpl. repeat constructor.
  - reflexivity.
  - lia.
  - reflexivity.
Defined.
End ForecastFacts.

(** ** The online cache *)
Section OnlineCacheFacts.
Import OnlineCache.
Context {Sig : Type} `{Countable Sig} {V St Kw : Type}.
Variable values_in_time :
  Sig -> St -> Timestamp -> gmap Sig (gmap Timestamp V) -> Kw -> result (V * St).

Local Abbreviation Cache := (gmap Sig (gmap Timestamp V)).
Local Abbreviation wrapped_on := (wrapped_on values_in_time).
Local Abbreviation run := (run values_in_time).

(** Making sure that [cache[self]] exists changes no stored value. *)
Lemma cached_ensure (cache : Cache) (s : Sig) k :
  cached (V:=V)
    (if decide (is_Some (cache !! s)) then cache else <[s := ∅]> cache) k
  = cached cache k.
Proof.
  case_decide as Hs; [done|]. unfold cached.
  destruct (decide (s = k.1)) as [->|Hne].
  - rewrite lookup_insert_eq. simpl. rewrite lookup_empty.
    destruct (cache !! k.1) eqn:E; [|done]. exfalso. apply Hs. by eexists.
  - by rewrite lookup_insert_ne.
Qed.

Lemma cached_default (cache : Cache) (s : Sig) t :
  default ∅ (cache !! s) !! t = cached cache (s, t).
Proof. unfold cached. simpl. destruct (cache !! s); [done | apply lookup_empty]. Qed.

Lemma cached_store (cache : Cache) (s : Sig) t v k :
  cached (<[s := <[t := v]> (default ∅ (cache !! s))]> cache) k
  = if decide (k = (s, t)) then Some v else cached cache k.
Proof.
  unfold cached. destruct k as [s' t']. simpl.
  destruct (decide (s = s')) as [->|Hs].
  - rewrite lookup_insert_eq. simpl.
    destruct (decide (t = t')) as [->|Ht].
    + rewrite lookup_insert_eq. by rewrite decide_True.
    + rewrite lookup_insert_ne by done. rewrite decide_False by congruence.
      destruct (cache !! s'); [done | apply lookup_empty].
  - rewrite lookup_insert_ne by done. by rewrite decide_False by congruence.
Qed.

(** A call whose key is stored: the stored value comes back, the method
    is not called, nothing changes. *)
Lemma wrapped_on_hit self t (cache : Cache) kwargs w v :
  cached cache (signature self, t) = Some v ->
  wrapped_on self t cache kwargs w = (Ok v, cache, w).
Proof.
  intros Hv. unfold OnlineCache.wrapped_on.
  assert (Hs : is_Some (cache !! signature self)).
  { unfold cached in Hv. simpl in Hv. destruct (cache !! signature self); [by eexists|done]. }
  rewrite decide_True by done. rewrite cached_default, Hv. done.
Qed.

(** A call whose key is not stored: the method is called once, and its
    value is stored under the key. *)
Lemma wrapped_on_miss self t (cache : Cache) kwargs w :
  cached cache (signature self, t) = None ->
  exists cache',
    (forall k, cached cache' k = cached cache k) /\
    match values_in_time (signature self) (store w (address self)) t cache' kwargs with
    | Ok (v, st) =>
        wrapped_on self t cache kwargs w
        = (Ok v,
           <[signature self := <[t := v]> (default ∅ (cache' !! signature self))]> cache',
           {| store := <[address self := st]> (store w);
              computed := computed w ++ [(signature self, t)] |})
    | Raise e =>
        wrapped_on self t cache kwargs w
        = (Raise e, cache',
           {| store := store w;
              computed := computed w ++ [(signature self, t)] |})
    end.
Proof.
  intros Hv.
  exists (if decide (is_Some (cache !! signature self)) then cache
          else <[signature self := ∅]> cache).
  split; [intros k; apply cached_ensure|].
  unfold OnlineCache.wrapped_on.
  rewrite cached_default, cached_ensure, Hv.
  destruct (values_in_time _ _ _ _ _) as [[v st]|e]; done.
Qed.

(** What one call does, by cases on whether its key is stored. *)
Lemma wrapped_on_spec self t (cache : Cache) kwargs w :
  let k := (signature self, t) in
  let r := wrapped_on self t cache kwargs w in
  (exists v, cached cache k = Some v /\ r = (Ok v, cache, w))
  \/ (cached cache k = None
      /\ computed r.2 = computed w ++ [k]
      /\ ((exists v, r.1.1 = Ok v
                     /\ forall k', cached r.1.2 k'
                                   = if decide (k' = k) then Some v
                                     else cached cache k')
          \/ (exists e, r.1.1 = Raise e
                        /\ forall k', cached r.1.2 k' = cached cache k'))).
Proof.
  intros k r. subst k. destruct (cached cache _) as [v|] eqn:Hk.
  - left. exists v. split; [done|]. subst r. by apply wrapped_on_hit.
  - right. split; [done|].
    destruct (wrapped_on_miss self t cache kwargs w Hk) as (cache' & Hc & Hr).
    destruct (values_in_time _ _ _ _ _) as [[v st]|e]; subst r; rewrite Hr; simpl.
    + split; [done|]. left. exists v. split; [done|].
      intros k'. rewrite cached_store. case_decide; [done | apply Hc].
    + split; [done|]. right. by exists e.
Qed.

Lemma key_of_cons (self : Instance Sig) (t : Timestamp) (kwargs : Kw) calls k :
  k ∈ key_of <$> ((self, t, kwargs) :: calls)
  <-> k = (signature self, t) \/ k ∈ key_of <$> calls.
Proof. rewrite fmap_cons, elem_of_cons. done. Qed.

End OnlineCacheFacts.

(** ** The factorized covariance *)
Section Sums.
Lemma fsum_finite n (f : nat -> Float) (g : nat -> Qc) :
  (forall k, (k < n)%nat -> f k = Some (g k)) ->
  fsum n f = Some (qsum n g).
Proof.
  induction n as [|n IH]; intros Hf; [done|].
  simpl. rewrite IH by (intros; apply Hf; lia). by rewrite Hf by lia.
Qed.

Lemma qsum_ext n (g h : nat -> Qc) :
  (forall k, (k < n)%nat -> g k = h k) -> qsum n g = qsum n h.
Proof.
  induction n as [|n IH]; intros Hg; [done|].
  simpl. rewrite IH by (intros; apply Hg; lia). by rewrite Hg by lia.
Qed.

Lemma qsum_zero n : qsum n (fun _ => 0) = 0.
Proof. induction n as [|n IH]; [done|]. simpl. rewrite IH. ring. Qed.

Lemma qsum_plus n (g h : nat -> Qc) :
  qsum n (fun k => g k + h k) = qsum n g + qsum n h.
Proof. induction n as [|n IH]; simpl; [ring | rewrite IH; ring]. Qed.

Lemma qsum_scale n c (g : nat -> Qc) :
  qsum n (fun k => c * g k) = c * qsum n g.
Proof. induction n as [|n IH]; simpl; [ring | rewrite IH; ring]. Qed.

Lemma qsum_swap n m (g : nat -> nat -> Qc) :
  qsum n (fun i => qsum m (fun j => g i j))
  = qsum m (fun j => qsum n (fun i => g i j)).
Proof.
  induction n as [|n IH]; simpl.
  - by rewrite qsum_zero.
  - by rewrite IH, qsum_plus.
Qed.

Lemma qsum_nonneg n (g : nat -> Qc) :
  (forall k, (k < n)%nat -> 0 <= g k) -> 0 <= qsum n g.
Proof.
  induction n as [|n IH]; intros Hg; [done|]. simpl.
  apply Qcplus_nonneg_nonneg; [apply IH; intros; apply Hg; lia | apply Hg; lia].
Qed.

(** A sum with one term that is not zero. *)
Lemma qsum_delta n j c (a : nat -> Qc) :
  (j < n)%nat ->
  qsum n (fun k => a k * (if decide (k = j) then c else 0)) = a j * c.
Proof.
  induction n as [|n IH]; intros Hj; [lia|]. simpl.
  destruct (decide (n = j)) as [->|Hne].
  - rewrite (qsum_ext _ _ (fun _ => 0)).
    + rewrite qsum_zero. ring.
    + intros k Hk. rewrite decide_False by lia. ring.
  - rewrite IH by lia. ring.
Qed.

Lemma square_nonneg (a : Qc) : 0 <= a * a.
Proof.
  destruct (Qc_le_total 0 a) as [Ha|Ha].
  - by apply Qcmult_nonneg_nonneg.
  - replace (a * a) with ((- a) * (- a)) by ring.
    assert (0 <= - a) by (by apply (Qcopp_le_compat a 0)).
    by apply Qcmult_nonneg_nonneg.
Qed.

(** The quadratic form of a Gram matrix is a sum of squares. *)
Lemma gram_sum_of_squares n m (x : nat -> Qc) (f : nat -> nat -> Qc) :
  qsum n (fun i => qsum n (fun j =>
    x i * qsum m (fun k => f i k * f j k) * x j))
  = qsum m (fun k => qsum n (fun i => x i * f i k) * qsum n (fun i => x i * f i k)).
Proof.
  transitivity (qsum n (fun i => qsum n (fun j => qsum m (fun k =>
                  (x i * f i k) * (x j * f j k))))).
  { apply qsum_ext. intros i _. apply qsum_ext. intros j _.
    rewrite <- qsum_scale, Qcmult_comm, <- qsum_scale.
    apply qsum_ext. intros k _. ring. }
  transitivity (qsum n (fun i => qsum m (fun k => qsum n (fun j =>
                  (x i * f i k) * (x j * f j k))))).
  { apply qsum_ext. intros i _. apply qsum_swap. }
  rewrite qsum_swap. apply qsum_ext. intros k _.
  transitivity (qsum n (fun i => qsum n (fun j => x j * f j k) * (x i * f i k))).
  { apply qsum_ext. intros i _. rewrite qsum_scale. ring. }
  rewrite qsum_scale. ring.
Qed.
End Sums.

Section CovarianceFacts.
Import HistoricalFactorizedCovariance.
Variable eigh : Matrix -> result (Vector * Matrix).
Variable sqrt : Qc -> Qc.

Lemma np_sqrt_maximum0 (x : Qc) :
  np_sqrt sqrt (maximum0 (Some x))
  = Some (sqrt (if decide (x <= 0) then 0 else x)).
Proof.
  unfold np_sqrt, maximum0. simpl.
  destruct (decide (x <= 0)) as [Hx|Hx]; rewrite decide_False; try done.
  apply Qcle_not_lt. by apply Qclt_le_weak, Qcnot_le_lt.
Qed.

(** Any matrix of numbers times its transpose is positive
    semidefinite. *)
Lemma gram_positive_semidefinite (F : Matrix) (f : nat -> nat -> Qc) :
  (forall i k, (i < nrows F)%nat -> (k < ncols F)%nat ->
     entry F i k = Some (f i k)) ->
  positive_semidefinite (matmul F (transpose F)).
Proof.
  intros Hf x. unfold quadratic_form. simpl.
  eexists. split.
  - apply fsum_finite. intros i Hi. apply fsum_finite. intros j Hj.
    rewrite (fsum_finite _ _ (fun k => f i k * f j k)).
    + simpl. reflexivity.
    + intros k Hk. by rewrite !Hf.
  - simpl. rewrite gram_sum_of_squares. apply qsum_nonneg.
    intros k _. apply square_nonneg.
Qed.

(** C6. When [np.linalg.eigh] returns [n] eigenvalues [lam] and an
    [n] by [n] matrix [v] of eigenvectors, all of them numbers,
    [project_on_psd_cone_and_factorize] returns
    [F = eigvec @ diag(sqrt(maximum(eigval, 0)))], whose entries are
    [v i j * sqrt (max (lam j) 0)], and [F @ F.T] is positive semidefinite.
    [HistoricalFactorizedCovariance.values_in_time], on a cache that
    does not hold the value already, returns this factorization of the
    covariance estimated from its updated attributes (a [LinAlgError]
    becomes a [ForecastError]). *)
Theorem factorization_is_psd (covariance eigvec : Matrix) (eigval : Vector)
    (n : nat) (lam : nat -> Qc) (v : nat -> nat -> Qc) :
  eigh covariance = Ok (eigval, eigvec) ->
  size eigval = n -> nrows eigvec = n -> ncols eigvec = n ->
  (forall j, (j < n)%nat -> item eigval j = Some (lam j)) ->
  (forall i j, (i < n)%nat -> (j < n)%nat -> entry eigvec i j = Some (v i j)) ->
  exists F,
    project_on_psd_cone_and_factorize eigh sqrt covariance = Ok F
    /\ F = matmul eigvec (diag (vmap (np_sqrt sqrt) (vmap maximum0 eigval)))
    /\ (forall i j, (i < n)%nat -> (j < n)%nat ->
          entry F i j
          = Some (v i j * sqrt (if decide (lam j <= 0) then 0 else lam j)))
    /\ positive_semidefinite (matmul F (transpose F))
    /\ (forall self t cache past_returns w s,
          OnlineCache.cached (default ∅ cache) (OnlineCache.signature self, t) = None ->
          Forecast._agnostic_update _last_time
            (_initial_compute (OnlineCache.signature self))
            (_online_update (OnlineCache.signature self)) t past_returns
            (OnlineCache.store w (OnlineCache.address self)) = Ok s ->
          (values_in_time eigh sqrt self t cache past_returns w).1.1
          = match project_on_psd_cone_and_factorize eigh sqrt
                    (covariance_of (OnlineCache.signature self) s) with
            | Ok F' => Ok F'
            | Raise LinAlgError => Raise ForecastError
            | Raise e => Raise e
            end).
Proof.
  intros Heigh Hsize Hrows Hcols Hlam Hv.
  assert (Hentry : forall i j, (i < n)%nat -> (j < n)%nat ->
    entry (matmul eigvec (diag (vmap (np_sqrt sqrt) (vmap maximum0 eigval)))) i j
    = Some (v i j * sqrt (if decide (lam j <= 0) then 0 else lam j))).
  { intros i j Hi Hj. simpl. rewrite Hcols.
    rewrite (fsum_finite _ _ (fun k =>
      v i k * (if decide (k = j)
               then sqrt (if decide (lam j <= 0) then 0 else lam j) else 0))).
    - by rewrite qsum_delta.
    - intros k Hk. rewrite Hv by done. case_decide as Hkj; [|done].
      subst k. by rewrite Hlam, np_sqrt_maximum0. }
  eexists. split; [|split; [reflexivity|split; [exact Hentry|split]]].
  - unfold project_on_psd_cone_and_factorize. rewrite Heigh. simpl.
    unfold matmul_np. simpl. rewrite decide_True by congruence. reflexivity.
  - apply (gram_positive_semidefinite _
      (fun i j => v i j * sqrt (if decide (lam j <= 0) then 0 else lam j))).
    simpl. rewrite Hrows, Hsize. apply Hentry.
  - intros self t cache past_returns w s Hmiss Hupd.
    unfold values_in_time, OnlineCache.wrapped.
    destruct (wrapped_on_miss
      (fun kelly st t _ past_returns => values_in_time_body eigh sqrt kelly st t past_returns)
      self t (default ∅ cache) past_returns w Hmiss) as (cache' & _ & Hcall).
    unfold values_in_time_body in Hcall at 1. rewrite Hupd in Hcall. simpl in Hcall.
    destruct (project_on_psd_cone_and_factorize eigh sqrt _) as [F'|e].
    + by rewrite Hcall.
    + destruct e; by rewrite Hcall.
Qed.
End CovarianceFacts.

(** ** Policies *)
Section MonadFacts.
Import Policies.

Lemma result_bind_Ok {A B} (r : result A) (k : A -> result B) b :
  r ≫= k = Ok b -> exists a, r = Ok a /\ k a = Ok b.
Proof. destruct r as [a|e]; [by exists a | done]. Qed.

Lemma Eff_bind_Ok {A B} (m : Eff A) (k : A -> Eff B) log b log' :
  (m ≫= k) log = (Ok b, log') ->
  exists a log1, m log = (Ok a, log1) /\ k a log1 = (Ok b, log').
Proof.
  unfold mbind, Eff_bind. destruct (m log) as [[a|e] log1]; [|done].
  intros Hk. by exists a, log1.
Qed.

Lemma lift_Ok {A} (r : result A) log a log' :
  lift r log = (Ok a, log') -> r = Ok a /\ log' = log.
Proof. unfold lift. by intros [= -> ->]. Qed.
End MonadFacts.

Ltac eff_inv H :=
  repeat match type of H with
  | (_ ≫= _) _ = (Ok _, _) =>
      let a := fresh "a" in let l := fresh "log" in let H1 := fresh "H" in
      apply Eff_bind_Ok in H as (a & l & H1 & H)
  end.

Section MPOFacts.
Import Policies MultiPeriodOptimization.
Context {Cost Constraint Benchmark Term CompiledConstraint : Type}.
Variable plus_cash_return : Cost -> Cost.
Variable cost_initialize : Cost -> nat -> list Timestamp -> result Cost.
Variable constraint_initialize : Constraint -> nat -> list Timestamp -> result Constraint.
Variable benchmark_initialize : Benchmark -> nat -> list Timestamp -> result Benchmark.
Variable cost_compile : Cost -> Var -> Var -> Var -> Term.
Variable constraint_compile : Constraint -> Var -> Var -> Var -> list CompiledConstraint.
Variable term_is_dcp : Term -> bool.
Variable term_is_concave : Term -> bool.
Variable constraint_is_dcp : CompiledConstraint -> bool.
Variable problem_is_dcp : @Problem Term CompiledConstraint -> bool.
Variable cost_values_in_time : Cost -> Args -> nat -> result Cost.
Variable constraint_values_in_time : Constraint -> Args -> nat -> result Constraint.
Variable benchmark_values_in_time : Benchmark -> Args -> result (Benchmark * Series).
Variable solve : @State Cost Constraint Benchmark Term CompiledConstraint -> SolverOutcome.
Variable compiled_holds : (Var -> Series) -> CompiledConstraint -> Prop.

Local Abbreviation State := (@State Cost Constraint Benchmark Term CompiledConstraint).
Local Abbreviation Equality := (@Equality CompiledConstraint).

Lemma index_allocated {A} (f : nat -> A) H i :
  (i < H)%nat -> index (f <$> seq 0 H) i = Ok (f i).
Proof.
  intros Hi. unfold index. rewrite list_lookup_fmap, lookup_seq_lt by done. done.
Qed.

Lemma dynamics_spec (self : State) H n : forall i w,
  allocated self H -> (i + n <= H)%nat ->
  exists wiring,
    dynamics self i n w
    = Ok (wiring, if n is O then w else weights_before (i + n))
    /\ forall k, (i <= k < i + n)%nat ->
         Equality (Variable_ (w_plus_at_lag k))
           (Plus (Variable_ (z_at_lag k))
              (if decide (k = i) then w else weights_before k)) ∈ wiring
         /\ Equality (Minus (Variable_ (w_plus_at_lag k)) (Parameter_ w_bm))
              (Variable_ (w_plus_minus_w_bm_at_lag k)) ∈ wiring.
Proof.
  induction n as [|n IH]; intros i w Ha Hn.
  - exists []. split; [done|]. intros k Hk. lia.
  - destruct Ha as (Hz & Hw & Hd). cbn [dynamics].
    rewrite Hw, Hz, Hd, !index_allocated by lia. simpl.
    destruct (IH (S i) (Variable_ (w_plus_at_lag i))) as (rest & Hrest & Hin);
      [done | lia |].
    rewrite Hrest. simpl.
    eexists. split.
    { f_equal. f_equal. destruct n; [by rewrite Nat.add_1_r|].
      by replace (i + S (S n))%nat with (S i + S n)%nat by lia. }
    intros k Hk. destruct (decide (k = i)) as [->|Hne].
    + split; [by left | by right; left].
    + destruct (Hin k) as [H1 H2]; [lia|]. split.
      * right; right. destruct (decide (k = S i)) as [->|?]; [done|].
        done.
      * by right; right.
Qed.

Local Abbreviation initialize_estimator_recursive :=
  (initialize_estimator_recursive cost_initialize constraint_initialize
     benchmark_initialize cost_compile constraint_compile term_is_dcp
     term_is_concave constraint_is_dcp problem_is_dcp).
Local Abbreviation initialize_and_allocate :=
  (initialize_and_allocate (Term:=Term) (CompiledConstraint:=CompiledConstraint)
     cost_initialize constraint_initialize benchmark_initialize).
Local Abbreviation _compile_to_cvxpy :=
  (_compile_to_cvxpy cost_compile constraint_compile term_is_dcp
     term_is_concave constraint_is_dcp problem_is_dcp).

Lemma initialize_and_allocate_Ok (self self1 : State) universe calendar log log1 :
  initialize_and_allocate self universe calendar log = (Ok self1, log1) ->
  allocated self1 (Z.to_nat (_planning_horizon self))
  /\ _planning_horizon self1 = _planning_horizon self
  /\ terminal_constraint self1 = terminal_constraint self.
Proof.
  unfold MultiPeriodOptimization.initialize_and_allocate. intros H.
  eff_inv H. cbv [mret Eff_ret] in H. simplify_eq. by repeat split.
Qed.

(** The constraints that [_compile_to_cvxpy] adds to those of the user. *)
Lemma _compile_to_cvxpy_Ok (self self' : State) H log log' :
  allocated self H -> H = Z.to_nat (_planning_horizon self) ->
  _compile_to_cvxpy self log = (Ok self', log') ->
  exists p,
    problem self' = Some p
    /\ (forall i, (i < H)%nat ->
          Equality (cp_sum (Variable_ (z_at_lag i))) (Scalar_ 0) ∈ subject_to p
          /\ Equality (Variable_ (w_plus_at_lag i))
               (Plus (Variable_ (z_at_lag i)) (weights_before i)) ∈ subject_to p
          /\ Equality (Minus (Variable_ (w_plus_at_lag i)) (Parameter_ w_bm))
               (Variable_ (w_plus_minus_w_bm_at_lag i)) ∈ subject_to p)
    /\ (forall target, terminal_constraint self = Some target ->
          Equality (weights_before H) (Constant_ target) ∈ subject_to p).
Proof.
  intros Ha HH Hc. unfold MultiPeriodOptimization._compile_to_cvxpy in Hc.
  apply Eff_bind_Ok in Hc as (_ & l0 & _ & Hc).
  apply Eff_bind_Ok in Hc as (cvxpy_objective & l1 & _ & Hc).
  apply Eff_bind_Ok in Hc as (_ & l2 & _ & Hc).
  apply Eff_bind_Ok in Hc as (cvxpy_constraints & l3 & _ & Hc).
  apply Eff_bind_Ok in Hc as ([wiring w] & l4 & Hdyn & Hc).
  apply lift_Ok in Hdyn as [Hdyn ->].
  destruct (dynamics_spec self H H 0 (Parameter_ w_current) Ha) as (wiring' & Hd' & Hin);
    [lia|].
  replace (if H is O then Parameter_ w_current else weights_before (0 + H))
    with (weights_before H) in Hd' by (by destruct H).
  rewrite <- HH, Hd' in Hdyn. injection Hdyn as <- <-.
  destruct (problem_is_dcp _); [|done].
  cbv [mret Eff_ret] in Hc. simplify_eq. eexists. split; [reflexivity|]. simpl. split.
  - intros i Hi. destruct (Hin i) as [H5 H6]; [lia|].
    assert (Hsum : Equality (cp_sum (Variable_ (z_at_lag i))) (Scalar_ 0)
                   ∈ (fun z => Equality (cp_sum (Variable_ z)) (Scalar_ 0))
                     <$> z_at_lags self).
    { destruct Ha as (-> & _). apply list_elem_of_fmap. exists (z_at_lag i).
      split; [done|]. apply list_elem_of_fmap. exists i. split; [done|].
      apply elem_of_seq. lia. }
    assert (Hdynamics :
      Equality (Variable_ (w_plus_at_lag i))
        (Plus (Variable_ (z_at_lag i)) (weights_before i)) ∈ wiring').
    { destruct i; [apply H5 | apply H5]. }
    destruct (terminal_constraint self);
      rewrite ?elem_of_app; repeat split; auto.
  - intros target ->. rewrite elem_of_app. right. by left.
Qed.

(** C2. When [initialize_estimator_recursive] of a
    [MultiPeriodOptimization] policy with planning horizon [H] returns, the
    constraints of the compiled problem contain, for every step [i < H],
    [sum(z_i) == 0], [w_i == z_i + w] with [w] the parameter [w_current]
    for [i = 0] and [w_(i-1)] otherwise, and [w_i - w_bm == d_i]; with a
    terminal constraint they also contain [w_(H-1) == target]
    ([weights_before H] is [w_(H-1)] when [H > 0]). Hence in every solution
    of the problem the trades of every step, the first one among them, sum
    to zero, the weights follow the trades, [d_i] is [w_i] minus the
    benchmark weights, and the last weights are the target. *)
Theorem compiled_constraint_set (self self' : State) universe calendar log log' :
  initialize_estimator_recursive self universe calendar log = (Ok self', log') ->
  let H := Z.to_nat (_planning_horizon self) in
  exists p,
    problem self' = Some p
    /\ (forall i, (i < H)%nat ->
          Equality (cp_sum (Variable_ (z_at_lag i))) (Scalar_ 0) ∈ subject_to p
          /\ Equality (Variable_ (w_plus_at_lag i))
               (Plus (Variable_ (z_at_lag i)) (weights_before i)) ∈ subject_to p
          /\ Equality (Minus (Variable_ (w_plus_at_lag i)) (Parameter_ w_bm))
               (Variable_ (w_plus_minus_w_bm_at_lag i)) ∈ subject_to p)
    /\ (forall target, terminal_constraint self = Some target ->
          Equality (weights_before H) (Constant_ target) ∈ subject_to p)
    /\ (forall value bm current,
          feasible compiled_holds p value bm current ->
          (forall i, (i < H)%nat ->
             np_sum (value (z_at_lag i)) = Some 0
             /\ value (w_plus_at_lag i)
                = series_add (value (z_at_lag i))
                    (eval value bm current (weights_before i))
             /\ series_sub (value (w_plus_at_lag i)) bm
                = value (w_plus_minus_w_bm_at_lag i))
          /\ (forall target, terminal_constraint self = Some target ->
                eval value bm current (weights_before H) = target)).
Proof.
  intros Hinit H. unfold MultiPeriodOptimization.initialize_estimator_recursive in Hinit.
  apply Eff_bind_Ok in Hinit as (self1 & log1 & Halloc & Hcompile).
  apply initialize_and_allocate_Ok in Halloc as (Ha & Hh & Ht).
  destruct (_compile_to_cvxpy_Ok self1 self' H log1 log' Ha) as (p & Hp & Hin & Hterm);
    [by rewrite Hh | done |].
  exists p. split; [done|]. split; [done|]. split.
  { intros target Htarget. apply Hterm. by rewrite Ht. }
  intros value bm current Hfeasible. unfold feasible in Hfeasible.
  rewrite Forall_forall in Hfeasible. split.
  - intros i Hi. destruct (Hin i Hi) as (H1 & H2 & H3).
    apply Hfeasible in H1, H2, H3. simpl in H1, H2, H3.
    split; [congruence|]. by split.
  - intros target Htarget. rewrite <- Ht in Htarget.
    by apply (Hfeasible _ (Hterm target Htarget)).
Qed.
End MPOFacts.

Section LogFacts.
Import Policies.

Lemma logs_mret {A} P (a : A) : logs P (mret a).
Proof. intros log. exists []. by rewrite app_nil_r. Qed.

Lemma logs_raise {A} P e : logs P (raise (A:=A) e).
Proof. intros log. exists []. by rewrite app_nil_r. Qed.

Lemma logs_lift {A} P (r : result A) : logs P (lift r).
Proof. intros log. exists []. by rewrite app_nil_r. Qed.

Lemma logs_tell (P : event -> Prop) e : P e -> logs P (tell e).
Proof. intros He log. exists [e]. split; [done|]. by constructor. Qed.

Lemma logs_bind {A B} P (m : Eff A) (k : A -> Eff B) :
  logs P m -> (forall a, logs P (k a)) -> logs P (m ≫= k).
Proof.
  intros Hm Hk log. destruct (Hm log) as (new1 & H1 & HP1).
  unfold mbind, Eff_bind. destruct (m log) as [[a|e] log1]; simpl in H1; subst log1.
  - destruct (Hk a (log ++ new1)) as (new2 & H2 & HP2).
    exists (new1 ++ new2). rewrite H2, app_assoc. split; [done|].
    by apply Forall_app.
  - by exists new1.
Qed.
End LogFacts.

Section MPOInitFacts.
Import Policies MultiPeriodOptimization.
Context {Cost Constraint Benchmark Term CompiledConstraint : Type}.
Variable cost_initialize : Cost -> nat -> list Timestamp -> result Cost.
Variable constraint_initialize : Constraint -> nat -> list Timestamp -> result Constraint.
Variable benchmark_initialize : Benchmark -> nat -> list Timestamp -> result Benchmark.
Variable cost_compile : Cost -> Var -> Var -> Var -> Term.
Variable constraint_compile : Constraint -> Var -> Var -> Var -> list CompiledConstraint.
Variable term_is_dcp : Term -> bool.
Variable term_is_concave : Term -> bool.
Variable constraint_is_dcp : CompiledConstraint -> bool.
Variable problem_is_dcp : @Problem Term CompiledConstraint -> bool.

Local Abbreviation State := (@State Cost Constraint Benchmark Term CompiledConstraint).
Local Abbreviation initialize_estimator_recursive :=
  (initialize_estimator_recursive cost_initialize constraint_initialize
     benchmark_initialize cost_compile constraint_compile term_is_dcp
     term_is_concave constraint_is_dcp problem_is_dcp).
Local Abbreviation initialize_and_allocate :=
  (initialize_and_allocate (Term:=Term) (CompiledConstraint:=CompiledConstraint)
     cost_initialize constraint_initialize benchmark_initialize).
Local Abbreviation _compile_to_cvxpy :=
  (_compile_to_cvxpy cost_compile constraint_compile term_is_dcp
     term_is_concave constraint_is_dcp problem_is_dcp).
Local Abbreviation check_objective := (check_objective term_is_dcp term_is_concave).
Local Abbreviation compile_constraints :=
  (compile_constraints (Cost:=Cost) (Benchmark:=Benchmark) (Term:=Term)
     constraint_compile constraint_is_dcp).
Local Abbreviation compile_constraints_at :=
  (compile_constraints_at (Cost:=Cost) (Benchmark:=Benchmark) (Term:=Term)
     constraint_compile constraint_is_dcp).
Local Abbreviation is_init := (fun e => is_initialize_event e = true).
Local Abbreviation passes := (passes term_is_dcp term_is_concave).
Local Abbreviation constraint_passes :=
  (constraint_passes constraint_compile constraint_is_dcp).

Lemma initialize_objective_logs objective universe calendar : forall i,
  logs is_init (initialize_objective cost_initialize i objective universe calendar).
Proof.
  induction objective as [|obj objective IH]; intros i; simpl.
  - apply logs_mret.
  - apply logs_bind; [by apply logs_tell|]. intros _.
    apply logs_bind; [apply logs_lift|]. intros obj'.
    apply logs_bind; [apply IH|]. intros. apply logs_mret.
Qed.

Lemma initialize_constraints_at_logs i el universe calendar : forall j,
  logs is_init
    (initialize_constraints_at constraint_initialize i j el universe calendar).
Proof.
  induction el as [|constr el IH]; intros j; simpl.
  - apply logs_mret.
  - apply logs_bind; [by apply logs_tell|]. intros _.
    apply logs_bind; [apply logs_lift|]. intros constr'.
    apply logs_bind; [apply IH|]. intros. apply logs_mret.
Qed.

Lemma initialize_constraints_logs constraints universe calendar : forall i,
  logs is_init
    (initialize_constraints constraint_initialize i constraints universe calendar).
Proof.
  induction constraints as [|el constraints IH]; intros i; simpl.
  - apply logs_mret.
  - apply logs_bind; [apply initialize_constraints_at_logs|]. intros el'.
    apply logs_bind; [apply IH|]. intros. apply logs_mret.
Qed.

Lemma initialize_and_allocate_logs (self : State) universe calendar :
  logs is_init (initialize_and_allocate self universe calendar).
Proof.
  unfold MultiPeriodOptimization.initialize_and_allocate.
  apply logs_bind; [apply initialize_objective_logs|]. intros objective.
  apply logs_bind; [apply initialize_constraints_logs|]. intros constraints.
  apply logs_bind; [by apply logs_tell|]. intros _.
  apply logs_bind; [apply logs_lift|]. intros benchmark. apply logs_mret.
Qed.

(** [_compile_to_cvxpy] logs itself once, whatever it returns. *)
Lemma _compile_to_cvxpy_log (self : State) log :
  (_compile_to_cvxpy self log).2 = log ++ [Compile].
Proof.
  unfold MultiPeriodOptimization._compile_to_cvxpy, mbind, Eff_bind, tell, lift, raise,
    mret, Eff_ret.
  destruct (compile_objective _ _ _ _) as [terms|e]; [|done]. simpl.
  destruct (MultiPeriodOptimization.check_objective _ _ _) as [[]|e]; [|done]. simpl.
  destruct (MultiPeriodOptimization.compile_constraints _ _ _ _ _) as [ccs|e]; [|done]. simpl.
  destruct (dynamics _ _ _ _) as [[wiring w]|e]; [|done]. simpl.
  by destruct (problem_is_dcp _).
Qed.

Lemma initialize_estimator_recursive_log (self : State) universe calendar log :
  let out := initialize_estimator_recursive self universe calendar log in
  exists pre,
    Forall is_init pre
    /\ (out.2 = log ++ pre \/ out.2 = log ++ pre ++ [Compile])
    /\ (forall self', out.1 = Ok self' -> out.2 = log ++ pre ++ [Compile]).
Proof.
  intros out. subst out.
  destruct (initialize_and_allocate_logs self universe calendar log) as (pre & Hpre & HP).
  exists pre. split; [done|].
  unfold MultiPeriodOptimization.initialize_estimator_recursive, mbind, Eff_bind.
  destruct (initialize_and_allocate self universe calendar log) as [[self1|e] log1];
    simpl in Hpre; subst log1.
  - rewrite _compile_to_cvxpy_log, app_assoc. split; [by right | done].
  - simpl. split; [by left | done].
Qed.

(** The first term that does not pass decides. *)
Lemma check_objective_first (terms : list Term) : forall i term,
  terms !! i = Some term -> Forall passes (take i terms) ->
  (term_is_dcp term = false -> check_objective terms = Raise ConvexSpecificationError)
  /\ (term_is_dcp term = true -> term_is_concave term = false ->
        check_objective terms = Raise ConvexityError).
Proof.
  induction terms as [|term0 terms IH]; intros i term Hi Hpass; [done|].
  destruct i as [|i]; simpl in Hi.
  - injection Hi as ->. simpl. split.
    + by intros ->.
    + by intros -> ->.
  - simpl in Hpass. apply Forall_cons in Hpass as [[Hd Hc] Hpass].
    simpl. rewrite Hd, Hc. simpl. by apply (IH i).
Qed.

Lemma check_objective_all (terms : list Term) :
  Forall passes terms -> check_objective terms = Ok ().
Proof.
  induction 1 as [|term terms [Hd Hc] _ IH]; [done|].
  simpl. by rewrite Hd, Hc.
Qed.

Lemma compile_constraints_at_spec (self : State) H i el :
  allocated self H -> (i < H)%nat ->
  match compile_constraints_at self i el with
  | Ok _ => Forall (constraint_passes i) el
  | Raise e => e = ConvexSpecificationError
  end.
Proof.
  intros (Hz & Hw & Hd) Hi. induction el as [|constr el IH]; simpl; [done|].
  unfold compile_and_check_constraint.
  rewrite Hw, Hz, Hd, !index_allocated by done. simpl.
  destruct (forallb constraint_is_dcp _) eqn:Hc; [|done]. simpl.
  destruct (compile_constraints_at self i el); [|done]. simpl.
  by constructor.
Qed.

Lemma compile_constraints_spec (self : State) H constraints : forall i,
  allocated self H -> (i + length constraints <= H)%nat ->
  match compile_constraints self i constraints with
  | Ok _ => forall k el, constraints !! k = Some el ->
              Forall (constraint_passes (i + k)) el
  | Raise e => e = ConvexSpecificationError
  end.
Proof.
  induction constraints as [|el constraints IH]; intros i Ha Hlen; simpl; [done|].
  simpl in Hlen.
  pose proof (compile_constraints_at_spec self H i el Ha) as Hat.
  destruct (compile_constraints_at self i el); [|apply Hat; lia]. simpl.
  specialize (IH (S i) Ha). destruct (compile_constraints self (S i) constraints);
    [|apply IH; lia]. simpl.
  intros [|k] el' Hk; simpl in Hk.
  - injection Hk as <-. rewrite Nat.add_0_r. apply Hat. lia.
  - replace (i + S k)%nat with (S i + k)%nat by lia. by apply IH; [lia|].
Qed.

Lemma initialize_estimator_recursive_after (self self1 : State) universe
    calendar log log1 :
  initialize_and_allocate self universe calendar log = (Ok self1, log1) ->
  initialize_estimator_recursive self universe calendar log
  = _compile_to_cvxpy self1 log1.
Proof.
  intros Halloc.
  unfold MultiPeriodOptimization.initialize_estimator_recursive, mbind, Eff_bind.
  by rewrite Halloc.
Qed.

(** An exception of the checks is the exception of the compilation. *)
Lemma _compile_to_cvxpy_raises (self : State) log terms e :
  compile_objective cost_compile self 0 (objective self) = Ok terms ->
  check_objective terms = Raise e
  \/ (check_objective terms = Ok ()
      /\ compile_constraints self 0 (constraints self) = Raise e) ->
  (_compile_to_cvxpy self log).1 = Raise e.
Proof.
  intros Hterms Hcheck.
  unfold MultiPeriodOptimization._compile_to_cvxpy, mbind, Eff_bind, tell, lift, raise,
    mret, Eff_ret.
  rewrite Hterms. destruct Hcheck as [->|[-> ->]]; done.
Qed.

End MPOInitFacts.

Section MPOStepFacts.
Import Policies MultiPeriodOptimization.
Context {Cost Constraint Benchmark Term CompiledConstraint : Type}.
Variable cost_values_in_time : Cost -> Args -> nat -> result Cost.
Variable constraint_values_in_time : Constraint -> Args -> nat -> result Constraint.
Variable benchmark_values_in_time : Benchmark -> Args -> result (Benchmark * Series).
Variable solve : @State Cost Constraint Benchmark Term CompiledConstraint -> SolverOutcome.

Local Abbreviation State := (@State Cost Constraint Benchmark Term CompiledConstraint).
Local Abbreviation refresh :=
  (refresh (Term:=Term) (CompiledConstraint:=CompiledConstraint)
     cost_values_in_time constraint_values_in_time benchmark_values_in_time).
Local Abbreviation values_in_time_recursive :=
  (values_in_time_recursive cost_values_in_time constraint_values_in_time
     benchmark_values_in_time solve).
Local Abbreviation is_refresh := (fun e => is_values_in_time_event e = true).

Lemma values_in_time_objective_logs objective a : forall i,
  logs is_refresh (values_in_time_objective cost_values_in_time i objective a).
Proof.
  induction objective as [|obj objective IH]; intros i; simpl.
  - apply logs_mret.
  - apply logs_bind; [by apply logs_tell|]. intros _.
    apply logs_bind; [apply logs_lift|]. intros obj'.
    apply logs_bind; [apply IH|]. intros. apply logs_mret.
Qed.

Lemma values_in_time_constraints_at_logs i el a : forall j,
  logs is_refresh
    (values_in_time_constraints_at constraint_values_in_time i j el a).
Proof.
  induction el as [|constr el IH]; intros j; simpl.
  - apply logs_mret.
  - apply logs_bind; [by apply logs_tell|]. intros _.
    apply logs_bind; [apply logs_lift|]. intros constr'.
    apply logs_bind; [apply IH|]. intros. apply logs_mret.
Qed.

Lemma values_in_time_constraints_logs constraints a : forall i,
  logs is_refresh
    (values_in_time_constraints constraint_values_in_time i constraints a).
Proof.
  induction constraints as [|el constraints IH]; intros i; simpl.
  - apply logs_mret.
  - apply logs_bind; [apply values_in_time_constraints_at_logs|]. intros el'.
    apply logs_bind; [apply IH|]. intros. apply logs_mret.
Qed.

Lemma refresh_logs (self : State) a : logs is_refresh (refresh self a).
Proof.
  unfold MultiPeriodOptimization.refresh.
  apply logs_bind; [by apply logs_tell|]. intros _.
  apply logs_bind; [destruct (negb _); [apply logs_raise | apply logs_mret]|].
  intros _.
  apply logs_bind; [unfold assert; destruct (isclose1 _);
                    [apply logs_mret | apply logs_raise]|]. intros _.
  apply logs_bind; [apply values_in_time_objective_logs|]. intros objective.
  apply logs_bind; [apply values_in_time_constraints_logs|]. intros constraints.
  apply logs_bind; [by apply logs_tell|]. intros _.
  apply logs_bind; [apply logs_lift|]. intros [benchmark v]. apply logs_mret.
Qed.

Lemma values_in_time_recursive_after (self self1 : State) a log log1 :
  refresh self a log = (Ok self1, log1) ->
  values_in_time_recursive self a log = solve_and_extract solve self1 a log1.
Proof.
  intros Hrefresh.
  unfold MultiPeriodOptimization.values_in_time_recursive, mbind, Eff_bind.
  by rewrite Hrefresh.
Qed.

(** The solver is called once, and its outcome decides. *)
Lemma solve_and_extract_spec (self : State) a log (p : @Problem Term CompiledConstraint) :
  problem self = Some p ->
  let out := solve_and_extract solve self a log in
  out.2 = log ++ [Solve]
  /\ match solve self with
     | SolverError => out.1 = Raise PortfolioOptimizationError
     | Solved status value =>
         if bool_decide (status ∈ [infeasible; infeasible_inaccurate;
                                   unbounded; unbounded_inaccurate])
         then out.1 = Raise PortfolioOptimizationError
         else match extract self a value with
              | Ok result =>
                  exists self2, out.1 = Ok (self2, result)
                                /\ _current_value self2 = Some result
              | Raise e => out.1 = Raise e
              end
     end.
Proof.
  intros Hp out. subst out.
  unfold solve_and_extract, mbind, Eff_bind, tell, lift, raise, mret, Eff_ret.
  rewrite Hp. destruct (solve self) as [|status value]; [done|].
  destruct status; simpl; try done;
    destruct (extract self a value); simpl; eauto.
Qed.

End MPOStepFacts.

Section ExecuteFacts.
Import Forecast Policies.
Context {P : Type}.
Variable initialize_estimator_recursive : P -> nat -> list Timestamp -> Eff P.
Variable values_in_time_recursive : P -> Args -> Eff (P * Series).

Local Abbreviation execute :=
  (execute initialize_estimator_recursive values_in_time_recursive).

(** C8, as amended. When the time of execution ([t], or the last trading
    time when [t] is [None]) is in the trading calendar and the holdings
    have a negative sum, [execute] raises [DataError]; all that has happened
    by then is the read of the trading calendar: the market data of that
    time are not served, the policy is not initialized and no target
    weights are computed. *)
Theorem negative_holdings_raise (self : P) (h : Series) (market_data : MarketData)
    (t : option Timestamp) (t0 : Timestamp) (v : Qc) log :
  resolve market_data t = Some t0 ->
  t0 ∈ trading_calendar market_data ->
  pd_sum h = Some v ->
  v < 0 ->
  execute self h market_data t log = (Raise DataError, log ++ [TradingCalendar]).
Proof.
  intros Ht Hin Hv Hneg. unfold Policies.execute, mbind, Eff_bind, tell.
  assert (Hres : (match t with
                  | Some t => mret t
                  | None => lift (from_option Ok (Raise IndexError)
                                    (last (trading_calendar market_data)))
                  end) (log ++ [TradingCalendar])
                 = (Ok t0, log ++ [TradingCalendar])).
  { destruct t as [t|]; simpl in Ht.
    - by injection Ht as ->.
    - unfold lift. by rewrite Ht. }
  rewrite Hres. unfold assert. rewrite bool_decide_true by done.
  unfold mret, Eff_ret. rewrite Hv. unfold flt0.
  by rewrite bool_decide_true by done.
Qed.
End ExecuteFacts.

Section FixedFacts.
Import Forecast Policies.

(** C10. When the refresh of the data given by the user raises
    [MissingTimesError], [values_in_time_recursive] of [FixedTrades] and of
    [FixedWeights] does not raise: it returns the current weights, which it
    keeps as its current value. For data indexed by time the refresh raises
    [MissingTimesError] at every time the data have no entry for. *)
Theorem missing_times_no_trade (a : Args) log :
  (forall self : FixedTrades.State,
     FixedTrades.super_values_in_time_recursive self (t a) = Raise MissingTimesError ->
     FixedTrades.values_in_time_recursive self a log
     = (Ok ({| FixedTrades.trades_weights := FixedTrades.trades_weights self;
               FixedTrades._current_value := Some (current_weights a) |},
            current_weights a),
        log ++ [ValuesInTime (t a)]))
  /\ (forall self : FixedWeights.State,
        FixedWeights.super_values_in_time_recursive self (t a) = Raise MissingTimesError ->
        FixedWeights.values_in_time_recursive self a log
        = (Ok ({| FixedWeights.target_weights := FixedWeights.target_weights self;
                  FixedWeights._current_value := Some (current_weights a) |},
               current_weights a),
           log ++ [ValuesInTime (t a)]))
  /\ (forall (d : DataEstimator.State) frame,
        DataEstimator.data d = DataEstimator.InTime frame ->
        frame !! t a = None ->
        DataEstimator.values_in_time_recursive d (t a) = Raise MissingTimesError).
Proof.
  split; [|split].
  - intros self Hsub.
    unfold FixedTrades.values_in_time_recursive, mbind, Eff_bind, tell, lift.
    by rewrite Hsub.
  - intros self Hsub.
    unfold FixedWeights.values_in_time_recursive, mbind, Eff_bind, tell, lift.
    by rewrite Hsub.
  - intros d frame Hd Ht. unfold DataEstimator.values_in_time_recursive.
    by rewrite Hd, Ht.
Qed.

Lemma Some_Qc_eq (x y : Qc) : this x = this y -> Some x = Some y.
Proof. intros Hxy. f_equal. by apply Qc_is_canon; rewrite Hxy. Qed.

Lemma uniform_initialize calendar :
  exists target,
    Uniform.initialize_estimator (Uniform.__init__ (Some 1)) 6 calendar
    = Ok {| Uniform.leverage := Some 1;
            Uniform.target_weights :=
              Some (DataEstimator.__init__ (DataEstimator.Constant target));
            Uniform._current_value := None |}
    /\ target = uniform6.
Proof.
  eexists. split; [reflexivity|].
  apply (bool_decide_unpack _). by vm_compute.
Qed.

Lemma uniform_initialize_estimator_recursive calendar log :
  Uniform.initialize_estimator_recursive (Uniform.__init__ (Some 1)) 6 calendar log
  = (Ok (uniform_initialized None), log ++ [InitializeEstimator]).
Proof.
  unfold Uniform.initialize_estimator_recursive, mbind, Eff_bind, tell, lift.
  destruct (uniform_initialize calendar) as (target & -> & ->). done.
Qed.

(** [w + target - w] is [target]. *)
Lemma add_sub_cancel (w target : list Qc) :
  length w = length target ->
  series_sub (series_add (Some <$> w) (Some <$> target)) (Some <$> w)
  = Some <$> target.
Proof.
  revert target. induction w as [|x w IH]; intros [|y target] Hlen; try done.
  simpl in Hlen. injection Hlen as Hlen.
  unfold series_sub, series_add in *. simpl. rewrite IH by done.
  f_equal. f_equal. ring.
Qed.

Lemma uniform_values_in_time_recursive (a : Args) (w : list Qc) cv log :
  current_weights a = Some <$> w -> length w = 6%nat ->
  Uniform.values_in_time_recursive (uniform_initialized cv) a log
  = (Ok (uniform_initialized (Some uniform6), uniform6), log ++ [ValuesInTime (t a)]).
Proof.
  intros Hw Hlen.
  unfold Uniform.values_in_time_recursive, mbind, Eff_bind, tell, lift. simpl.
  unfold pd_Series. rewrite Hw, length_fmap, Hlen. simpl.
  change uniform6 with (Some <$> [q 1 5; q 1 5; q 1 5; q 1 5; q 1 5; 0]).
  rewrite add_sub_cancel by done. done.
Qed.

(** C9. Five assets and cash, [Uniform] with leverage 1: the policy is
    initialized with the target [1/5, 1/5, 1/5, 1/5, 1/5, 0]; from the
    current weights [1, 0, 0, 0, 0, 0] it returns these weights as the
    post-trade weights, whatever the market data; and [execute], with all
    the wealth [v > 0] in the first asset, at a trading time and without
    prices, returns the trades [v * (target - current)] at that time. *)
Theorem uniform_first_step :
  let w_plus := [Some (q 1 5); Some (q 1 5); Some (q 1 5); Some (q 1 5);
                 Some (q 1 5); Some 0] in
  (forall calendar log,
     Uniform.initialize_estimator_recursive (Uniform.__init__ (Some 1)) 6 calendar log
     = (Ok (uniform_initialized None), log ++ [InitializeEstimator]))
  /\ (forall (a : Args) log,
        current_weights a = first_asset_only ->
        Uniform.values_in_time_recursive (uniform_initialized None) a log
        = (Ok (uniform_initialized (Some w_plus), w_plus),
           log ++ [ValuesInTime (Policies.t a)]))
  /\ (forall (market_data : MarketData) (t : option Timestamp) (t0 : Timestamp)
        (v : Qc) (past_returns : DataFrame) (past_volumes : option DataFrame) log,
        resolve market_data t = Some t0 ->
        t0 ∈ trading_calendar market_data ->
        serve market_data t0 = (past_returns, past_volumes, None) ->
        columns past_returns = 6%nat ->
        0 < v ->
        execute Uniform.initialize_estimator_recursive
          Uniform.values_in_time_recursive
          (Uniform.__init__ (Some 1)) (series_scale first_asset_only (Some v))
          market_data t log
        = (Ok (uniform_initialized (Some w_plus),
               (series_scale (series_sub w_plus first_asset_only) (Some v), t0, None)),
           log ++ [TradingCalendar; Serve t0; InitializeEstimator; ValuesInTime t0])).
Proof.
  intros w_plus.
  assert (Hvalues : forall (a : Args) log,
    current_weights a = first_asset_only ->
    Uniform.values_in_time_recursive (uniform_initialized None) a log
    = (Ok (uniform_initialized (Some w_plus), w_plus),
       log ++ [ValuesInTime (Policies.t a)])).
  { intros a l Hw.
    by rewrite (uniform_values_in_time_recursive a [1; 0; 0; 0; 0; 0]). }
  split; [apply uniform_initialize_estimator_recursive|]. split; [done|].
  intros market_data t t0 v past_returns past_volumes log Ht Hin Hserve Hcols Hv.
  assert (Hsum : pd_sum (series_scale first_asset_only (Some v)) = Some v).
  { unfold pd_sum. simpl. f_equal. ring. }
  assert (Hw : series_div (series_scale first_asset_only (Some v)) (Some v)
               = first_asset_only).
  { assert (v <> 0) by (by apply not_eq_sym, Qclt_not_eq).
    unfold series_div, series_scale, first_asset_only. simpl.
    rewrite !decide_False by done.
    assert (H1 : 1 * v / v = 1) by (by field).
    assert (H0 : 0 * v / v = 0) by (by field).
    by rewrite H1, H0. }
  unfold execute, mbind, Eff_bind, tell.
  assert (Hres : (match t with
                  | Some t => mret t
                  | None => lift (from_option Ok (Raise IndexError)
                                    (last (trading_calendar market_data)))
                  end) (log ++ [TradingCalendar])
                 = (Ok t0, log ++ [TradingCalendar])).
  { destruct t as [t|]; simpl in Ht.
    - by injection Ht as ->.
    - unfold lift. by rewrite Ht. }
  rewrite Hres. unfold assert. rewrite bool_decide_true by done.
  unfold mret at 1, Eff_ret at 1. rewrite Hsum. unfold flt0.
  rewrite bool_decide_false by (by apply Qcle_not_lt, Qclt_le_weak).
  unfold mret at 1, Eff_ret at 1. rewrite Hserve, Hcols, Hw.
  rewrite uniform_initialize_estimator_recursive.
  rewrite Hvalues by done.
  unfold mret, Eff_ret. simpl. by rewrite <- !app_assoc.
Qed.
End FixedFacts.

(** ** The claims on examples *)
Section Witnesses.
Import Forecast Policies MultiPeriodOptimization.

Lemma compiled_constraint_set_witness :
  exists p,
    problem Example.two_steps_compiled = Some p
    /\ Equality (cp_sum (Variable_ (z_at_lag 0))) (Scalar_ 0) ∈ subject_to p
    /\ Equality (Variable_ (w_plus_at_lag 1))
         (Plus (Variable_ (z_at_lag 1)) (Variable_ (w_plus_at_lag 0))) ∈ subject_to p
    /\ Equality (Variable_ (w_plus_at_lag 1))
         (Constant_ [Some 0; Some 0; Some 1]) ∈ subject_to p.
Proof.
  destruct (compiled_constraint_set Example.initialize Example.initialize
              Example.initialize Example.cost_compile Example.constraint_compile
              Example.is_dcp Example.is_concave id Example.problem_is_dcp
              (fun _ c => c = true)
              Example.two_steps Example.two_steps_compiled 3 [10%Z] []
              Example.two_steps_compiled_log)
    as (p & Hp & Hin & Hterm & _).
  - vm_compute. reflexivity.
  - exists p. split; [done|]. split; [apply (Hin 0%nat); simpl; lia|].
    split; [apply (Hin 1%nat); simpl; lia|].
    by apply (Hterm [Some 0; Some 0; Some 1]).
Defined.




Lemma factorization_is_psd_witness :
  exists F,
    HistoricalFactorizedCovariance.project_on_psd_cone_and_factorize
      HistoricalFactorizedCovariance.example_eigh
      HistoricalFactorizedCovariance.example_sqrt
      HistoricalFactorizedCovariance.example_covariance = Ok F
    /\ entry F 0 1 = Some (q 2 1)
    /\ entry F 1 0 = Some 0
    /\ positive_semidefinite (matmul F (transpose F)).
Proof.
  destruct (factorization_is_psd HistoricalFactorizedCovariance.example_eigh
              HistoricalFactorizedCovariance.example_sqrt
              HistoricalFactorizedCovariance.example_covariance
              HistoricalFactorizedCovariance.example_eigvec
              HistoricalFactorizedCovariance.example_eigval 2
              (fun j => default 0 (item HistoricalFactorizedCovariance.example_eigval j))
              (fun i j => default 0 (entry HistoricalFactorizedCovariance.example_eigvec i j)))
    as (F & HF & _ & Hentry & Hpsd & _).
  - reflexivity.
  - reflexivity.
  - reflexivity.
  - reflexivity.
  - intros [|[|j]] Hj; [reflexivity | reflexivity | lia].
  - intros [|[|i]] [|[|j]] Hi Hj; try reflexivity; lia.
  - exists F. split; [done|]. split.
    + rewrite (Hentry 0%nat 1%nat) by lia. apply (bool_decide_unpack _). by vm_compute.
    + split; [|done].
      rewrite (Hentry 1%nat 0%nat) by lia. apply (bool_decide_unpack _). by vm_compute.
Defined.

Lemma negative_holdings_raise_witness :
  execute Uniform.initialize_estimator_recursive Uniform.values_in_time_recursive
    (Uniform.__init__ (Some 1)) Example.negative_holdings example_market_data None []
  = (Raise DataError, [TradingCalendar]).
Proof.
  apply (negative_holdings_raise Uniform.initialize_estimator_recursive
           Uniform.values_in_time_recursive (Uniform.__init__ (Some 1))
           Example.negative_holdings example_market_data None 13%Z (q (-400) 1) []).
  - reflexivity.
  - apply (bool_decide_unpack _). by vm_compute.
  - apply (bool_decide_unpack _). by vm_compute.
  - reflexivity.
Defined.

Lemma negative_holdings_outside_calendar :
  pd_sum Example.negative_holdings = Some (q (-400) 1)
  /\ (execute Uniform.initialize_estimator_recursive Uniform.values_in_time_recursive
        (Uniform.__init__ (Some 1)) Example.negative_holdings example_market_data
        (Some 99%Z) []).1
     = Raise AssertionError.
Proof.
  split.
  - apply (bool_decide_unpack _). by vm_compute.
  - reflexivity.
Qed.

Lemma uniform_first_step_witness :
  execute Uniform.initialize_estimator_recursive Uniform.values_in_time_recursive
    (Uniform.__init__ (Some 1)) (series_scale first_asset_only (Some (q 1000 1)))
    example_market_data None []
  = (Ok (uniform_initialized
           (Some [Some (q 1 5); Some (q 1 5); Some (q 1 5); Some (q 1 5);
                  Some (q 1 5); Some 0]),
         (series_scale
            (series_sub [Some (q 1 5); Some (q 1 5); Some (q 1 5); Some (q 1 5);
                         Some (q 1 5); Some 0] first_asset_only)
            (Some (q 1000 1)), 13%Z, None)),
     [TradingCalendar; Serve 13; InitializeEstimator; ValuesInTime 13]).
Proof.
  destruct uniform_first_step as (_ & _ & Hexecute).
  eapply (Hexecute example_market_data None 13%Z (q 1000 1)).
  - reflexivity.
  - apply (bool_decide_unpack _). by vm_compute.
  - reflexivity.
  - reflexivity.
  - reflexivity.
Defined.

Lemma missing_times_no_trade_witness :
  (FixedWeights.values_in_time_recursive
     (FixedWeights.__init__ Example.weights_at_10)
     {| t := 11%Z; past_returns := {| columns := 6; rows := [] |};
        past_volumes := None; current_weights := first_asset_only;
        current_portfolio_value := Some (q 1000 1); current_prices := None |} []).1
  = Ok ({| FixedWeights.target_weights := DataEstimator.__init__ Example.weights_at_10;
           FixedWeights._current_value := Some first_asset_only |},
        first_asset_only).
Proof.
  set (a := {| t := 11%Z; past_returns := {| columns := 6; rows := [] |};
                past_volumes := None; current_weights := first_asset_only;
                current_portfolio_value := Some (q 1000 1);
                current_prices := None |}).
  destruct (missing_times_no_trade a []) as (_ & Hweights & Hdata).
  rewrite (Hweights (FixedWeights.__init__ Example.weights_at_10)); [reflexivity|].
  apply (Hdata _ {[ 10%Z := uniform6 ]}); reflexivity.
Defined.

End Witnesses.

(** ** More on the forecasters *)
Section ForecastMoreFacts.
Import Forecast.

Lemma inject_Z_Qc_plus (a b : Z) :
  Q2Qc (inject_Z (a + b)) = Q2Qc (inject_Z a) + Q2Qc (inject_Z b).
Proof.
  apply Qc_is_canon. simpl. rewrite !Qred_correct.
  rewrite inject_Z_plus. reflexivity.
Qed.

Lemma inject_Z_Qc_pos (a : Z) : (0 < a)%Z -> 0 < Q2Qc (inject_Z a).
Proof.
  intros Ha. unfold Qclt. simpl. rewrite (Qred_correct (inject_Z a)).
  unfold Qlt. simpl. lia.
Qed.

Lemma inject_Z_Qc_nonneg (a : Z) : (0 <= a)%Z -> 0 <= Q2Qc (inject_Z a).
Proof.
  intros Ha. unfold Qcle. simpl. rewrite (Qred_correct (inject_Z a)).
  unfold Qle. simpl. lia.
Qed.

Lemma count_col_nonneg j rs : (0 <= count_col j rs)%Z.
Proof.
  induction rs as [|r rs IH]; simpl; [lia|].
  destruct (cell r.2 j); simpl; lia.
Qed.

Lemma count_col_zero j rs :
  count_col j rs = 0%Z <-> forall r, r ∈ rs -> cell r.2 j = None.
Proof.
  induction rs as [|r rs IH]; simpl.
  - split; [|done]. intros _ r Hr. by apply elem_of_nil in Hr.
  - pose proof (count_col_nonneg j rs) as Hge. split.
    + intros Hz r' Hr'. apply elem_of_cons in Hr' as [->|Hr'].
      * destruct (cell r.2 j); simpl in Hz; [lia | done].
      * apply IH; [|done]. destruct (cell r.2 j); simpl in Hz; lia.
    + intros Hall. rewrite (Hall r) by (by left). simpl.
      apply IH. intros r' Hr'. apply Hall. by right.
Qed.

(** The entries of the columns but the last are those of the line. *)
Lemma cell_drop_cash (r : Row) c :
  (S c < length r)%nat -> cell (drop_cash r) c = cell r c.
Proof.
  intros Hc. unfold cell, drop_cash. by rewrite lookup_take_lt by lia.
Qed.

Lemma current_ratio_lookup t (df : DataFrame) c :
  (c < columns df)%nat ->
  current_ratio {| last_time := t; last_counts := count df; last_sum := sum df |}
    !! c
  = Some (fdiv (sum_col id c (rows df)) (count_col c (rows df))).
Proof.
  intros Hc. unfold current_ratio, sum, count. simpl.
  rewrite lookup_zip_with, !list_lookup_fmap, lookup_seq_lt by done. done.
Qed.

Lemma fdiv_None (a : Qc) (b : Z) : fdiv a b = None <-> b = 0%Z.
Proof. unfold fdiv. case_decide; naive_solver. Qed.

(** X1. [HistoricalMeanReturn] followed along a history: it emits one
    value per non-cash column, and the value of a column is NaN exactly
    when none of the lines seen so far has a value in that column. *)
Theorem mean_is_nan_iff_unobserved cols hist time (j n c : nat) :
  rectangular {| columns := cols; rows := hist |} ->
  (j + n <= length hist)%nat ->
  (S c < cols)%nat ->
  exists s v,
    mean_run cols hist time j n = Ok (s, v)
    /\ length v = pred cols
    /\ (v !! c = Some None
        <-> forall k r, (k < j + n)%nat -> hist !! k = Some r -> cell r.2 c = None).
Proof.
  intros Hrect Hn Hc. rewrite mean_run_scratch by done.
  eexists _, _. split; [reflexivity|]. split.
  - unfold current_ratio, HistoricalMeanReturn._initial_compute, sum, count. simpl.
    rewrite length_zip_with, !length_map, length_seq. lia.
  - unfold HistoricalMeanReturn._initial_compute.
    rewrite (current_ratio_lookup _ (iloc_noncash (frame cols hist (j + n))))
      by (simpl; lia).
    split.
    + intros Hnone. assert (Hz := Hnone). injection Hz as Hz.
      apply fdiv_None in Hz. rewrite count_col_zero in Hz.
      intros k r Hk Hr.
      assert (Hlen : length r.2 = cols).
      { unfold rectangular in Hrect. rewrite Forall_lookup in Hrect.
        apply (Hrect _ _ Hr). }
      rewrite <- (cell_drop_cash r.2 c) by lia.
      apply (Hz (r.1, drop_cash r.2)). simpl.
      apply list_elem_of_fmap. exists r. split; [done|].
      apply (list_elem_of_lookup_2 _ k). by rewrite lookup_take_lt.
    + intros Hall. f_equal. apply fdiv_None, count_col_zero.
      intros r' Hr'. simpl in Hr'. apply list_elem_of_fmap in Hr' as (r & -> & Hr).
      apply list_elem_of_lookup in Hr as (k & Hk).
      assert (Hkn : (k < j + n)%nat).
      { apply lookup_lt_Some in Hk. rewrite length_take in Hk. lia. }
      rewrite lookup_take_lt in Hk by done.
      assert (Hlen : length r.2 = cols).
      { unfold rectangular in Hrect. rewrite Forall_lookup in Hrect.
        apply (Hrect _ _ Hk). }
      simpl. rewrite cell_drop_cash by lia. by apply (Hall k).
Qed.

(** The count of a column as a float, line by line. *)
Lemma count_col_cons_Qc j r rs :
  Q2Qc (inject_Z (count_col j (r :: rs)))
  = (if cell r.2 j is Some _ then 1 else 0) + Q2Qc (inject_Z (count_col j rs)).
Proof.
  simpl. rewrite inject_Z_Qc_plus. f_equal.
  destruct (cell r.2 j); by apply Qc_is_canon.
Qed.

(** The sums of one column: [sum((x - a)**2)] is not negative, and so
    [count * sum(x**2) - sum(x)**2] is not negative either. *)
Lemma sum_squares_around (a : Qc) j rs :
  0 <= sum_col (fun x => x * x) j rs - (1 + 1) * a * sum_col id j rs
       + Q2Qc (inject_Z (count_col j rs)) * (a * a).
Proof.
  induction rs as [|r rs IH].
  - simpl. match goal with |- _ <= ?g => assert (g = 0) as -> end; [|done].
    replace (Q2Qc (inject_Z 0)) with 0 by (by apply Qc_is_canon). ring.
  - rewrite count_col_cons_Qc. cbn [sum_col].
    set (N := Q2Qc (inject_Z (count_col j rs))) in *.
    set (Q := sum_col (fun x => x * x) j rs) in *.
    set (S1 := sum_col id j rs) in *.
    destruct (cell r.2 j) as [y|]; simpl.
    + match goal with |- _ <= ?g =>
        assert (g = (y - a) * (y - a) + (Q - (1 + 1) * a * S1 + N * (a * a)))
          as -> by (unfold id; ring) end.
      apply Qcplus_nonneg_nonneg; [apply square_nonneg | done].
    + match goal with |- _ <= ?g =>
        assert (g = Q - (1 + 1) * a * S1 + N * (a * a)) as -> by ring end.
      done.
Qed.

Lemma count_sum_squares j rs :
  0 <= Q2Qc (inject_Z (count_col j rs)) * sum_col (fun x => x * x) j rs
       - sum_col id j rs * sum_col id j rs.
Proof.
  induction rs as [|r rs IH].
  - simpl. match goal with |- _ <= ?g => assert (g = 0) as -> by ring end. done.
  - pose proof (sum_squares_around (default 0 (cell r.2 j)) j rs) as Haround.
    rewrite count_col_cons_Qc. cbn [sum_col].
    set (N := Q2Qc (inject_Z (count_col j rs))) in *.
    set (Q := sum_col (fun x => x * x) j rs) in *.
    set (S1 := sum_col id j rs) in *.
    destruct (cell r.2 j) as [y|]; simpl in *.
    + match goal with |- _ <= ?g =>
        assert (g = (N * Q - S1 * S1) + (Q - (1 + 1) * y * S1 + N * (y * y)))
          as -> by (unfold id; ring) end.
      by apply Qcplus_nonneg_nonneg.
    + match goal with |- _ <= ?g =>
        assert (g = N * Q - S1 * S1) as -> by ring end.
      done.
Qed.

Lemma sum_col_squares_nonneg j rs : 0 <= sum_col (fun x => x * x) j rs.
Proof.
  induction rs as [|r rs IH]; simpl; [done|].
  apply Qcplus_nonneg_nonneg; [|done].
  destruct (cell r.2 j); simpl; [apply square_nonneg | done].
Qed.

Lemma Qcdiv_nonneg (a b : Qc) : 0 <= a -> 0 < b -> 0 <= a / b.
Proof.
  intros Ha Hb. unfold Qcdiv. apply Qcmult_nonneg_nonneg; [done|].
  by apply Qclt_le_weak, Qcinv_pos.
Qed.

Lemma raw_moment_nonneg j rs :
  count_col j rs <> 0%Z ->
  0 <= sum_col (fun x => x * x) j rs / Q2Qc (inject_Z (count_col j rs)).
Proof.
  intros Hz. apply Qcdiv_nonneg; [apply sum_col_squares_nonneg|].
  apply inject_Z_Qc_pos. pose proof (count_col_nonneg j rs). lia.
Qed.

Lemma centered_moment_nonneg j rs :
  count_col j rs <> 0%Z ->
  0 <= sum_col (fun x => x * x) j rs / Q2Qc (inject_Z (count_col j rs))
       - sum_col id j rs / Q2Qc (inject_Z (count_col j rs))
         * (sum_col id j rs / Q2Qc (inject_Z (count_col j rs))).
Proof.
  intros Hz. pose proof (count_sum_squares j rs) as Hcs.
  assert (HN : 0 < Q2Qc (inject_Z (count_col j rs))).
  { apply inject_Z_Qc_pos. pose proof (count_col_nonneg j rs). lia. }
  set (N := Q2Qc (inject_Z (count_col j rs))) in *.
  set (Q := sum_col (fun x => x * x) j rs) in *.
  set (S1 := sum_col id j rs) in *.
  assert (HN0 : N <> 0) by (by apply not_eq_sym, Qclt_not_eq).
  assert (Q / N - S1 / N * (S1 / N) = (N * Q - S1 * S1) / (N * N)) as ->
    by (by field).
  apply Qcdiv_nonneg; [done|].
  replace 0 with (0 * N) by ring. by apply Qcmult_lt_mono_pos_r.
Qed.

(** X2. [HistoricalVariance], raw ([kelly]) or centered: in exact
    arithmetic no emitted variance is negative, on any history, missing
    values included. A negative centered variance can only come from the
    rounding of the floats. *)
Theorem variance_is_not_negative (t : Timestamp) (df : DataFrame) (kelly : bool) :
  exists s v,
    HistoricalVariance.values_in_time_recursive t df
      (HistoricalVariance.__post_init__ kelly) = Ok (s, v)
    /\ forall c x, v !! c = Some (Some x) -> 0 <= x.
Proof.
  destruct kelly.
  - eexists _, _. split; [reflexivity|]. intros c x Hx.
    unfold current_ratio, HistoricalVariance._initial_compute, sum_squares, count in Hx.
    simpl in Hx. rewrite lookup_zip_with, !list_lookup_fmap in Hx.
    destruct (seq 0 (pred (columns df)) !! c) as [c'|] eqn:Hc; [|done].
    apply lookup_seq in Hc as [-> _]. simpl in Hx. injection Hx as Hx.
    unfold fdiv in Hx. case_decide as Hz; [done|]. injection Hx as <-.
    by apply raw_moment_nonneg.
  - eexists _, _. split; [reflexivity|]. intros c x Hx.
    unfold current_ratio, HistoricalVariance._initial_compute,
      HistoricalMeanReturn._initial_compute, sum_squares, sum, count in Hx.
    simpl in Hx.
    rewrite lookup_zip_with, list_lookup_fmap, !lookup_zip_with,
      !list_lookup_fmap in Hx.
    destruct (seq 0 (pred (columns df)) !! c) as [c'|] eqn:Hc; [|done].
    apply lookup_seq in Hc as [-> _]. simpl in Hx. injection Hx as Hx.
    unfold fdiv in Hx. case_decide as Hz; [done|]. simpl in Hx.
    injection Hx as <-. by apply centered_moment_nonneg.
Qed.

Lemma np_sqrt_nonneg (sqrt : Qc -> Qc) (x : Qc) :
  0 <= x -> HistoricalFactorizedCovariance.np_sqrt sqrt (Some x) = Some (sqrt x).
Proof.
  intros Hx. unfold HistoricalFactorizedCovariance.np_sqrt. simpl.
  by rewrite decide_False by (by apply Qcle_not_lt).
Qed.

(** The variance of a column, raw or centered, as [values_in_time] emits
    it on a forecaster whose attributes are unset. *)
Lemma variance_lookup (t : Timestamp) (df : DataFrame) (kelly : bool) c :
  (c < pred (columns df))%nat ->
  let rs := rows (iloc_noncash df) in
  (if kelly
   then current_ratio (HistoricalVariance._initial_compute t df)
   else zip_with fsub (current_ratio (HistoricalVariance._initial_compute t df))
          (fsquare <$> current_ratio (HistoricalMeanReturn._initial_compute t df)))
    !! c
  = Some (if decide (count_col c rs = 0%Z) then None
          else Some (if kelly
                     then sum_col (fun x => x * x) c rs
                          / Q2Qc (inject_Z (count_col c rs))
                     else sum_col (fun x => x * x) c rs
                          / Q2Qc (inject_Z (count_col c rs))
                          - sum_col id c rs / Q2Qc (inject_Z (count_col c rs))
                            * (sum_col id c rs / Q2Qc (inject_Z (count_col c rs))))).
Proof.
  intros Hc rs.
  unfold current_ratio, HistoricalVariance._initial_compute,
    HistoricalMeanReturn._initial_compute, sum_squares, sum, count.
  cbn [last_sum last_counts columns iloc_noncash]. fold rs.
  destruct kelly.
  - rewrite lookup_zip_with, !list_lookup_fmap, lookup_seq_lt by done.
    cbn [fmap option_fmap option_map mbind option_bind Nat.add].
    f_equal; try (unfold fdiv; by destruct (decide (count_col c rs = 0%Z))).
  - rewrite lookup_zip_with, list_lookup_fmap, !lookup_zip_with,
      !list_lookup_fmap, lookup_seq_lt by done.
    cbn [fmap option_fmap option_map mbind option_bind Nat.add].
    f_equal; try (unfold fdiv; by destruct (decide (count_col c rs = 0%Z))).
Qed.

(** X3. [HistoricalStandardDeviation], raw or centered, and
    [HistoricalMeanError]: in exact arithmetic the square root is always
    taken of a number that is not negative, so that the value emitted for a
    column is NaN exactly when the column has no observation. A NaN for an
    observed column can only come from the rounding of the floats. *)
Theorem square_roots_are_defined (sqrt : Qc -> Qc) (t : Timestamp)
    (df : DataFrame) (kelly : bool) :
  exists s v s' e,
    HistoricalStandardDeviation.values_in_time_recursive sqrt t df
      (HistoricalVariance.__post_init__ kelly) = Ok (s, v)
    /\ HistoricalMeanError.values_in_time_recursive sqrt t df
         HistoricalMeanError.__init__ = Ok (s', e)
    /\ forall c, (c < pred (columns df))%nat ->
         (count_col c (rows (iloc_noncash df)) = 0%Z ->
          v !! c = Some None /\ e !! c = Some None)
         /\ (count_col c (rows (iloc_noncash df)) <> 0%Z ->
             (exists x, v !! c = Some (Some x)) /\ (exists x, e !! c = Some (Some x))).
Proof.
  assert (Hcounts : forall c, (c < pred (columns df))%nat ->
    count (iloc_noncash df) !! c = Some (count_col c (rows (iloc_noncash df)))).
  { intros c Hc. unfold count.
    by rewrite list_lookup_fmap, lookup_seq_lt by done. }
  assert (Herror : forall c, (c < pred (columns df))%nat ->
    (HistoricalFactorizedCovariance.np_sqrt sqrt
       <$> zip_with HistoricalMeanError.fdiv_count
             (zip_with fsub (current_ratio (HistoricalVariance._initial_compute t df))
                (fsquare <$> current_ratio
                               (HistoricalMeanReturn._initial_compute t df)))
             (count (iloc_noncash df))) !! c
    = Some (if decide (count_col c (rows (iloc_noncash df)) = 0%Z) then None
            else Some (sqrt
              ((sum_col (fun x => x * x) c (rows (iloc_noncash df))
                / Q2Qc (inject_Z (count_col c (rows (iloc_noncash df))))
                - sum_col id c (rows (iloc_noncash df))
                  / Q2Qc (inject_Z (count_col c (rows (iloc_noncash df))))
                  * (sum_col id c (rows (iloc_noncash df))
                     / Q2Qc (inject_Z (count_col c (rows (iloc_noncash df))))))
               / Q2Qc (inject_Z (count_col c (rows (iloc_noncash df)))))))).
  { intros c Hc. rewrite list_lookup_fmap, lookup_zip_with.
    rewrite (variance_lookup t df false c Hc), Hcounts by done.
    cbn [mbind option_bind fmap option_fmap option_map]. f_equal.
    destruct (decide (count_col c (rows (iloc_noncash df)) = 0%Z)) as [Hz|Hz];
      [done|].
    assert (HN : 0 < Q2Qc (inject_Z (count_col c (rows (iloc_noncash df))))).
    { apply inject_Z_Qc_pos.
      pose proof (count_col_nonneg c (rows (iloc_noncash df))). lia. }
    unfold HistoricalMeanError.fdiv_count, fdiv. cbn [mbind option_bind].
    rewrite decide_False by done. apply np_sqrt_nonneg.
    apply Qcdiv_nonneg; [by apply centered_moment_nonneg | done]. }
  assert (Hdeviation : forall c, (c < pred (columns df))%nat ->
    (HistoricalFactorizedCovariance.np_sqrt sqrt
       <$> (if kelly
            then current_ratio (HistoricalVariance._initial_compute t df)
            else zip_with fsub
                   (current_ratio (HistoricalVariance._initial_compute t df))
                   (fsquare <$> current_ratio
                                  (HistoricalMeanReturn._initial_compute t df))))
      !! c
    = Some (if decide (count_col c (rows (iloc_noncash df)) = 0%Z) then None
            else Some (sqrt
              (if kelly
               then sum_col (fun x => x * x) c (rows (iloc_noncash df))
                    / Q2Qc (inject_Z (count_col c (rows (iloc_noncash df))))
               else sum_col (fun x => x * x) c (rows (iloc_noncash df))
                    / Q2Qc (inject_Z (count_col c (rows (iloc_noncash df))))
                    - sum_col id c (rows (iloc_noncash df))
                      / Q2Qc (inject_Z (count_col c (rows (iloc_noncash df))))
                      * (sum_col id c (rows (iloc_noncash df))
                         / Q2Qc (inject_Z
                                   (count_col c (rows (iloc_noncash df))))))))).
  { intros c Hc. rewrite list_lookup_fmap, (variance_lookup t df kelly c Hc).
    cbn [fmap option_fmap option_map]. f_equal.
    destruct (decide (count_col c (rows (iloc_noncash df)) = 0%Z)) as [Hz|Hz];
      [done|].
    apply np_sqrt_nonneg. destruct kelly.
    - by apply raw_moment_nonneg.
    - by apply centered_moment_nonneg. }
  exists {| HistoricalVariance.kelly := kelly;
            HistoricalVariance.meanforecaster :=
              if kelly then None
              else Some (HistoricalMeanReturn._initial_compute t df);
            HistoricalVariance.stats :=
              Some (HistoricalVariance._initial_compute t df) |},
    (HistoricalFactorizedCovariance.np_sqrt sqrt
       <$> (if kelly
            then current_ratio (HistoricalVariance._initial_compute t df)
            else zip_with fsub
                   (current_ratio (HistoricalVariance._initial_compute t df))
                   (fsquare <$> current_ratio
                                  (HistoricalMeanReturn._initial_compute t df)))),
    {| HistoricalVariance.kelly := false;
       HistoricalVariance.meanforecaster :=
         Some (HistoricalMeanReturn._initial_compute t df);
       HistoricalVariance.stats :=
         Some (HistoricalVariance._initial_compute t df) |},
    (HistoricalFactorizedCovariance.np_sqrt sqrt
       <$> zip_with HistoricalMeanError.fdiv_count
             (zip_with fsub (current_ratio (HistoricalVariance._initial_compute t df))
                (fsquare <$> current_ratio
                               (HistoricalMeanReturn._initial_compute t df)))
             (count (iloc_noncash df))).
  split; [by destruct kelly|]. split; [done|].
  intros c Hc. rewrite (Hdeviation c Hc), (Herror c Hc).
  split; intros Hz;
    destruct (decide (count_col c (rows (iloc_noncash df)) = 0%Z)); try done.
  split; by eexists.
Qed.

(** X4. A history without lines: the first call of [values_in_time], on a
    forecaster whose attributes are unset, raises nothing and emits NaN for
    every non-cash column; any later call on a history that is still empty
    raises [IndexError], from reading the last index of the history. This
    is so for the mean and for the variance. *)
Theorem empty_history_then_index_error (t : Timestamp) (df : DataFrame) :
  rows df = [] ->
  (exists s,
     HistoricalMeanReturn.values_in_time t df None
     = Ok (s, replicate (pred (columns df)) None))
  /\ (exists s,
        HistoricalVariance.values_in_time t df true [] None
        = Ok (s, replicate (pred (columns df)) None))
  /\ (forall s, HistoricalMeanReturn.values_in_time t df (Some s) = Raise IndexError)
  /\ (forall s k m,
        HistoricalVariance.values_in_time t df k m (Some s) = Raise IndexError).
Proof.
  destruct df as [cols rs]. simpl. intros ->.
  assert (Hnan : forall (f : nat -> Qc) n,
    zip_with fdiv (f <$> seq 0 n) ((fun _ => 0%Z) <$> seq 0 n) = replicate n None).
  { intros f n. apply list_eq. intros i.
    rewrite lookup_zip_with, !list_lookup_fmap.
    destruct (decide (i < n)%nat) as [Hi|Hi].
    - rewrite lookup_seq_lt, lookup_replicate_2 by done. done.
    - rewrite lookup_seq_ge by lia. symmetry. apply lookup_replicate_None. lia. }
  split; [|split; [|split]].
  - eexists. unfold HistoricalMeanReturn.values_in_time. simpl. f_equal. f_equal.
    unfold current_ratio, sum, count. simpl. apply Hnan.
  - eexists. unfold HistoricalVariance.values_in_time. simpl. f_equal. f_equal.
    unfold current_ratio, sum_squares, count. simpl. apply Hnan.
  - intros s. by unfold HistoricalMeanReturn.values_in_time, _agnostic_update, index_last.
  - intros s k m.
    by unfold HistoricalVariance.values_in_time, _agnostic_update, index_last.
Qed.
End ForecastMoreFacts.

(** ** The cash column and the covariance forecaster *)
Section CovarianceMoreFacts.
Import Forecast HistoricalFactorizedCovariance ForecastRuns.

Local Abbreviation dc := (fun r : Timestamp * Row => (r.1, drop_cash r.2)).

Lemma drop_cash_set_last (r : Row) x :
  drop_cash (<[(length r - 1)%nat := x]> r) = drop_cash r.
Proof. unfold drop_cash. rewrite length_insert. by rewrite take_insert_ge by lia. Qed.

Lemma fmap_set_cash {B} (h : Timestamp * Row -> B) i x hist :
  (forall r, h (r.1, <[(length r.2 - 1)%nat := x]> r.2) = h r) ->
  h <$> set_cash i x hist = h <$> hist.
Proof.
  intros Hh. unfold set_cash.
  apply list_eq. intros k. rewrite !list_lookup_fmap.
  destruct (decide (k = i)) as [->|Hk].
  - rewrite list_lookup_alter_eq.
    destruct (hist !! i); simpl; [|done]. by rewrite Hh.
  - by rewrite list_lookup_alter_ne by done.
Qed.

Lemma last_set_cash {B} (h : Timestamp * Row -> B) i x hist :
  (forall r, h (r.1, <[(length r.2 - 1)%nat := x]> r.2) = h r) ->
  h <$> last (set_cash i x hist) = h <$> last hist.
Proof.
  intros Hh. rewrite <- !fmap_last. by rewrite fmap_set_cash.
Qed.

Section SetCash.
Variables (cols : nat) (hist : list (Timestamp * Row)) (i : nat) (x : Float).

Local Abbreviation df := {| columns := cols; rows := hist |}.
Local Abbreviation df' := {| columns := cols; rows := set_cash i x hist |}.

Lemma iloc_noncash_set_cash : iloc_noncash df' = iloc_noncash df.
Proof.
  unfold iloc_noncash. simpl. f_equal.
  apply (fmap_set_cash dc). intros r. simpl. by rewrite drop_cash_set_last.
Qed.

Lemma index_last_set_cash : index_last df' = index_last df.
Proof.
  unfold index_last. simpl.
  pose proof (last_set_cash fst i x hist (fun r => eq_refl)) as Hl.
  destruct (last (set_cash i x hist)), (last hist); simpl in Hl; congruence.
Qed.

Lemma iloc_last_noncash_set_cash : iloc_last_noncash df' = iloc_last_noncash df.
Proof.
  unfold iloc_last_noncash. simpl.
  pose proof (last_set_cash (fun r => drop_cash r.2) i x hist
                (fun r => drop_cash_set_last r.2 x)) as Hl.
  destruct (last (set_cash i x hist)), (last hist); simpl in Hl; congruence.
Qed.
End SetCash.

(** X5. The forecasters never look at the cash column: replacing the cash
    return of any line of the history by any value, NaN included, changes
    neither the new attributes nor the value emitted by the mean, the
    variance and the covariance forecasters, whatever their attributes
    before the call. *)
Theorem cash_returns_are_ignored cols hist i x (t : Timestamp) :
  let df := {| columns := cols; rows := hist |} in
  let df' := {| columns := cols; rows := set_cash i x hist |} in
  (forall self,
     HistoricalMeanReturn.values_in_time t df' self
     = HistoricalMeanReturn.values_in_time t df self)
  /\ (forall self,
        HistoricalVariance.values_in_time_recursive t df' self
        = HistoricalVariance.values_in_time_recursive t df self)
  /\ (forall eigh sqrt kelly self,
        values_in_time_body eigh sqrt kelly self t df'
        = values_in_time_body eigh sqrt kelly self t df).
Proof.
  intros df df'.
  pose proof (iloc_noncash_set_cash cols hist i x) as Hn.
  pose proof (index_last_set_cash cols hist i x) as Hi.
  pose proof (iloc_last_noncash_set_cash cols hist i x) as Hl.
  assert (Hmean : forall self,
    HistoricalMeanReturn.values_in_time t df' self
    = HistoricalMeanReturn.values_in_time t df self).
  { intros self.
    unfold HistoricalMeanReturn.values_in_time, _agnostic_update,
      HistoricalMeanReturn._initial_compute, HistoricalMeanReturn._online_update.
    subst df df'. by rewrite Hn, Hi, Hl. }
  assert (Hvar : forall k m self,
    HistoricalVariance.values_in_time t df' k m self
    = HistoricalVariance.values_in_time t df k m self).
  { intros k m self.
    unfold HistoricalVariance.values_in_time, _agnostic_update,
      HistoricalVariance._initial_compute, HistoricalVariance._online_update.
    subst df df'. by rewrite Hn, Hi, Hl. }
  split; [done|]. split.
  - intros self. unfold HistoricalVariance.values_in_time_recursive.
    rewrite Hmean. destruct (HistoricalVariance.kelly self); [by rewrite Hvar|].
    destruct (HistoricalMeanReturn.values_in_time t df _) as [[m mv]|e]; [|done].
    simpl. by rewrite Hvar.
  - intros eigh sqrt kelly self.
    unfold values_in_time_body, _agnostic_update, _initial_compute, _online_update,
      _get_count_matrix, _get_initial_joint_mean.
    subst df df'. by rewrite Hn, Hi, Hl.
Qed.

(** *** The matrices of counts and of sums, entry by entry *)

Lemma fsum_ext n (f g : nat -> Float) :
  (forall k, (k < n)%nat -> f k = g k) -> fsum n f = fsum n g.
Proof.
  induction n as [|n IH]; intros Hfg; simpl; [done|].
  rewrite IH by (intros; apply Hfg; lia). by rewrite Hfg by lia.
Qed.

Lemma fmul_comm (a b : Float) : fmul a b = fmul b a.
Proof. destruct a, b; simpl; try done. f_equal. ring. Qed.

(** [f(X).T @ g(X)] for the non-cash returns [X] of a frame. *)
Local Abbreviation gram f g past_returns :=
  (matmul (transpose (mmap f (values (iloc_noncash past_returns))))
     (mmap g (values (iloc_noncash past_returns)))).

Lemma values_entry cols hist m k c :
  (k < m)%nat ->
  entry (values (iloc_noncash (frame cols hist m))) k c
  = hist !! k ≫= fun r => cell (drop_cash r.2) c.
Proof.
  intros Hk. simpl. change (map ?f ?l) with (f <$> l).
  rewrite list_lookup_fmap, lookup_take_lt by done.
  by destruct (hist !! k).
Qed.

Lemma gram_entry f g cols hist m i j :
  (m <= length hist)%nat ->
  entry (gram f g (frame cols hist m)) i j
  = fsum m (fun k => fmul (f (hist !! k ≫= fun r => cell (drop_cash r.2) i))
                       (g (hist !! k ≫= fun r => cell (drop_cash r.2) j))).
Proof.
  intros Hm. cbn [entry matmul transpose mmap ncols nrows values].
  change (map ?f ?l) with (f <$> l).
  replace (length (rows (iloc_noncash (frame cols hist m)))) with m
    by (simpl; rewrite length_map, length_take; lia).
  apply fsum_ext. intros k Hk.
  pose proof (values_entry cols hist m k) as Hv. simpl in Hv.
  change (map ?f ?l) with (f <$> l) in Hv. by rewrite !Hv.
Qed.

Lemma gram_step f g cols hist m r i j :
  hist !! m = Some r ->
  entry (gram f g (frame cols hist (S m))) i j
  = fadd (entry (gram f g (frame cols hist m)) i j)
      (fmul (f (cell (drop_cash r.2) i)) (g (cell (drop_cash r.2) j))).
Proof.
  intros Hr. pose proof (lookup_lt_Some _ _ _ Hr) as Hlt.
  rewrite !gram_entry by lia. simpl. by rewrite Hr.
Qed.

Lemma gram_shape f g (df : DataFrame) :
  nrows (gram f g df) = pred (columns df) /\ ncols (gram f g df) = pred (columns df).
Proof. done. Qed.

Lemma gram_symmetric f (df : DataFrame) : symmetric (gram f f df).
Proof.
  intros i j. cbn [entry matmul transpose mmap ncols nrows].
  apply fsum_ext. intros k _. apply fmul_comm.
Qed.

Lemma online_update_Ok kelly cols hist m r t (s : State) :
  hist !! m = Some r ->
  _online_update kelly t (frame cols hist (S m)) s
  = Ok {| _last_counts_matrix :=
            mzip fadd (_last_counts_matrix s)
              (outer (vmap nonnull1 (series (drop_cash r.2)))
                 (vmap nonnull1 (series (drop_cash r.2))));
          _last_sum_matrix :=
            mzip fadd (_last_sum_matrix s)
              (outer (vmap fillna (series (drop_cash r.2)))
                 (vmap fillna (series (drop_cash r.2))));
          _last_time := t;
          _joint_mean :=
            if kelly then _joint_mean s
            else (fun m => add_to_lines m (vmap fillna (series (drop_cash r.2))))
                   <$> _joint_mean s |}.
Proof.
  intros Hr. unfold _online_update.
  by rewrite (iloc_last_noncash_snoc (frame cols hist m) (frame cols hist (S m)) r)
    by (by apply frame_snoc).
Qed.

Lemma same_entries_refl (A : Matrix) : same_entries A A.
Proof. done. Qed.

Lemma same_entries_step (A B A' : Matrix) (u : Float -> Float) (row : Row) :
  same_entries A B ->
  nrows A' = nrows B -> ncols A' = ncols B ->
  (forall i j, entry A' i j
               = fadd (entry B i j) (fmul (u (cell row i)) (u (cell row j)))) ->
  same_entries
    (mzip fadd A (outer (vmap u (series row)) (vmap u (series row)))) A'.
Proof.
  intros (Hr & Hc & He) Hr' Hc' He'. split; [|split]; simpl; [congruence..|].
  intros i j. by rewrite He', He.
Qed.

Lemma covariance_incremental_spec cols hist time kelly j n :
  (j + n <= length hist)%nat ->
  exists s,
    covariance_incremental cols hist time kelly j n = Ok s
    /\ _last_time s = time (j + n)%nat
    /\ same_entries (_last_counts_matrix s)
         (_get_count_matrix (frame cols hist (j + n)))
    /\ same_entries (_last_sum_matrix s)
         (gram fillna fillna (frame cols hist (j + n)))
    /\ (kelly = true -> _joint_mean s = None).
Proof.
  induction n as [|n IH]; intros Hn.
  - rewrite Nat.add_0_r. eexists. split; [reflexivity|].
    split; [done|]. split; [done|]. split; [done|]. by intros ->.
  - destruct IH as (s & Hs & Ht & Hcount & Hsum & Hjm); [lia|].
    cbn [covariance_incremental]. rewrite Hs. simpl.
    replace (j + S n)%nat with (S (j + n)) by lia.
    destruct (lookup_lt_is_Some_2 hist (j + n)) as [r Hr]; [lia|].
    rewrite (online_update_Ok _ _ _ _ r) by done.
    eexists. split; [reflexivity|]. split; [done|]. simpl. split; [|split].
    + eapply same_entries_step; [exact Hcount|done|done|]. intros a b.
      by apply (gram_step nonnull1 nonnull1).
    + eapply same_entries_step; [exact Hsum|done|done|]. intros a b.
      by apply (gram_step fillna fillna).
    + intros ->. by apply Hjm.
Qed.

Lemma same_entries_mzip f (A B A' B' : Matrix) :
  same_entries A A' -> same_entries B B' ->
  same_entries (mzip f A B) (mzip f A' B').
Proof.
  intros (Hr & Hc & He) (Hr' & Hc' & He'). split; [|split]; simpl; [done..|].
  intros i j. by rewrite He, He'.
Qed.

(** X6. [HistoricalFactorizedCovariance]: a computation from scratch
    followed by online updates, one per new line of the history, gives the
    matrix of pairwise counts and the matrix of sums of pairwise products of
    a computation from scratch on all the lines seen, entry by entry, with
    or without missing values; with [kelly] the covariance estimated from
    them is the same too. *)
Theorem covariance_incremental_equals_scratch cols hist time kelly j n :
  (j + n <= length hist)%nat ->
  exists s,
    covariance_incremental cols hist time kelly j n = Ok s
    /\ let s' := _initial_compute kelly (time (j + n)%nat)
                   (frame cols hist (j + n)) in
       _last_time s = _last_time s'
       /\ same_entries (_last_counts_matrix s) (_last_counts_matrix s')
       /\ same_entries (_last_sum_matrix s) (_last_sum_matrix s')
       /\ (kelly = true ->
           same_entries (covariance_of true s) (covariance_of true s')).
Proof.
  intros Hn.
  destruct (covariance_incremental_spec cols hist time kelly j n Hn)
    as (s & Hs & Ht & Hcount & Hsum & Hjm).
  exists s. split; [done|]. simpl. split; [done|]. split; [done|].
  split; [done|]. intros ->. unfold covariance_of. simpl.
  by apply same_entries_mzip.
Qed.

(** X7. [HistoricalFactorizedCovariance] without [kelly]: the online
    update adds the last line, with 0 for its missing values, to every line
    of [_joint_mean]. Its entry [(i, j)] after the update is the entry
    computed from scratch when the last line has a value in column [i]; when
    that value is missing, it is the entry computed from scratch plus the
    value of column [j] in the last line. *)
Theorem joint_mean_online_update cols hist time k r (i j : nat) :
  hist !! k = Some r ->
  exists s jm jm' a b,
    _online_update false (time (S k)) (frame cols hist (S k))
      (_initial_compute false (time k) (frame cols hist k)) = Ok s
    /\ _joint_mean s = Some jm
    /\ _joint_mean (_initial_compute false (time (S k)) (frame cols hist (S k)))
       = Some jm'
    /\ entry jm i j = Some a
    /\ entry jm' i j = Some b
    /\ a = b + (if cell (drop_cash r.2) i is Some _ then 0
                else fillna0 (cell (drop_cash r.2) j)).
Proof.
  intros Hr. pose proof (lookup_lt_Some _ _ _ Hr) as Hlt.
  rewrite (online_update_Ok _ _ _ _ r) by done.
  set (old := fun k' => fmul (nonnull1 (hist !! k' ≫= fun r => cell (drop_cash r.2) i))
                          (fillna (hist !! k' ≫= fun r => cell (drop_cash r.2) j))).
  assert (Hold : fsum k old
                 = Some (qsum k (fun k' =>
                     (if hist !! k' ≫= (fun r => cell (drop_cash r.2) i) is Some _
                      then 1 else 0)
                     * fillna0 (hist !! k' ≫= fun r => cell (drop_cash r.2) j)))).
  { by apply fsum_finite. }
  eexists _, _, _, _, _. split; [reflexivity|].
  cbn [_joint_mean _initial_compute fmap option_fmap option_map].
  split; [reflexivity|]. split; [reflexivity|]. split; [|split].
  - unfold _get_initial_joint_mean. cbn [entry add_to_lines].
    rewrite gram_entry by lia. fold old. rewrite Hold. reflexivity.
  - unfold _get_initial_joint_mean.
    rewrite (gram_step nonnull1 fillna _ _ _ r) by done.
    rewrite gram_entry by lia. fold old. rewrite Hold. reflexivity.
  - simpl. destruct (cell (drop_cash r.2) i); ring.
Qed.

Lemma symmetric_mzip f (A B : Matrix) :
  symmetric A -> symmetric B -> symmetric (mzip f A B).
Proof. intros HA HB i j. simpl. by rewrite HA, HB. Qed.

Lemma symmetric_outer (v : Vector) : symmetric (outer v v).
Proof. intros i j. apply fmul_comm. Qed.

Lemma covariance_of_symmetric kelly (s : State) :
  symmetric (_last_counts_matrix s) -> symmetric (_last_sum_matrix s) ->
  symmetric (covariance_of kelly s).
Proof.
  intros Hc Hs. unfold covariance_of.
  destruct kelly; [by apply symmetric_mzip|].
  destruct (_joint_mean s) as [jm|]; [|by apply symmetric_mzip].
  apply symmetric_mzip; [by apply symmetric_mzip|].
  intros i j. simpl. apply fmul_comm.
Qed.

(** X8. [HistoricalFactorizedCovariance], with [kelly] or without: after
    the computation from scratch and after any number of online updates the
    matrix of counts, the matrix of sums and the covariance handed to
    [project_on_psd_cone_and_factorize] are symmetric, whatever values are
    missing. *)
Theorem covariance_is_symmetric cols hist time kelly j n :
  (j + n <= length hist)%nat ->
  exists s,
    covariance_incremental cols hist time kelly j n = Ok s
    /\ symmetric (_last_counts_matrix s)
    /\ symmetric (_last_sum_matrix s)
    /\ symmetric (covariance_of kelly s).
Proof.
  intros Hn.
  assert (Hsym : exists s,
    covariance_incremental cols hist time kelly j n = Ok s
    /\ symmetric (_last_counts_matrix s) /\ symmetric (_last_sum_matrix s)).
  { induction n as [|n IH].
    - eexists. split; [reflexivity|]. split; apply gram_symmetric.
    - destruct IH as (s & Hs & Hc & Hm); [lia|].
      cbn [covariance_incremental]. rewrite Hs. simpl.
      destruct (lookup_lt_is_Some_2 hist (j + n)) as [r Hr]; [lia|].
      replace (j + S n)%nat with (S (j + n)) by lia.
      rewrite (online_update_Ok _ _ _ _ r) by done.
      eexists. split; [reflexivity|]. simpl.
      split; apply symmetric_mzip; (done || apply symmetric_outer). }
  destruct Hsym as (s & Hs & Hc & Hm). exists s.
  split; [done|]. split; [done|]. split; [done|].
  by apply covariance_of_symmetric.
Qed.

(** *** The diagonal of the covariance *)

Lemma sum_col_qsum (f : Qc -> Qc) c (rs : list (Timestamp * Row)) :
  sum_col f c rs
  = qsum (length rs) (fun k => fillna0 (f <$> (rs !! k ≫= fun r => cell r.2 c))).
Proof.
  induction rs as [|r rs IH] using rev_ind; [done|].
  rewrite sum_col_snoc, length_app, Nat.add_1_r. simpl.
  rewrite lookup_app_r, Nat.sub_diag by done. simpl. f_equal.
  rewrite IH. apply qsum_ext. intros k Hk. by rewrite lookup_app_l.
Qed.

Lemma count_col_qsum c (rs : list (Timestamp * Row)) :
  Q2Qc (inject_Z (count_col c rs))
  = qsum (length rs) (fun k =>
      if rs !! k ≫= (fun r => cell r.2 c) is Some _ then 1 else 0).
Proof.
  induction rs as [|r rs IH] using rev_ind; [by apply Qc_is_canon|].
  rewrite count_col_snoc, inject_Z_Qc_plus, length_app, Nat.add_1_r. simpl.
  rewrite lookup_app_r, Nat.sub_diag by done. simpl. f_equal.
  - rewrite IH. apply qsum_ext. intros k Hk. by rewrite lookup_app_l.
  - destruct (cell r.2 c); by apply Qc_is_canon.
Qed.

Lemma inject_Z_Qc_zero (a : Z) : (0 <= a)%Z -> Q2Qc (inject_Z a) = 0 -> a = 0%Z.
Proof.
  intros Ha Hz. destruct (decide (a = 0%Z)) as [|Hne]; [done|].
  assert (Hpos : 0 < Q2Qc (inject_Z a)) by (apply inject_Z_Qc_pos; lia).
  rewrite Hz in Hpos. by apply Qclt_not_eq in Hpos.
Qed.

(** X9. With [kelly], the diagonal of the covariance that
    [HistoricalFactorizedCovariance] estimates from a history is what
    [HistoricalVariance] emits on the same history: the entry [(c, c)] is
    the variance of column [c], NaN for the same columns. *)
Theorem covariance_diagonal_is_variance (t : Timestamp) (df : DataFrame) (c : nat) :
  (c < pred (columns df))%nat ->
  exists s v,
    HistoricalVariance.values_in_time t df true [] None = Ok (s, v)
    /\ v !! c = Some (entry (covariance_of true (_initial_compute true t df)) c c).
Proof.
  intros Hc. eexists _, _. split; [reflexivity|].
  unfold current_ratio, HistoricalVariance._initial_compute, sum_squares, count.
  cbn [last_sum last_counts].
  rewrite lookup_zip_with, !list_lookup_fmap, lookup_seq_lt by done.
  cbn [fmap option_fmap option_map mbind option_bind Nat.add]. f_equal.
  set (rs := rows (iloc_noncash df)).
  unfold covariance_of, _initial_compute, _get_count_matrix.
  cbn [entry mzip _last_sum_matrix _last_counts_matrix matmul transpose mmap
       ncols nrows values].
  fold rs.
  rewrite (fsum_finite _ _ (fun k =>
             fillna0 ((fun x => x * x) <$> (rs !! k ≫= fun r => cell r.2 c)))).
  2:{ intros k _. unfold fillna. simpl.
      by destruct (rs !! k ≫= fun r => cell r.2 c). }
  rewrite (fsum_finite _ _ (fun k =>
             if rs !! k ≫= (fun r => cell r.2 c) is Some _ then 1 else 0)).
  2:{ intros k _. unfold nonnull1. simpl.
      destruct (rs !! k ≫= fun r => cell r.2 c); simpl; f_equal; ring. }
  rewrite <- sum_col_qsum, <- count_col_qsum.
  unfold fdiv, fdivf. destruct (decide (count_col c rs = 0%Z)) as [Hz|Hz].
  - rewrite Hz. by rewrite decide_True by (by apply Qc_is_canon).
  - rewrite decide_False; [done|]. intros H0. apply Hz.
    apply inject_Z_Qc_zero; [apply count_col_nonneg | done].
Qed.
End CovarianceMoreFacts.

(** ** The policies that do not optimize *)
Section SimplePoliciesFacts.
Import Forecast Policies SimplePolicies.

(** *** Sums and elementwise operations on series of numbers *)

Local Abbreviation total l := (foldl Qcplus 0 l).

Lemma foldl_Qcplus_acc (a : Qc) l : foldl Qcplus a l = a + total l.
Proof.
  revert a. induction l as [|x l IH]; intros a; simpl; [ring|].
  rewrite IH, (IH (0 + x)). ring.
Qed.

Lemma total_cons (x : Qc) l : total (x :: l) = x + total l.
Proof. simpl. rewrite foldl_Qcplus_acc. ring. Qed.

Lemma total_app (l k : list Qc) : total (l ++ k) = total l + total k.
Proof. by rewrite foldl_app, foldl_Qcplus_acc. Qed.

Lemma pd_sum_finite (l : list Qc) : pd_sum (Some <$> l) = Some (total l).
Proof.
  unfold pd_sum. f_equal. rewrite <- list_fmap_compose.
  f_equal. by rewrite list_fmap_id.
Qed.

Lemma np_sum_acc (a : Qc) (l : list Qc) :
  foldl fadd (Some a) (Some <$> l) = Some (a + total l).
Proof.
  revert a. induction l as [|x l IH]; intros a.
  - simpl. f_equal. ring.
  - rewrite fmap_cons, total_cons. cbn [foldl fadd]. rewrite IH. f_equal. ring.
Qed.

Lemma np_sum_finite (l : list Qc) : np_sum (Some <$> l) = Some (total l).
Proof. unfold np_sum. rewrite np_sum_acc. f_equal. ring. Qed.

Lemma foldl_fadd_None (l : Series) : foldl fadd None l = None.
Proof. by induction l. Qed.

(** A sum that is a number is a sum of numbers. *)
Lemma foldl_fadd_Some (a : Qc) (l : Series) (s : Qc) :
  foldl fadd (Some a) l = Some s -> exists l', l = Some <$> l' /\ s = a + total l'.
Proof.
  revert a s. induction l as [|x l IH]; intros a s Hs.
  - exists []. split; [done|]. simpl in *. injection Hs as <-. ring.
  - simpl in Hs. destruct x as [x|]; simpl in Hs.
    + apply IH in Hs as (l' & -> & ->). exists (x :: l').
      split; [done|]. rewrite total_cons. ring.
    + by rewrite foldl_fadd_None in Hs.
Qed.

Lemma np_sum_Some (l : Series) (s : Qc) :
  np_sum l = Some s -> exists l', l = Some <$> l' /\ s = total l'.
Proof.
  intros Hs. apply foldl_fadd_Some in Hs as (l' & -> & ->).
  exists l'. split; [done|]. ring.
Qed.

Lemma series_div_finite (l : list Qc) (v : Qc) :
  v <> 0 -> series_div (Some <$> l) (Some v) = Some <$> ((fun x => x / v) <$> l).
Proof.
  intros Hv. unfold series_div. rewrite <- !list_fmap_compose.
  apply list_fmap_ext. intros _ x _. simpl. by rewrite decide_False.
Qed.

Lemma series_scale_finite (l : list Qc) (v : Qc) :
  series_scale (Some <$> l) (Some v) = Some <$> ((fun x => x * v) <$> l).
Proof.
  unfold series_scale. rewrite <- !list_fmap_compose. by apply list_fmap_ext.
Qed.

Lemma series_sub_finite (l k : list Qc) :
  series_sub (Some <$> l) (Some <$> k) = Some <$> zip_with Qcminus l k.
Proof.
  unfold series_sub. revert k. induction l as [|x l IH]; intros [|y k]; simpl; try done.
  by rewrite IH.
Qed.

Lemma series_add_finite (l k : list Qc) :
  series_add (Some <$> l) (Some <$> k) = Some <$> zip_with Qcplus l k.
Proof.
  unfold series_add. revert k. induction l as [|x l IH]; intros [|y k]; simpl; try done.
  by rewrite IH.
Qed.

Lemma total_scale (l : list Qc) (v : Qc) :
  total ((fun x => x * v) <$> l) = total l * v.
Proof.
  induction l as [|x l IH]; [simpl; ring|].
  rewrite fmap_cons, !total_cons, IH. ring.
Qed.

Lemma total_div (l : list Qc) (v : Qc) :
  total ((fun x => x / v) <$> l) = total l / v.
Proof.
  induction l as [|x l IH]; [simpl; unfold Qcdiv; ring|].
  rewrite fmap_cons, !total_cons, IH. unfold Qcdiv. ring.
Qed.

Lemma total_zip_minus (l k : list Qc) :
  length l = length k -> total (zip_with Qcminus l k) = total l - total k.
Proof.
  revert k. induction l as [|x l IH]; intros [|y k] Hlen; try done.
  simpl in Hlen. injection Hlen as Hlen.
  cbn [zip_with]. rewrite !total_cons, IH by done. ring.
Qed.

(** *** execute, once the checks are passed *)

Section Execute.
Context {P : Type}.
Variable initialize_estimator_recursive : P -> nat -> list Timestamp -> Eff P.
Variable values_in_time_recursive : P -> Args -> Eff (P * Series).

Lemma execute_resolved (self : P) (h : Series) (market_data : MarketData)
    (t : option Timestamp) (t0 : Timestamp) log :
  resolve market_data t = Some t0 ->
  (match t with
   | Some t => mret t
   | None => lift (from_option Ok (Raise IndexError)
                     (last (trading_calendar market_data)))
   end) (log ++ [TradingCalendar])
  = (Ok t0, log ++ [TradingCalendar]).
Proof.
  intros Ht. destruct t as [t|]; simpl in Ht.
  - by injection Ht as ->.
  - unfold lift. by rewrite Ht.
Qed.

Lemma execute_served (self : P) (h : Series) (market_data : MarketData)
    (t : option Timestamp) (t0 : Timestamp) (v : Qc) past_returns past_volumes
    current_prices log :
  resolve market_data t = Some t0 ->
  t0 ∈ trading_calendar market_data ->
  pd_sum h = Some v ->
  0 <= v ->
  serve market_data t0 = (past_returns, past_volumes, current_prices) ->
  execute initialize_estimator_recursive values_in_time_recursive self h
    market_data t log
  = (self ← initialize_estimator_recursive self (columns past_returns)
              (filter (fun t' => t0 <= t')%Z (trading_calendar market_data));
     '(self, w_plus) ← values_in_time_recursive self
         {| Policies.t := t0; past_returns := past_returns;
            past_volumes := past_volumes;
            current_weights := series_div h (Some v);
            current_portfolio_value := Some v;
            current_prices := current_prices |};
     let u := series_scale (series_sub w_plus (series_div h (Some v))) (Some v) in
     shares_traded ← match current_prices with
                     | Some current_prices =>
                         lift (Some <$> round_to_int
                                 (zip_with fdivf (drop_cash u) current_prices))
                     | None => mret None
                     end;
     mret (self, (u, t0, shares_traded)))
    (log ++ [TradingCalendar; Serve t0]).
Proof.
  intros Ht Hin Hv Hpos Hserve.
  unfold execute, mbind at 1 2 3 4 5, Eff_bind at 1 2 3 4 5, tell.
  rewrite (execute_resolved self h _ _ _ _ Ht).
  unfold assert. rewrite bool_decide_true by done.
  unfold mret at 1, Eff_ret at 1. rewrite Hv. unfold flt0.
  rewrite bool_decide_false by (by apply Qcle_not_lt).
  unfold mret at 1, Eff_ret at 1. rewrite Hserve.
  by rewrite <- app_assoc.
Qed.

(** What a call of [execute] that returns has done. *)
Lemma execute_Ok_inv (self : P) (h : Series) (market_data : MarketData)
    (t : option Timestamp) log out log' :
  execute initialize_estimator_recursive values_in_time_recursive self h
    market_data t log = (Ok out, log') ->
  exists t0 self1 log1 w_plus,
    resolve market_data t = Some t0
    /\ t0 ∈ trading_calendar market_data
    /\ initialize_estimator_recursive self
         (columns (serve market_data t0).1.1)
         (filter (fun t' => t0 <= t')%Z (trading_calendar market_data))
         (log ++ [TradingCalendar; Serve t0]) = (Ok self1, log1)
    /\ values_in_time_recursive self1
         {| Policies.t := t0; past_returns := (serve market_data t0).1.1;
            past_volumes := (serve market_data t0).1.2;
            current_weights := series_div h (pd_sum h);
            current_portfolio_value := pd_sum h;
            current_prices := (serve market_data t0).2 |} log1
       = (Ok (out.1, w_plus), log')
    /\ out.2.1.2 = t0.
Proof.
  intros Hexec. unfold execute in Hexec.
  apply Eff_bind_Ok in Hexec as ([] & log0 & Htell & Hexec).
  unfold tell in Htell. injection Htell as <-.
  apply Eff_bind_Ok in Hexec as (t0 & log1 & Ht0 & Hexec).
  assert (Hres : resolve market_data t = Some t0 /\ log1 = log ++ [TradingCalendar]).
  { destruct t as [t|]; simpl in *.
    - by injection Ht0 as <- <-.
    - unfold lift in Ht0.
      destruct (last (trading_calendar market_data)) as [x|]; simpl in Ht0; [|done].
      by injection Ht0 as <- <-. }
  destruct Hres as [Hres ->].
  apply Eff_bind_Ok in Hexec as ([] & log2 & Hassert & Hexec).
  unfold assert in Hassert. case_bool_decide as Hin; [|done].
  injection Hassert as <-.
  apply Eff_bind_Ok in Hexec as ([] & log3 & Hneg & Hexec).
  destruct (flt0 (pd_sum h)); [done|]. injection Hneg as <-.
  apply Eff_bind_Ok in Hexec as ([] & log4 & Htell & Hexec).
  unfold tell in Htell. injection Htell as <-.
  destruct (serve market_data t0) as [[past_returns past_volumes] current_prices]
    eqn:Hserve.
  apply Eff_bind_Ok in Hexec as (self1 & log5 & Hinit & Hexec).
  apply Eff_bind_Ok in Hexec as ([self2 w_plus] & log6 & Hvalues & Hexec).
  apply Eff_bind_Ok in Hexec as (shares & log7 & Hshares & Hexec).
  injection Hexec as <- <-.
  assert (log7 = log6) as ->.
  { destruct current_prices; [|by injection Hshares].
    by apply lift_Ok in Hshares as [_ ->]. }
  rewrite <- app_assoc in Hinit.
  exists t0, self1, log5, w_plus. by rewrite Hserve.
Qed.
End Execute.

(** X10. Policy.execute when the time is not a trading time: with [t]
    left out and an empty trading calendar it raises [IndexError]; with a
    [t] that is not in the trading calendar it raises [AssertionError]. In
    both cases this is so whatever the holdings and the policy, and nothing
    has happened but the read of the trading calendar. *)
Theorem execute_outside_calendar {P}
    (initialize_estimator_recursive : P -> nat -> list Timestamp -> Eff P)
    (values_in_time_recursive : P -> Args -> Eff (P * Series))
    (self : P) (h : Series) (market_data : MarketData) log :
  (trading_calendar market_data = [] ->
   execute initialize_estimator_recursive values_in_time_recursive self h
     market_data None log
   = (Raise IndexError, log ++ [TradingCalendar]))
  /\ (forall t0, t0 ∉ trading_calendar market_data ->
        execute initialize_estimator_recursive values_in_time_recursive self h
          market_data (Some t0) log
        = (Raise AssertionError, log ++ [TradingCalendar])).
Proof.
  split.
  - intros Hcal. unfold execute, mbind, Eff_bind, tell, lift. by rewrite Hcal.
  - intros t0 Hin. unfold execute, mbind, Eff_bind, tell, assert. simpl.
    by rewrite bool_decide_false by done.
Qed.

Lemma zero_trades (w : list Qc) (v : Qc) :
  series_scale (series_sub (Some <$> w) (Some <$> w)) (Some v)
  = replicate (length w) (Some 0).
Proof.
  rewrite series_sub_finite, series_scale_finite.
  induction w as [|x w IH]; [done|].
  cbn [zip_with fmap list_fmap length replicate].
  f_equal; [f_equal; ring | exact IH].
Qed.

(** X11. [Hold] executed on holdings that are numbers and whose sum [v] is
    positive, at a trading time and without prices: every trade is 0, for
    every asset and for cash, and the policy is initialized and asked for
    its weights once. *)
Theorem hold_never_trades (h : list Qc) (market_data : MarketData)
    (t : option Timestamp) (t0 : Timestamp) (v : Qc) past_returns past_volumes log :
  resolve market_data t = Some t0 ->
  t0 ∈ trading_calendar market_data ->
  total h = v ->
  0 < v ->
  serve market_data t0 = (past_returns, past_volumes, None) ->
  execute (initialize_estimator_recursive no_initialize_estimator)
    (values_in_time_recursive Hold.values_in_time) () (Some <$> h) market_data t log
  = (Ok ((), (replicate (length h) (Some 0), t0, None)),
     log ++ [TradingCalendar; Serve t0; InitializeEstimator; ValuesInTime t0]).
Proof.
  intros Ht Hin Hv Hpos Hserve.
  assert (Hv0 : v <> 0) by (by apply not_eq_sym, Qclt_not_eq).
  rewrite (execute_served _ _ _ _ _ _ t0 v past_returns past_volumes None);
    [|done|done|by rewrite pd_sum_finite, Hv|by apply Qclt_le_weak|done].
  unfold initialize_estimator_recursive, values_in_time_recursive,
    no_initialize_estimator, Hold.values_in_time, mbind, Eff_bind, tell, lift,
    mret, Eff_ret.
  simpl. rewrite series_div_finite by done. rewrite zero_trades.
  rewrite length_fmap, <- !app_assoc. done.
Qed.

Lemma set_last_replicate (n : nat) (x y : Float) :
  Uniform.set_last (replicate (S n) x) y = Ok (replicate n x ++ [y]).
Proof.
  unfold Uniform.set_last. rewrite replicate_S_end.
  destruct (replicate n x ++ [x]) as [|a l] eqn:Hl.
  { by destruct (replicate n x). }
  rewrite <- Hl. f_equal. rewrite length_app, length_replicate. simpl.
  replace (n + 1 - 1)%nat with (length (replicate n x) + 0)%nat
    by (rewrite length_replicate; lia).
  by rewrite insert_app_r.
Qed.

Lemma sell_all_target (a : Args) n :
  length (current_weights a) = S n ->
  SellAll.values_in_time () a = Ok (replicate n (Some 0) ++ [Some 1]).
Proof.
  intros Hn. unfold SellAll.values_in_time. rewrite Hn.
  rewrite set_last_replicate. simpl. unfold pd_Series.
  rewrite decide_True; [done|].
  rewrite length_app, length_replicate. simpl. lia.
Qed.

(** X12. [AllCash] and [SellAll]: for a universe of [n + 1] names the
    weights are 0 for the [n] assets and 1 for cash, and they sum to 1; for
    an empty universe both raise [IndexError]. [AllCash] takes the universe
    from the columns of the past returns, [SellAll] from the current
    weights. *)
Theorem all_cash_weights (a : Args) :
  let target n := replicate n (Some 0) ++ [Some 1] in
  (columns (past_returns a) = 0%nat ->
   AllCash.values_in_time () a = Raise IndexError)
  /\ (current_weights a = [] -> SellAll.values_in_time () a = Raise IndexError)
  /\ (forall n, columns (past_returns a) = S n ->
        AllCash.values_in_time () a = Ok (target n))
  /\ (forall n, length (current_weights a) = S n ->
        SellAll.values_in_time () a = Ok (target n))
  /\ (forall n, np_sum (target n) = Some 1 /\ length (target n) = S n).
Proof.
  intros target. split; [|split; [|split; [|split]]].
  - intros Hn. unfold AllCash.values_in_time. by rewrite Hn.
  - intros Hn. unfold SellAll.values_in_time. by rewrite Hn.
  - intros n Hn. unfold AllCash.values_in_time. rewrite Hn.
    apply set_last_replicate.
  - intros n Hn. by apply sell_all_target.
  - intros n. subst target. cbn beta. split.
    + change (replicate n (Some 0) ++ [Some 1])
        with (replicate n (Some 0) ++ [Some 1 : Float]).
      replace (replicate n (Some 0) ++ [Some 1])
        with (Some <$> (replicate n 0 ++ [1])).
      2:{ rewrite fmap_app. f_equal. by rewrite fmap_replicate. }
      rewrite np_sum_finite, total_app. f_equal.
      assert (Hz : total (replicate n 0) = 0).
      { induction n as [|n IH]; [done|].
        cbn [replicate]. rewrite total_cons, IH. ring. }
      rewrite Hz. simpl. ring.
    + rewrite length_app, length_replicate. simpl. lia.
Qed.

Lemma sell_trades (hs : list Qc) (v : Qc) :
  v <> 0 ->
  (fun x => x * v) <$> zip_with Qcminus (replicate (length hs) 0)
                         ((fun x => x / v) <$> hs)
  = Qcopp <$> hs.
Proof.
  intros Hv. induction hs as [|x hs IH]; [done|].
  cbn [length replicate fmap list_fmap zip_with]. f_equal; [by field | exact IH].
Qed.

(** X13. [SellAll] executed on the holdings [hs] of the assets and [c] of
    cash, all numbers and with a positive sum, at a trading time and without
    prices: the trade of every asset is minus its holding, and the trade of
    cash is the sum of the holdings of the assets, so that all the value
    ends in cash. *)
Theorem sell_all_sells_everything (hs : list Qc) (c : Qc)
    (market_data : MarketData) (t : option Timestamp) (t0 : Timestamp) (v : Qc)
    past_returns past_volumes log :
  resolve market_data t = Some t0 ->
  t0 ∈ trading_calendar market_data ->
  total (hs ++ [c]) = v ->
  0 < v ->
  serve market_data t0 = (past_returns, past_volumes, None) ->
  execute (initialize_estimator_recursive no_initialize_estimator)
    (values_in_time_recursive SellAll.values_in_time) ()
    (Some <$> (hs ++ [c])) market_data t log
  = (Ok ((), ((Some <$> (Qcopp <$> hs)) ++ [Some (total hs)], t0, None)),
     log ++ [TradingCalendar; Serve t0; InitializeEstimator; ValuesInTime t0]).
Proof.
  intros Ht Hin Hv Hpos Hserve.
  assert (Hv0 : v <> 0) by (by apply not_eq_sym, Qclt_not_eq).
  rewrite (execute_served _ _ _ _ _ _ t0 v past_returns past_volumes None);
    [|done|done|by rewrite pd_sum_finite, Hv|by apply Qclt_le_weak|done].
  rewrite series_div_finite by done.
  unfold initialize_estimator_recursive, values_in_time_recursive,
    no_initialize_estimator, mbind, Eff_bind, tell, lift, mret, Eff_ret.
  cbn [current_weights Policies.t].
  assert (Hsell : SellAll.values_in_time ()
            {| Policies.t := t0; past_returns := past_returns;
               past_volumes := past_volumes;
               current_weights := Some <$> ((fun x => x / v) <$> (hs ++ [c]));
               current_portfolio_value := Some v; current_prices := None |}
          = Ok (Some <$> (replicate (length hs) 0 ++ [1]))).
  { rewrite (sell_all_target _ (length hs)).
    - by rewrite fmap_app, fmap_replicate.
    - simpl. rewrite !length_fmap, length_app. simpl. lia. }
  rewrite Hsell. rewrite series_sub_finite, series_scale_finite.
  rewrite fmap_app, zip_with_app by (by rewrite length_replicate, length_fmap).
  rewrite fmap_app, sell_trades by done. simpl.
  rewrite fmap_app, <- !app_assoc. simpl.
  assert (Hc : (1 - c / v) * v = total hs).
  { assert (Hvc : v = total hs + c).
    { rewrite <- Hv, total_app. simpl. ring. }
    assert ((1 - c / v) * v = v - c) as -> by (by field).
    rewrite Hvc. ring. }
  by rewrite Hc.
Qed.

(** *** Uniform, for any universe *)

Lemma set_last_snoc (l : Series) (x y : Float) :
  Uniform.set_last (l ++ [x]) y = Ok (l ++ [y]).
Proof.
  unfold Uniform.set_last. destruct (l ++ [x]) as [|a k] eqn:Hl.
  { by destruct l. }
  rewrite <- Hl. f_equal. rewrite length_app. simpl.
  replace (length l + 1 - 1)%nat with (length l + 0)%nat by lia.
  by rewrite insert_app_r.
Qed.

Lemma total_replicate (n : nat) (x : Qc) :
  total (replicate n x) = Q2Qc (inject_Z (Z.of_nat n)) * x.
Proof.
  induction n as [|n IH].
  - simpl. replace (Q2Qc (inject_Z (Z.of_nat 0))) with 0 by (by apply Qc_is_canon).
    ring.
  - cbn [replicate]. rewrite total_cons, IH.
    rewrite Nat2Z.inj_succ, <- Z.add_1_l, inject_Z_Qc_plus.
    replace (Q2Qc (inject_Z 1)) with 1 by (by apply Qc_is_canon). ring.
Qed.

(** X14. [Uniform.initialize_estimator] with a leverage that is a
    number: for an empty universe it raises [IndexError]; for cash alone the
    target is all cash; for [m + 1] assets and cash the target gives
    [leverage / (m + 1)] to every asset and [1 - leverage] to cash, and
    these weights sum to 1. *)
Theorem uniform_target_weights (leverage : Qc) (calendar : list Timestamp) :
  let init n :=
    Uniform.initialize_estimator (Uniform.__init__ (Some leverage)) n calendar in
  let initialized target :=
    Ok {| Uniform.leverage := Some leverage;
          Uniform.target_weights :=
            Some (DataEstimator.__init__ (DataEstimator.Constant target));
          Uniform._current_value := None |} in
  init 0%nat = Raise IndexError
  /\ init 1%nat = initialized [Some 1]
  /\ forall m,
       let N := Q2Qc (inject_Z (Z.of_nat (S m))) in
       let target := replicate (S m) (Some (leverage / N)) ++ [Some (1 - leverage)] in
       init (S (S m)) = initialized target /\ np_sum target = Some 1.
Proof.
  intros init initialized. split; [done|]. split.
  - subst init initialized. unfold Uniform.initialize_estimator. simpl.
    unfold np_sum, pd_sum. simpl.
    by assert (1 - (0 + 0) = 1) as -> by ring.
  - intros m N target.
    assert (HN : N <> 0).
    { apply not_eq_sym, Qclt_not_eq, inject_Z_Qc_pos. lia. }
    assert (Hones : total (replicate (S m) 1 ++ [0]) = N).
    { rewrite total_app, total_replicate. subst N. simpl. ring. }
    assert (Htarget : target
                      = Some <$> (replicate (S m) (leverage / N) ++ [1 - leverage])).
    { subst target. by rewrite fmap_app, fmap_replicate. }
    split.
    + subst init initialized. unfold Uniform.initialize_estimator.
      cbn [Uniform.leverage Uniform.__init__ Uniform._current_value].
      rewrite set_last_replicate. cbn [mbind result_bind].
      replace (replicate (S m) (Some 1) ++ [Some 0])
        with (Some <$> (replicate (S m) 1 ++ [0]))
        by (by rewrite fmap_app, fmap_replicate).
      rewrite np_sum_finite, Hones, series_div_finite, series_scale_finite by done.
      assert (Hscaled : (fun x => x * leverage)
                          <$> ((fun x => x / N) <$> (replicate (S m) 1 ++ [0]))
                        = replicate (S m) (leverage / N) ++ [0]).
      { rewrite !fmap_app, !fmap_replicate. f_equal.
        - f_equal. by field.
        - cbn [fmap list_fmap]. f_equal. by field. }
      rewrite Hscaled, pd_sum_finite, fmap_app.
      change (Some <$> [0]) with [Some 0 : Float].
      rewrite set_last_snoc. cbn [mbind result_bind].
      assert (Hsum : total (replicate (S m) (leverage / N) ++ [0]) = leverage).
      { rewrite total_app, total_replicate. fold N. simpl. by field. }
      by rewrite Hsum, Htarget, fmap_app.
    + rewrite Htarget, np_sum_finite, total_app, total_replicate. fold N.
      f_equal. simpl. field. done.
Qed.

(** *** FixedTrades and PeriodicRebalance *)

(** [w + trades - w] is [trades]. *)
Lemma add_then_sub (w trades : list Qc) :
  length trades = length w ->
  zip_with Qcminus (zip_with Qcplus w trades) w = trades.
Proof.
  revert trades. induction w as [|x w IH]; intros [|y trades] Hlen; try done.
  simpl in Hlen. injection Hlen as Hlen. cbn [zip_with].
  rewrite IH by done. f_equal. ring.
Qed.

(** X15. [FixedTrades] executed on holdings that are numbers and whose
    sum [v] is positive, at a trading time for which the data have trade
    weights (numbers, one per name) and without prices: the trades returned
    are these trade weights times [v]. *)
Theorem fixed_trades_executes_the_trades (d : DataEstimator.Data)
    (s : DataEstimator.State) (h tw : list Qc)
    (market_data : MarketData) (t : option Timestamp) (t0 : Timestamp) (v : Qc)
    past_returns past_volumes log :
  resolve market_data t = Some t0 ->
  t0 ∈ trading_calendar market_data ->
  total h = v ->
  0 < v ->
  serve market_data t0 = (past_returns, past_volumes, None) ->
  DataEstimator.values_in_time_recursive (DataEstimator.__init__ d) t0 = Ok s ->
  DataEstimator.current_value s = Some (Some <$> tw) ->
  length tw = length h ->
  execute FixedTrades.initialize_estimator_recursive
    FixedTrades.values_in_time_recursive (FixedTrades.__init__ d)
    (Some <$> h) market_data t log
  = (Ok ({| FixedTrades.trades_weights := s;
            FixedTrades._current_value :=
              Some (Some <$> zip_with Qcplus ((fun x => x / v) <$> h) tw) |},
         (Some <$> ((fun x => x * v) <$> tw), t0, None)),
     log ++ [TradingCalendar; Serve t0; InitializeEstimator; ValuesInTime t0]).
Proof.
  intros Ht Hin Hv Hpos Hserve Hs Hcv Hlen.
  assert (Hv0 : v <> 0) by (by apply not_eq_sym, Qclt_not_eq).
  rewrite (execute_served _ _ _ _ _ _ t0 v past_returns past_volumes None);
    [|done|done|by rewrite pd_sum_finite, Hv|by apply Qclt_le_weak|done].
  rewrite series_div_finite by done.
  unfold FixedTrades.initialize_estimator_recursive,
    FixedTrades.values_in_time_recursive, FixedTrades.super_values_in_time_recursive,
    mbind, Eff_bind, tell, lift, mret, Eff_ret.
  cbn [current_weights Policies.t FixedTrades.trades_weights FixedTrades.__init__].
  rewrite Hs. cbn [result_bind]. rewrite Hcv. cbn [default from_option id].
  unfold pd_Series. rewrite !length_fmap, decide_True by done.
  cbn [result_bind try_except_finally].
  rewrite series_add_finite, series_sub_finite, series_scale_finite.
  rewrite add_then_sub by (by rewrite length_fmap).
  by rewrite <- !app_assoc.
Qed.

Lemma periodic_rebalance_lookup (target : Series) (times : list Timestamp)
    (t : Timestamp) :
  (list_to_map ((fun el => (el, target)) <$> times) : gmap Timestamp Series) !! t
  = if decide (t ∈ times) then Some target else None.
Proof.
  induction times as [|x times IH].
  - simpl. rewrite lookup_empty. destruct (decide (t ∈ [])) as [Hin|]; [|done].
    by apply elem_of_nil in Hin.
  - rewrite fmap_cons, list_to_map_cons, lookup_insert.
    destruct (decide (x = t)) as [->|Hne].
    + by rewrite decide_True by (by left).
    + rewrite IH. destruct (decide (t ∈ times)) as [Hin|Hin].
      * by rewrite decide_True by (by right).
      * rewrite decide_False; [done|]. intros [->|?]%elem_of_cons; done.
Qed.

(** X16. [PeriodicRebalance]: at a time that is one of the rebalancing
    times the post-trade weights are the target (for current weights and a
    target that are numbers, one per name); at any other time they are the
    current weights, so that the policy does not trade. Neither case
    raises. *)
Theorem periodic_rebalance_at_times (target : Series) (times : list Timestamp)
    (a : Args) log :
  let self := PeriodicRebalance.__init__ target times in
  (Policies.t a ∉ times ->
   exists self',
     FixedWeights.values_in_time_recursive self a log
     = (Ok (self', current_weights a), log ++ [ValuesInTime (Policies.t a)]))
  /\ (forall w tg : list Qc,
        Policies.t a ∈ times ->
        current_weights a = Some <$> w -> target = Some <$> tg ->
        length tg = length w ->
        exists self',
          FixedWeights.values_in_time_recursive self a log
          = (Ok (self', target), log ++ [ValuesInTime (Policies.t a)])).
Proof.
  intros self. split.
  - intros Hin. eexists.
    unfold FixedWeights.values_in_time_recursive,
      FixedWeights.super_values_in_time_recursive,
      DataEstimator.values_in_time_recursive, mbind, Eff_bind, tell, lift.
    subst self. cbn [PeriodicRebalance.__init__ FixedWeights.__init__
      FixedWeights.target_weights DataEstimator.__init__ DataEstimator.data].
    rewrite periodic_rebalance_lookup, decide_False by done.
    reflexivity.
  - intros w tg Hin Hw Htg Hlen. eexists.
    unfold FixedWeights.values_in_time_recursive,
      FixedWeights.super_values_in_time_recursive,
      DataEstimator.values_in_time_recursive, mbind at 1 2, Eff_bind, tell, lift.
    subst self. cbn [PeriodicRebalance.__init__ FixedWeights.__init__
      FixedWeights.target_weights DataEstimator.__init__ DataEstimator.data].
    rewrite periodic_rebalance_lookup, decide_True by done.
    cbn [mbind result_bind DataEstimator.current_value default from_option id].
    unfold pd_Series. rewrite Hw, Htg, !length_fmap, decide_True by done.
    cbn [mbind result_bind try_except_finally].
    rewrite series_add_finite, series_sub_finite, add_then_sub by done.
    reflexivity.
Qed.

(** *** ProportionalTradeToTargets *)

Lemma forallb_false {A} (f : A -> bool) (l : list A) :
  forallb f l = false <-> exists x, x ∈ l /\ f x = false.
Proof.
  induction l as [|x l IH]; simpl.
  - split; [done|]. intros (x & Hx & _). by apply elem_of_nil in Hx.
  - rewrite andb_false_iff, IH. split.
    + intros [Hx|(y & Hy & Hf)].
      * exists x. split; [by left | done].
      * exists y. split; [by right | done].
    + intros (y & [->|Hy]%elem_of_cons & Hf); [by left|].
      right. by exists y.
Qed.

Lemma forallb_Forall_true {A} (f : A -> bool) (l : list A) :
  Forall (fun x => f x = true) l -> forallb f l = true.
Proof. induction 1 as [|x l Hx _ IH]; simpl; [done|]. by rewrite Hx, IH. Qed.

Lemma filter_none {A} (P : A -> Prop) `{forall x, Decision (P x)} (l : list A) :
  (forall x, ~ P x) -> filter P l = [].
Proof.
  intros Hno. induction l as [|x l IH]; [done|].
  by rewrite filter_cons_False.
Qed.

(** X17. [ProportionalTradeToTargets] does not trade, and returns the
    current weights, when no target is dated at the current time or later
    (whether or not the trading days are known), and on the very day of the
    next target. *)
Theorem proportional_trade_no_trade (self : ProportionalTradeToTargets.State)
    (a : Args) :
  let next_targets :=
    filter (fun r => (Policies.t a <= r.1)%Z)
      (rows (ProportionalTradeToTargets.targets self)) in
  (next_targets = [] ->
   ProportionalTradeToTargets.values_in_time self a = Ok (current_weights a))
  /\ (forall next rest days,
        next_targets = next :: rest ->
        Forall (fun r => MultiPeriodOptimization.isclose1 (pd_sum r.2) = true)
          next_targets ->
        ProportionalTradeToTargets.trading_days self = Some days ->
        next.1 = Policies.t a ->
        ProportionalTradeToTargets.values_in_time self a = Ok (current_weights a)).
Proof.
  intros next_targets. split.
  - intros Hnone. unfold ProportionalTradeToTargets.values_in_time.
    fold next_targets. by rewrite Hnone.
  - intros next rest days Hnext Hclose Hdays Hday.
    unfold ProportionalTradeToTargets.values_in_time. fold next_targets.
    rewrite (forallb_Forall_true _ _ Hclose). rewrite Hnext, Hdays. simpl.
    rewrite filter_none; [done|]. intros d. rewrite Hday. lia.
Qed.

Lemma proportional_step (w tg : list Qc) (D : Qc) :
  zip_with Qcplus w ((fun x => x / D) <$> zip_with Qcminus tg w)
  = zip_with (fun x y => x + (y - x) / D) w tg.
Proof.
  revert tg. induction w as [|x w IH]; intros [|y tg]; try done.
  cbn [zip_with fmap list_fmap]. f_equal. apply IH.
Qed.

Lemma proportional_last_step (w tg : list Qc) :
  length tg = length w ->
  zip_with (fun x y => x + (y - x) / 1) w tg = tg.
Proof.
  revert tg. induction w as [|x w IH]; intros [|y tg] Hlen; try done.
  simpl in Hlen. injection Hlen as Hlen. cbn [zip_with].
  rewrite IH by done. f_equal. by field.
Qed.

(** X18. [ProportionalTradeToTargets] with [d + 1] trading days from the
    current time up to the day of the next target, that day excluded: each
    post-trade weight is the current weight plus the [(d + 1)]-th part of
    its distance to the target; on the last trading day before the day of
    the target ([d = 0]) the post-trade weights are the target itself. The
    weights are numbers, one per name, and the targets that remain sum to
    1. *)
Theorem proportional_trade_to_target (self : ProportionalTradeToTargets.State)
    (a : Args) next rest days (w tg : list Qc) (d : nat) :
  filter (fun r => (Policies.t a <= r.1)%Z)
    (rows (ProportionalTradeToTargets.targets self)) = next :: rest ->
  Forall (fun r => MultiPeriodOptimization.isclose1 (pd_sum r.2) = true)
    (next :: rest) ->
  ProportionalTradeToTargets.trading_days self = Some days ->
  length (filter (fun day => (Policies.t a <= day)%Z /\ (day < next.1)%Z) days)
  = S d ->
  current_weights a = Some <$> w ->
  next.2 = Some <$> tg ->
  length tg = length w ->
  let D := Q2Qc (inject_Z (Z.of_nat (S d))) in
  ProportionalTradeToTargets.values_in_time self a
  = Ok (Some <$> zip_with (fun x y => x + (y - x) / D) w tg)
  /\ (d = 0%nat ->
      ProportionalTradeToTargets.values_in_time self a = Ok (Some <$> tg)).
Proof.
  intros Hnext Hclose Hdays Hcount Hw Htg Hlen D.
  assert (HD : D <> 0).
  { apply not_eq_sym, Qclt_not_eq, inject_Z_Qc_pos. lia. }
  assert (Hvalue : ProportionalTradeToTargets.values_in_time self a
                   = Ok (Some <$> zip_with (fun x y => x + (y - x) / D) w tg)).
  { unfold ProportionalTradeToTargets.values_in_time.
    rewrite Hnext, (forallb_Forall_true _ _ Hclose), Hdays. simpl.
    rewrite Hcount. rewrite decide_False by done.
    unfold ProportionalTradeToTargets.series_div_int. fold D.
    rewrite Hw, Htg, series_sub_finite, series_div_finite, series_add_finite by done.
    by rewrite proportional_step. }
  split; [done|]. intros ->. rewrite Hvalue. f_equal. f_equal.
  assert (D = 1) as -> by (by apply Qc_is_canon).
  by apply proportional_last_step.
Qed.

(** X19. [ProportionalTradeToTargets] raises [ValueError] exactly when
    some target dated at the current time or later does not sum to 1 within
    the tolerance of [np.allclose], be it the next target or one far in the
    future; the targets of the past are not checked. *)
Theorem proportional_trade_value_error (self : ProportionalTradeToTargets.State)
    (a : Args) :
  ProportionalTradeToTargets.values_in_time self a = Raise ValueError
  <-> exists r, r ∈ rows (ProportionalTradeToTargets.targets self)
                /\ (Policies.t a <= r.1)%Z
                /\ MultiPeriodOptimization.isclose1 (pd_sum r.2) = false.
Proof.
  unfold ProportionalTradeToTargets.values_in_time.
  set (next_targets := filter (fun r => (Policies.t a <= r.1)%Z)
                         (rows (ProportionalTradeToTargets.targets self))).
  destruct (forallb (fun r => MultiPeriodOptimization.isclose1 (pd_sum r.2))
              next_targets) eqn:Hall; simpl.
  - split.
    + intros Hraise. exfalso. destruct next_targets as [|next rest]; [done|].
      destruct (ProportionalTradeToTargets.trading_days self); simpl in Hraise;
        [|done].
      by case_decide.
    + intros (r & Hr & Ht & Hclose). exfalso.
      assert (Hfalse : forallb
                (fun r => MultiPeriodOptimization.isclose1 (pd_sum r.2))
                next_targets = false).
      { apply forallb_false. exists r. split; [|done].
        by apply list_elem_of_filter. }
      congruence.
  - split; [|done]. intros _.
    apply forallb_false in Hall as (r & Hr & Hclose).
    apply list_elem_of_filter in Hr as [Ht Hr]. by exists r.
Qed.

(** *** MarketBenchmark *)

(** X20. [MarketBenchmark]: without market volumes it raises
    [DataError]. When it returns weights, there is one per name, the weight
    of cash is 0, and either the weights sum to 1 or the weight of no
    asset is a finite number (an asset without volume in the last 365 days,
    or mean volumes that sum to 0, make all of them NaN or infinite). *)
Theorem market_benchmark_weights (days365 : Z) (a : Args) :
  (past_volumes a = None ->
   MarketBenchmark.values_in_time days365 () a = Raise DataError)
  /\ (forall w,
        MarketBenchmark.values_in_time days365 () a = Ok w ->
        length w = columns (past_returns a)
        /\ last w = Some (Some 0)
        /\ (np_sum w = Some 1
            \/ Forall (fun x => x = None) (take (length w - 1) w))).
Proof.
  unfold MarketBenchmark.values_in_time. split.
  - by intros ->.
  - intros w Hw. destruct (past_volumes a) as [volumes|]; [|done].
    destruct (index_last volumes) as [last_time|]; [|done]. simpl in Hw.
    set (sumvolumes := MarketBenchmark.mean _) in Hw.
    unfold pd_Series in Hw. case_decide as Hlen; [|done]. injection Hw as <-.
    split; [done|]. split; [by rewrite last_snoc|].
    rewrite length_app, Nat.add_sub. cbn [length].
    rewrite take_app_length'; [|done].
    destruct (np_sum sumvolumes) as [total_volume|] eqn:Hsum.
    + destruct (decide (total_volume = 0)) as [->|Hnz].
      * right. unfold series_div. apply Forall_fmap, Forall_forall.
        intros x _. simpl. by destruct x.
      * left. apply np_sum_Some in Hsum as (volumes' & Hv & ->).
        rewrite Hv, series_div_finite by done.
        change [Some 0] with (Some <$> [0]). rewrite <- fmap_app, np_sum_finite.
        rewrite total_app, total_div. f_equal. simpl. by field.
    + right. unfold series_div. apply Forall_fmap, Forall_forall.
      intros x _. simpl. by destruct x.
Qed.

(** *** The trades of a policy whose weights sum to one *)

(** X21. [Policy.execute] on holdings that are numbers and whose sum [v]
    is positive, at a trading time and without prices: when the policy
    returns post-trade weights that are numbers, one per name, and that sum
    to 1, the trades returned sum to 0: what is bought is paid by what is
    sold. *)
Theorem trades_sum_to_zero {P}
    (initialize_estimator_recursive : P -> nat -> list Timestamp -> Eff P)
    (values_in_time_recursive : P -> Args -> Eff (P * Series))
    (self self1 self2 : P) (h w_plus : list Qc) (market_data : MarketData)
    (t : option Timestamp) (t0 : Timestamp) (v : Qc) past_returns past_volumes
    log log1 log2 :
  resolve market_data t = Some t0 ->
  t0 ∈ trading_calendar market_data ->
  total h = v ->
  0 < v ->
  serve market_data t0 = (past_returns, past_volumes, None) ->
  initialize_estimator_recursive self (columns past_returns)
    (filter (fun t' => t0 <= t')%Z (trading_calendar market_data))
    (log ++ [TradingCalendar; Serve t0]) = (Ok self1, log1) ->
  values_in_time_recursive self1
    {| Policies.t := t0; past_returns := past_returns;
       past_volumes := past_volumes;
       current_weights := series_div (Some <$> h) (Some v);
       current_portfolio_value := Some v;
       current_prices := None |} log1
  = (Ok (self2, Some <$> w_plus), log2) ->
  length w_plus = length h ->
  total w_plus = 1 ->
  exists u,
    execute initialize_estimator_recursive values_in_time_recursive self
      (Some <$> h) market_data t log
    = (Ok (self2, (Some <$> u, t0, None)), log2)
    /\ total u = 0.
Proof.
  intros Ht Hin Hv Hpos Hserve Hinit Hvalues Hlen Hone.
  assert (Hv0 : v <> 0) by (by apply not_eq_sym, Qclt_not_eq).
  rewrite (execute_served _ _ _ _ _ _ t0 v past_returns past_volumes None);
    [|done|done|by rewrite pd_sum_finite, Hv|by apply Qclt_le_weak|done].
  unfold mbind, Eff_bind. rewrite Hinit, Hvalues.
  rewrite series_div_finite, series_sub_finite, series_scale_finite by done.
  eexists. split; [reflexivity|].
  rewrite total_scale, total_zip_minus by (by rewrite length_fmap).
  rewrite total_div, Hone, Hv. by field.
Qed.
End SimplePoliciesFacts.

(** ** More on the optimization policies *)
Section MPOMoreFacts.
Import Forecast Policies MultiPeriodOptimization.
Context {Cost Constraint Benchmark Term CompiledConstraint : Type}.
Variable plus_cash_return : Cost -> Cost.
Variable cost_initialize : Cost -> nat -> list Timestamp -> result Cost.
Variable constraint_initialize : Constraint -> nat -> list Timestamp -> result Constraint.
Variable benchmark_initialize : Benchmark -> nat -> list Timestamp -> result Benchmark.
Variable cost_compile : Cost -> Var -> Var -> Var -> Term.
Variable constraint_compile : Constraint -> Var -> Var -> Var -> list CompiledConstraint.
Variable term_is_dcp : Term -> bool.
Variable term_is_concave : Term -> bool.
Variable constraint_is_dcp : CompiledConstraint -> bool.
Variable problem_is_dcp : @Problem Term CompiledConstraint -> bool.
Variable cost_values_in_time : Cost -> Args -> nat -> result Cost.
Variable constraint_values_in_time : Constraint -> Args -> nat -> result Constraint.
Variable benchmark_values_in_time : Benchmark -> Args -> result (Benchmark * Series).
Variable solve : @State Cost Constraint Benchmark Term CompiledConstraint -> SolverOutcome.
Variable compiled_holds : (Var -> Series) -> CompiledConstraint -> Prop.

Local Abbreviation State := (@State Cost Constraint Benchmark Term CompiledConstraint).
Local Abbreviation __init__ :=
  (__init__ (Benchmark:=Benchmark) (Term:=Term) (CompiledConstraint:=CompiledConstraint)
     plus_cash_return).
Local Abbreviation initialize_estimator_recursive :=
  (initialize_estimator_recursive cost_initialize constraint_initialize
     benchmark_initialize cost_compile constraint_compile term_is_dcp
     term_is_concave constraint_is_dcp problem_is_dcp).
Local Abbreviation initialize_and_allocate :=
  (initialize_and_allocate (Term:=Term) (CompiledConstraint:=CompiledConstraint)
     cost_initialize constraint_initialize benchmark_initialize).
Local Abbreviation _compile_to_cvxpy :=
  (_compile_to_cvxpy cost_compile constraint_compile term_is_dcp
     term_is_concave constraint_is_dcp problem_is_dcp).
Local Abbreviation refresh :=
  (refresh (Term:=Term) (CompiledConstraint:=CompiledConstraint)
     cost_values_in_time constraint_values_in_time benchmark_values_in_time).
Local Abbreviation values_in_time_recursive :=
  (values_in_time_recursive cost_values_in_time constraint_values_in_time
     benchmark_values_in_time solve).
Local Abbreviation total l := (foldl Qcplus 0 l).
Local Abbreviation is_init := (fun e => is_initialize_event e = true).
Local Abbreviation is_refresh := (fun e => is_values_in_time_event e = true).
Local Abbreviation passes := (passes term_is_dcp term_is_concave).
Local Abbreviation constraint_passes :=
  (constraint_passes constraint_compile constraint_is_dcp).



(** *** What a solution of the compiled problem satisfies *)

Lemma compiled_problem (self self' : State) universe calendar log log' :
  initialize_estimator_recursive self universe calendar log = (Ok self', log') ->
  exists p,
    problem self' = Some p
    /\ forall i, (i < Z.to_nat (_planning_horizon self))%nat ->
         Equality (cp_sum (Variable_ (z_at_lag i))) (Scalar_ 0) ∈ subject_to p
         /\ Equality (Variable_ (w_plus_at_lag i))
              (Plus (Variable_ (z_at_lag i)) (weights_before i)) ∈ subject_to p.
Proof.
  intros Hinit. unfold MultiPeriodOptimization.initialize_estimator_recursive in Hinit.
  apply Eff_bind_Ok in Hinit as (self1 & log1 & Halloc & Hcompile).
  apply initialize_and_allocate_Ok in Halloc as (Ha & Hh & Ht).
  destruct (_compile_to_cvxpy_Ok cost_compile constraint_compile term_is_dcp
              term_is_concave constraint_is_dcp problem_is_dcp
              self1 self' _ log1 log' Ha) as (p & Hp & Hin & _);
    [by rewrite Hh | done |].
  exists p. split; [done|]. intros i Hi. destruct (Hin i Hi) as (H1 & H2 & _).
  done.
Qed.

(** X24. In any solution of the problem a policy has compiled, the
    post-trade weights of step [i] are the current weights plus the trades
    of the steps 0 to [i], for every step of the planning horizon. *)
Theorem post_trade_weights_accumulate (self self' : State) universe calendar
    log log' (p : @Problem Term CompiledConstraint) value bm current :
  initialize_estimator_recursive self universe calendar log = (Ok self', log') ->
  problem self' = Some p ->
  feasible compiled_holds p value bm current ->
  forall i, (i < Z.to_nat (_planning_horizon self))%nat ->
    value (w_plus_at_lag i) = SimplePolicies.cumulative_trades value current i.
Proof.
  intros Hinit Hp Hfeasible.
  destruct (compiled_problem _ _ _ _ _ _ Hinit) as (p' & Hp' & Hin).
  assert (p' = p) as -> by congruence.
  unfold feasible in Hfeasible. rewrite Forall_forall in Hfeasible.
  induction i as [|i IH]; intros Hi.
  - destruct (Hin 0%nat Hi) as [_ H2]. by apply Hfeasible in H2.
  - destruct (Hin (S i) Hi) as [_ H2]. apply Hfeasible in H2. simpl in H2.
    cbn [SimplePolicies.cumulative_trades]. rewrite <- IH by lia. done.
Qed.

Lemma np_sum_add_trades (zq : list Qc) (w : Series) (a b : Qc) :
  length zq = length w ->
  foldl fadd (Some (a + b)) (series_add (Some <$> zq) w)
  = fadd (Some (a + total zq)) (foldl fadd (Some b) w).
Proof.
  revert w a b. induction zq as [|z zq IH]; intros [|x w] a b Hlen; try done.
  - simpl. f_equal. ring.
  - simpl in Hlen. injection Hlen as Hlen. unfold series_add in *.
    rewrite fmap_cons, total_cons. cbn [zip_with foldl].
    destruct x as [x|]; cbn [fadd].
    + replace (a + b + (z + x)) with ((a + z) + (b + x)) by ring.
      rewrite IH by done.
      by replace (a + z + total zq) with (a + (z + total zq)) by ring.
    + by rewrite !foldl_fadd_None.
Qed.

(** X25. In any solution of the problem a policy has compiled, with
    variables and current weights of the size of the universe, the
    post-trade weights of every step of the planning horizon sum to what the
    current weights sum to: the trades of a step move weight between the
    names and create none. *)
Theorem post_trade_weights_keep_sum (self self' : State) universe calendar
    log log' (p : @Problem Term CompiledConstraint) value bm current (n : nat) :
  initialize_estimator_recursive self universe calendar log = (Ok self', log') ->
  problem self' = Some p ->
  feasible compiled_holds p value bm current ->
  (forall x, length (value x) = n) ->
  length current = n ->
  forall i, (i < Z.to_nat (_planning_horizon self))%nat ->
    np_sum (value (w_plus_at_lag i)) = np_sum current.
Proof.
  intros Hinit Hp Hfeasible Hsize Hcurrent.
  destruct (compiled_problem _ _ _ _ _ _ Hinit) as (p' & Hp' & Hin).
  assert (p' = p) as -> by congruence.
  unfold feasible in Hfeasible. rewrite Forall_forall in Hfeasible.
  assert (Hstep : forall i (w : Series),
    (i < Z.to_nat (_planning_horizon self))%nat -> length w = n ->
    np_sum (series_add (value (z_at_lag i)) w) = np_sum w).
  { intros i w Hi Hw. destruct (Hin i Hi) as [H1 _].
    apply Hfeasible in H1. simpl in H1. injection H1 as H1.
    apply np_sum_Some in H1 as (zq & Hz & Hzero).
    rewrite Hz. unfold np_sum.
    replace (Some 0) with (Some (0 + 0)) at 1 by (f_equal; ring).
    rewrite np_sum_add_trades.
    - rewrite <- Hzero. destruct (foldl fadd (Some 0) w); simpl; [|done].
      f_equal. ring.
    - rewrite <- (length_fmap Some), <- Hz, Hsize. done. }
  induction i as [|i IH]; intros Hi.
  - destruct (Hin 0%nat Hi) as [_ H2]. apply Hfeasible in H2. simpl in H2.
    rewrite H2. by apply Hstep.
  - destruct (Hin (S i) Hi) as [_ H2]. apply Hfeasible in H2. simpl in H2.
    rewrite H2, Hstep by done. apply IH. lia.
Qed.

(** *** Initialization: when it fails and when it succeeds *)

Lemma initialize_objective_length objective universe calendar :
  forall i log objs log',
  initialize_objective cost_initialize i objective universe calendar log
  = (Ok objs, log') ->
  length objs = length objective.
Proof.
  induction objective as [|obj objective IH]; intros i log objs log' Hinit.
  - simpl in Hinit. by injection Hinit as <- _.
  - cbn [initialize_objective] in Hinit.
    apply Eff_bind_Ok in Hinit as (? & log1 & _ & Hinit).
    apply Eff_bind_Ok in Hinit as (obj' & log2 & _ & Hinit).
    apply Eff_bind_Ok in Hinit as (objs' & log3 & Hrest & Hinit).
    injection Hinit as <- _. simpl. f_equal. by apply (IH _ _ _ _ Hrest).
Qed.

Lemma initialize_constraints_length constraints universe calendar :
  forall i log cs log',
  initialize_constraints constraint_initialize i constraints universe calendar log
  = (Ok cs, log') ->
  length cs = length constraints.
Proof.
  induction constraints as [|el constraints IH]; intros i log cs log' Hinit.
  - simpl in Hinit. by injection Hinit as <- _.
  - cbn [initialize_constraints] in Hinit.
    apply Eff_bind_Ok in Hinit as (el' & log1 & _ & Hinit).
    apply Eff_bind_Ok in Hinit as (cs' & log2 & Hrest & Hinit).
    injection Hinit as <- _. simpl. f_equal. by apply (IH _ _ _ _ Hrest).
Qed.

Lemma initialize_and_allocate_lengths (self self1 : State) universe calendar
    log log1 :
  initialize_and_allocate self universe calendar log = (Ok self1, log1) ->
  length (objective self1) = length (objective self)
  /\ length (constraints self1) = length (constraints self).
Proof.
  intros Hinit. unfold MultiPeriodOptimization.initialize_and_allocate in Hinit.
  apply Eff_bind_Ok in Hinit as (objs & log2 & Hobjs & Hinit).
  apply Eff_bind_Ok in Hinit as (cs & log3 & Hcs & Hinit).
  apply Eff_bind_Ok in Hinit as (? & log4 & _ & Hinit).
  apply Eff_bind_Ok in Hinit as (bm & log5 & _ & Hinit).
  injection Hinit as <- _. simpl. split.
  - by apply (initialize_objective_length _ _ _ _ _ _ _ Hobjs).
  - by apply (initialize_constraints_length _ _ _ _ _ _ _ Hcs).
Qed.

(** X26. A planning horizon that is 0 or negative passes [__init__], which
    keeps one objective term, but no variable is allocated for it: once the
    terms and the benchmark are initialized, [initialize_estimator_recursive]
    raises [IndexError] in [_compile_to_cvxpy]. *)
Theorem nonpositive_horizon_index_error (obj : Cost) (constrs : list Constraint)
    (horizon : Z) (include_cash_return : bool) (terminal : option Series)
    (bm : Benchmark) (self self1 : State) universe calendar log log1 :
  (horizon <= 0)%Z ->
  __init__ (SameAtEveryStep obj constrs (Some horizon)) include_cash_return
    terminal bm = Ok self ->
  initialize_and_allocate self universe calendar log = (Ok self1, log1) ->
  initialize_estimator_recursive self universe calendar log
  = (Raise IndexError, log1 ++ [Compile]).
Proof.
  intros Hh Hself Halloc.
  rewrite (initialize_estimator_recursive_after _ _ _ _ _ _ _ _ _ _ _ _ _ _ _ Halloc).
  destruct (initialize_and_allocate_lengths _ _ _ _ _ _ Halloc) as [Hlen _].
  apply initialize_and_allocate_Ok in Halloc as ((_ & Hw & _) & _ & _).
  unfold MultiPeriodOptimization.__init__ in Hself. simpl in Hself.
  rewrite bool_decide_false in Hself by lia. injection Hself as <-.
  cbn [_planning_horizon objective] in Hw, Hlen.
  replace (Z.to_nat horizon) with 0%nat in Hw by lia. simpl in Hw.
  unfold MultiPeriodOptimization._compile_to_cvxpy, mbind, Eff_bind, tell, lift.
  destruct (objective self1) as [|el objs].
  { destruct include_cash_return; done. }
  simpl. by rewrite Hw.
Qed.

Lemma compile_objective_Ok (self : State) H objective : forall i,
  allocated self H -> (i + length objective <= H)%nat ->
  (forall k el, objective !! k = Some el ->
     passes (cost_compile el (w_plus_at_lag (i + k)) (z_at_lag (i + k))
               (w_plus_minus_w_bm_at_lag (i + k)))) ->
  exists terms,
    compile_objective cost_compile self i objective = Ok terms
    /\ length terms = length objective
    /\ Forall passes terms.
Proof.
  induction objective as [|el objective IH]; intros i Ha Hi Hpass.
  - exists []. by split.
  - simpl in Hi. destruct (IH (S i) Ha) as (terms & Hterms & Hlen & Hall); [lia| |].
    { intros k el' Hel. replace (S i + k)%nat with (i + S k)%nat by lia.
      by apply (Hpass (S k)). }
    pose proof Ha as (Hz & Hw & Hd). cbn [compile_objective].
    rewrite Hw, Hz, Hd, !index_allocated by lia. simpl. rewrite Hterms. simpl.
    eexists. split; [reflexivity|]. split; [simpl; by rewrite Hlen|].
    constructor; [|done]. specialize (Hpass 0%nat el eq_refl).
    by rewrite Nat.add_0_r in Hpass.
Qed.

Lemma compile_constraints_at_Ok (self : State) H i el :
  allocated self H -> (i < H)%nat ->
  Forall (constraint_passes i) el ->
  exists cs, compile_constraints_at constraint_compile constraint_is_dcp self i el
             = Ok cs.
Proof.
  intros Ha Hi. induction 1 as [|constr el Hconstr _ [cs Hcs]].
  - by exists [].
  - pose proof Ha as (Hz & Hw & Hd). cbn [compile_constraints_at].
    unfold compile_and_check_constraint.
    rewrite Hw, Hz, Hd, !index_allocated by lia. simpl.
    unfold MultiPeriodOptimization.constraint_passes in Hconstr.
    rewrite Hconstr, Hcs. simpl. by eexists.
Qed.

Lemma compile_constraints_Ok (self : State) H constraints : forall i,
  allocated self H -> (i + length constraints <= H)%nat ->
  (forall k el, constraints !! k = Some el ->
     Forall (constraint_passes (i + k)) el) ->
  exists cs, compile_constraints constraint_compile constraint_is_dcp self i
               constraints = Ok cs.
Proof.
  induction constraints as [|el constraints IH]; intros i Ha Hi Hpass.
  - by exists [].
  - simpl in Hi. destruct (IH (S i) Ha) as (cs & Hcs); [lia| |].
    { intros k el' Hel. replace (S i + k)%nat with (i + S k)%nat by lia.
      by apply (Hpass (S k)). }
    destruct (compile_constraints_at_Ok self H i el Ha) as (c & Hc); [lia| |].
    { specialize (Hpass 0%nat el eq_refl). by rewrite Nat.add_0_r in Hpass. }
    cbn [compile_constraints]. rewrite Hc, Hcs. simpl. by eexists.
Qed.

(** X27. When the terms and the benchmark are initialized, the policy has
    one objective term and one list of constraints per step of the planning
    horizon, every compiled objective term follows the rules and is concave
    and every compiled constraint follows the rules, the initialization goes
    as far as the check of the whole problem: it returns the policy with
    its problem, one objective term per step, when that check passes, and
    raises [SyntaxError] when it fails; it raises no other exception. *)
Theorem initialization_succeeds (self self1 : State) universe calendar log log1 :
  initialize_and_allocate self universe calendar log = (Ok self1, log1) ->
  let H := Z.to_nat (_planning_horizon self) in
  length (objective self) = H ->
  length (constraints self) = H ->
  (forall i el, objective self1 !! i = Some el ->
     passes (cost_compile el (w_plus_at_lag i) (z_at_lag i)
               (w_plus_minus_w_bm_at_lag i))) ->
  (forall i el, constraints self1 !! i = Some el ->
     Forall (constraint_passes i) el) ->
  exists p self',
    problem self' = Some p
    /\ length (maximize p) = H
    /\ initialize_estimator_recursive self universe calendar log
       = (if problem_is_dcp p then Ok self' else Raise SyntaxError,
          log1 ++ [Compile]).
Proof.
  intros Halloc H Hobjs Hconstrs Hpass Hcpass.
  rewrite (initialize_estimator_recursive_after _ _ _ _ _ _ _ _ _ _ _ _ _ _ _ Halloc).
  destruct (initialize_and_allocate_lengths _ _ _ _ _ _ Halloc) as [Hlo Hlc].
  apply initialize_and_allocate_Ok in Halloc as (Ha & Hh & Ht). fold H in Ha.
  destruct (compile_objective_Ok self1 H (objective self1) 0 Ha)
    as (terms & Hterms & Hlen & Hall); [simpl; lia | done |].
  destruct (compile_constraints_Ok self1 H (constraints self1) 0 Ha)
    as (cs & Hcs); [simpl; lia | done |].
  destruct (dynamics_spec self1 H H 0 (Parameter_ w_current) Ha)
    as (wiring & Hwiring & _); [simpl; lia|].
  unfold MultiPeriodOptimization._compile_to_cvxpy, mbind, Eff_bind, tell, lift.
  rewrite Hterms, (check_objective_all _ _ _ Hall), Hcs, Hh. fold H.
  rewrite Hwiring.
  match goal with
  | |- context [problem_is_dcp ?q] =>
      exists q;
      exists {| objective := objective self1; constraints := constraints self1;
                _planning_horizon := _planning_horizon self1;
                terminal_constraint := terminal_constraint self1;
                benchmark := benchmark self1;
                w_bm_value := w_bm_value self1;
                w_current_value := w_current_value self1;
                z_at_lags := z_at_lags self1;
                w_plus_at_lags := w_plus_at_lags self1;
                w_plus_minus_w_bm_at_lags := w_plus_minus_w_bm_at_lags self1;
                problem := Some q;
                _current_value := _current_value self1 |};
      destruct (problem_is_dcp q)
  end.
  - split; [done|]. split; [simpl; lia | by rewrite Hh].
  - split; [done|]. split; [simpl; lia | done].
Qed.

(** *** The refresh of a decision step: what stops it *)

(** X28. [values_in_time_recursive] of the optimization policies refuses
    a portfolio value that is not a positive number (zero, negative or NaN)
    with [DataError], and, for a positive value, current weights whose sum
    is not 1 within the tolerance of [np.isclose] (or is NaN) with
    [AssertionError]. In both cases no term and no benchmark is refreshed
    and the solver is not called. *)
Theorem refresh_refuses_bad_inputs (self : State) (a : Args) log :
  (~ (exists v, current_portfolio_value a = Some v /\ 0 < v) ->
   values_in_time_recursive self a log
   = (Raise DataError, log ++ [ValuesInTime (Policies.t a)]))
  /\ (forall v,
        current_portfolio_value a = Some v -> 0 < v ->
        isclose1 (np_sum (current_weights a)) = false ->
        values_in_time_recursive self a log
        = (Raise AssertionError, log ++ [ValuesInTime (Policies.t a)])).
Proof.
  split.
  - intros Hbad.
    assert (Hv : fgt0 (current_portfolio_value a) = false).
    { unfold fgt0. destruct (current_portfolio_value a) as [v|]; [|done].
      apply bool_decide_eq_false. intros Hpos. apply Hbad. by exists v. }
    unfold MultiPeriodOptimization.values_in_time_recursive,
      MultiPeriodOptimization.refresh, mbind, Eff_bind, tell.
    by rewrite Hv.
  - intros v Hv Hpos Hsum.
    unfold MultiPeriodOptimization.values_in_time_recursive,
      MultiPeriodOptimization.refresh, mbind, Eff_bind, tell.
    rewrite Hv. unfold fgt0. rewrite bool_decide_true by done. simpl.
    by rewrite Hsum.
Qed.

Lemma values_in_time_objective_fails objective a e :
  forall j i obj log,
  objective !! i = Some obj ->
  cost_values_in_time obj a (j + i) = Raise e ->
  (forall k obj', (k < i)%nat -> objective !! k = Some obj' ->
     exists obj'', cost_values_in_time obj' a (j + k) = Ok obj'') ->
  values_in_time_objective cost_values_in_time j objective a log
  = (Raise e, log ++ (ValuesInTimeObjective <$> seq j (S i))).
Proof.
  induction objective as [|el objective IH]; intros j i obj log Hi He Hbefore;
    [done|].
  cbn [values_in_time_objective]. unfold mbind, Eff_bind, tell, lift.
  destruct i as [|i].
  - simpl in Hi. injection Hi as ->. rewrite Nat.add_0_r in He. by rewrite He.
  - simpl in Hi.
    destruct (Hbefore 0%nat el) as [el' Hel]; [lia | done |].
    rewrite Nat.add_0_r in Hel. rewrite Hel.
    fold (@mbind Eff _). 
    rewrite (IH (S j) i obj); [| done | by replace (S j + i)%nat with (j + S i)%nat by lia |].
    + cbn [seq fmap list_fmap]. by rewrite <- app_assoc.
    + intros k obj' Hk Hobj'.
      replace (S j + k)%nat with (j + S k)%nat by lia.
      apply (Hbefore (S k)); [lia | done].
Qed.

(** X29. When the refresh of an objective term raises an exception, after
    the terms of the earlier steps were refreshed, [values_in_time_recursive]
    raises that same exception; the terms of the later steps, the
    constraints and the benchmark are not refreshed and the solver is not
    called. *)
Theorem failing_term_propagates (self : State) (a : Args) log (i : nat)
    (obj : Cost) (e : exn) (v : Qc) :
  current_portfolio_value a = Some v -> 0 < v ->
  isclose1 (np_sum (current_weights a)) = true ->
  objective self !! i = Some obj ->
  cost_values_in_time obj a i = Raise e ->
  (forall k obj', (k < i)%nat -> objective self !! k = Some obj' ->
     exists obj'', cost_values_in_time obj' a k = Ok obj'') ->
  values_in_time_recursive self a log
  = (Raise e,
     log ++ ValuesInTime (Policies.t a) :: (ValuesInTimeObjective <$> seq 0 (S i))).
Proof.
  intros Hv Hpos Hsum Hi He Hbefore.
  assert (Hobjective :
    values_in_time_objective cost_values_in_time 0 (objective self) a
      (log ++ [ValuesInTime (Policies.t a)])
    = (Raise e,
       (log ++ [ValuesInTime (Policies.t a)])
       ++ (ValuesInTimeObjective <$> seq 0 (S i)))).
  { by apply (values_in_time_objective_fails _ _ e 0 i obj). }
  unfold MultiPeriodOptimization.values_in_time_recursive,
    MultiPeriodOptimization.refresh, mbind, Eff_bind, tell.
  rewrite Hv. unfold fgt0. rewrite bool_decide_true by done.
  unfold mret, Eff_ret, assert. rewrite Hsum.
  unfold mret, Eff_ret. cbn [negb]. rewrite Hobjective.
  by rewrite <- app_assoc.
Qed.

(** X30. A call of [execute] on an optimization policy that returns has
    done this, in this order: read the trading calendar, served the market
    data of the time, initialized the terms and the benchmark, compiled the
    problem, refreshed the policy, its terms and its benchmark, and solved
    the problem. So the policy is initialized and its problem compiled again
    at every call of [execute]. *)
Theorem execute_compiles_at_every_call (self : State) (h : Series)
    (market_data : MarketData) (t : option Timestamp) log out log' :
  execute initialize_estimator_recursive values_in_time_recursive self h
    market_data t log = (Ok out, log') ->
  exists t0 pre post,
    resolve market_data t = Some t0
    /\ log' = log ++ [TradingCalendar; Serve t0] ++ pre ++ [Compile]
                  ++ post ++ [Solve]
    /\ Forall is_init pre
    /\ Forall is_refresh post.
Proof.
  intros Hexec.
  apply execute_Ok_inv in Hexec
    as (t0 & self1 & log1 & w_plus & Ht0 & _ & Hinit & Hvalues & _).
  destruct (initialize_estimator_recursive_log cost_initialize
              constraint_initialize benchmark_initialize cost_compile
              constraint_compile term_is_dcp term_is_concave constraint_is_dcp
              problem_is_dcp self
              (columns (serve market_data t0).1.1)
              (filter (fun t' => (t0 <= t')%Z) (trading_calendar market_data))
              (log ++ [TradingCalendar; Serve t0]))
    as (pre & Hpre & _ & Hlog1).
  rewrite Hinit in Hlog1. specialize (Hlog1 self1 eq_refl). simpl in Hlog1.
  unfold MultiPeriodOptimization.values_in_time_recursive in Hvalues.
  apply Eff_bind_Ok in Hvalues as (self2 & log2 & Hrefresh & Hsolve).
  set (a := {| Policies.t := t0; past_returns := (serve market_data t0).1.1;
               past_volumes := (serve market_data t0).1.2;
               current_weights := series_div h (pd_sum h);
               current_portfolio_value := pd_sum h;
               current_prices := (serve market_data t0).2 |}) in *.
  destruct (refresh_logs cost_values_in_time constraint_values_in_time
              benchmark_values_in_time self1 a log1) as (post & Hlog2 & Hpost).
  rewrite Hrefresh in Hlog2. simpl in Hlog2.
  assert (Hlog' : log' = log2 ++ [Solve]).
  { destruct (problem self2) as [p|] eqn:Hp.
    - destruct (solve_and_extract_spec solve self2 a log2 p Hp) as [Hlog _].
      by rewrite Hsolve in Hlog.
    - unfold solve_and_extract in Hsolve. by rewrite Hp in Hsolve. }
  exists t0, pre, post. split; [done|]. split; [|done].
  rewrite Hlog', Hlog2, Hlog1. by rewrite <- !app_assoc.
Qed.
End MPOMoreFacts.

(** ** The further properties on examples *)
Section MoreWitnesses.
Import Forecast Policies MultiPeriodOptimization SimplePolicies MoreExamples.

Local Ltac compute_Qc := apply (bool_decide_unpack _); by vm_compute.

Lemma mean_is_nan_iff_unobserved_witness :
  exists s v,
    mean_run 4 example_history example_time 0 3 = Ok (s, v)
    /\ length v = 3%nat
    /\ (v !! 1%nat = Some None
        <-> forall k r, (k < 0 + 3)%nat -> example_history !! k = Some r ->
              cell r.2 1 = None).
Proof.
  apply (mean_is_nan_iff_unobserved 4 example_history example_time 0 3 1).
  - unfold rectangular, example_history. simpl. repeat constructor.
  - simpl. lia.
  - lia.
Defined.

Lemma empty_history_then_index_error_witness :
  HistoricalMeanReturn.values_in_time 10%Z {| columns := 4; rows := [] |}
    (Some {| last_time := 9%Z; last_counts := [0; 0; 0]%Z; last_sum := [0; 0; 0] |})
  = Raise IndexError.
Proof.
  destruct (empty_history_then_index_error 10%Z {| columns := 4; rows := [] |})
    as (_ & _ & Hmean & _).
  - reflexivity.
  - apply Hmean.
Defined.

Lemma covariance_incremental_equals_scratch_witness :
  exists s,
    ForecastRuns.covariance_incremental 3 ForecastRuns.example_gap example_time
      true 0 2 = Ok s
    /\ ForecastRuns.same_entries
         (HistoricalFactorizedCovariance._last_counts_matrix s)
         (HistoricalFactorizedCovariance._get_count_matrix
            (frame 3 ForecastRuns.example_gap 2)).
Proof.
  destruct (covariance_incremental_equals_scratch 3 ForecastRuns.example_gap
              example_time true 0 2) as (s & Hs & _ & Hcounts & _).
  - simpl. lia.
  - by exists s.
Defined.

Lemma joint_mean_online_update_witness :
  exists s jm jm' a b,
    HistoricalFactorizedCovariance._online_update false (example_time 2)
      (frame 3 ForecastRuns.example_gap 2)
      (HistoricalFactorizedCovariance._initial_compute false (example_time 1)
         (frame 3 ForecastRuns.example_gap 1)) = Ok s
    /\ HistoricalFactorizedCovariance._joint_mean s = Some jm
    /\ HistoricalFactorizedCovariance._joint_mean
         (HistoricalFactorizedCovariance._initial_compute false (example_time 2)
            (frame 3 ForecastRuns.example_gap 2)) = Some jm'
    /\ entry jm 1 0 = Some a
    /\ entry jm' 1 0 = Some b
    /\ a = b + q 3 100.
Proof.
  apply (joint_mean_online_update 3 ForecastRuns.example_gap example_time 1
           (11%Z, [Some (q 3 100); None; Some 0]) 1 0).
  reflexivity.
Defined.

Lemma covariance_is_symmetric_witness :
  exists s,
    ForecastRuns.covariance_incremental 3 ForecastRuns.example_gap example_time
      false 0 2 = Ok s
    /\ ForecastRuns.symmetric (HistoricalFactorizedCovariance.covariance_of false s).
Proof.
  destruct (covariance_is_symmetric 3 ForecastRuns.example_gap example_time
              false 0 2) as (s & Hs & _ & _ & Hsym).
  - simpl. lia.
  - by exists s.
Defined.

Lemma covariance_diagonal_is_variance_witness :
  exists s v,
    HistoricalVariance.values_in_time 12%Z
      {| columns := 3; rows := ForecastRuns.example_gap |} true [] None = Ok (s, v)
    /\ v !! 1%nat
       = Some (entry (HistoricalFactorizedCovariance.covariance_of true
                        (HistoricalFactorizedCovariance._initial_compute true 12%Z
                           {| columns := 3; rows := ForecastRuns.example_gap |}))
                 1 1).
Proof.
  apply (covariance_diagonal_is_variance 12%Z
           {| columns := 3; rows := ForecastRuns.example_gap |} 1).
  simpl. lia.
Defined.

Lemma execute_outside_calendar_witness :
  execute Uniform.initialize_estimator_recursive Uniform.values_in_time_recursive
    (Uniform.__init__ (Some 1)) (Some <$> example_holdings) example_market_data
    (Some 99%Z) []
  = (Raise AssertionError, [TradingCalendar]).
Proof.
  destruct (execute_outside_calendar Uniform.initialize_estimator_recursive
              Uniform.values_in_time_recursive (Uniform.__init__ (Some 1))
              (Some <$> example_holdings) example_market_data [])
    as [_ Hassert].
  apply (Hassert 99%Z). compute_Qc.
Defined.

Lemma hold_never_trades_witness :
  execute (initialize_estimator_recursive no_initialize_estimator)
    (values_in_time_recursive Hold.values_in_time) ()
    (Some <$> example_holdings) example_market_data None []
  = (Ok ((), (replicate 6 (Some 0), 13%Z, None)),
     [TradingCalendar; Serve 13; InitializeEstimator; ValuesInTime 13]).
Proof.
  eapply (hold_never_trades example_holdings example_market_data None 13%Z
            (q 1000 1)).
  - reflexivity.
  - compute_Qc.
  - compute_Qc.
  - compute_Qc.
  - reflexivity.
Defined.

Lemma all_cash_weights_witness :
  AllCash.values_in_time () (example_args 11)
  = Ok (replicate 2 (Some 0) ++ [Some 1])
  /\ SellAll.values_in_time () (example_args 11)
     = Ok (replicate 2 (Some 0) ++ [Some 1]).
Proof.
  destruct (all_cash_weights (example_args 11)) as (_ & _ & Hall & Hsell & _).
  split; [apply Hall | apply Hsell]; reflexivity.
Defined.

Lemma sell_all_sells_everything_witness :
  execute (initialize_estimator_recursive no_initialize_estimator)
    (values_in_time_recursive SellAll.values_in_time) ()
    (Some <$> (example_assets ++ [example_cash])) example_market_data None []
  = (Ok ((), ((Some <$> (Qcopp <$> example_assets))
              ++ [Some (foldl Qcplus 0 example_assets)], 13%Z, None)),
     [TradingCalendar; Serve 13; InitializeEstimator; ValuesInTime 13]).
Proof.
  eapply (sell_all_sells_everything example_assets example_cash
            example_market_data None 13%Z (q 1000 1)).
  - reflexivity.
  - compute_Qc.
  - compute_Qc.
  - compute_Qc.
  - reflexivity.
Defined.

Lemma uniform_target_weights_witness :
  Uniform.initialize_estimator (Uniform.__init__ (Some (q 3 2))) 4 []
  = Ok {| Uniform.leverage := Some (q 3 2);
          Uniform.target_weights :=
            Some (DataEstimator.__init__
                    (DataEstimator.Constant
                       (replicate 3 (Some (q 3 2 / Q2Qc (inject_Z (Z.of_nat 3))))
                        ++ [Some (1 - q 3 2)])));
          Uniform._current_value := None |}.
Proof.
  destruct (uniform_target_weights (q 3 2) []) as (_ & _ & Hmany).
  apply (Hmany 2%nat).
Defined.

Lemma fixed_trades_executes_the_trades_witness :
  execute FixedTrades.initialize_estimator_recursive
    FixedTrades.values_in_time_recursive
    (FixedTrades.__init__ (DataEstimator.Constant (Some <$> example_trades)))
    (Some <$> example_holdings) example_market_data None []
  = (Ok ({| FixedTrades.trades_weights :=
              {| DataEstimator.data :=
                   DataEstimator.Constant (Some <$> example_trades);
                 DataEstimator.current_value := Some (Some <$> example_trades) |};
            FixedTrades._current_value :=
              Some (Some <$> zip_with Qcplus
                               ((fun x => x / q 1000 1) <$> example_holdings)
                               example_trades) |},
         (Some <$> ((fun x => x * q 1000 1) <$> example_trades), 13%Z, None)),
     [TradingCalendar; Serve 13; InitializeEstimator; ValuesInTime 13]).
Proof.
  eapply (fixed_trades_executes_the_trades
            (DataEstimator.Constant (Some <$> example_trades)) _
            example_holdings example_trades example_market_data None 13%Z
            (q 1000 1)).
  - reflexivity.
  - compute_Qc.
  - compute_Qc.
  - compute_Qc.
  - reflexivity.
  - reflexivity.
  - reflexivity.
  - reflexivity.
Defined.

Lemma periodic_rebalance_at_times_witness :
  (exists self',
     FixedWeights.values_in_time_recursive
       (PeriodicRebalance.__init__ example_target [10; 12]%Z) (example_args 11) []
     = (Ok (self', [Some 1; Some 0; Some 0]), [ValuesInTime 11]))
  /\ (exists self',
        FixedWeights.values_in_time_recursive
          (PeriodicRebalance.__init__ example_target [10; 12]%Z) (example_args 12) []
        = (Ok (self', example_target), [ValuesInTime 12])).
Proof.
  split.
  - destruct (periodic_rebalance_at_times example_target [10; 12]%Z
                (example_args 11) []) as [Hhold _].
    apply Hhold. compute_Qc.
  - destruct (periodic_rebalance_at_times example_target [10; 12]%Z
                (example_args 12) []) as [_ Htrade].
    apply (Htrade [1; 0; 0] [q 1 2; q 1 2; 0]).
    + compute_Qc.
    + reflexivity.
    + reflexivity.
    + reflexivity.
Defined.

Lemma proportional_trade_no_trade_witness :
  ProportionalTradeToTargets.values_in_time example_targets (example_args 13)
  = Ok [Some 1; Some 0; Some 0]
  /\ ProportionalTradeToTargets.values_in_time example_targets (example_args 12)
     = Ok [Some 1; Some 0; Some 0].
Proof.
  split.
  - destruct (proportional_trade_no_trade example_targets (example_args 13))
      as [Hnone _].
    apply Hnone. reflexivity.
  - destruct (proportional_trade_no_trade example_targets (example_args 12))
      as [_ Hday].
    eapply Hday.
    + reflexivity.
    + repeat constructor.
    + reflexivity.
    + reflexivity.
Defined.

Lemma proportional_trade_to_target_witness :
  ProportionalTradeToTargets.values_in_time example_targets (example_args 11)
  = Ok (Some <$> [q 1 2; q 1 2; 0]).
Proof.
  edestruct (proportional_trade_to_target example_targets (example_args 11)
               (12%Z, example_target) [] [10; 11; 12; 13]%Z [1; 0; 0]
               [q 1 2; q 1 2; 0] 0) as [_ Hlast].
  - reflexivity.
  - repeat constructor.
  - reflexivity.
  - reflexivity.
  - reflexivity.
  - reflexivity.
  - reflexivity.
  - by apply Hlast.
Defined.

Lemma proportional_trade_value_error_witness :
  ProportionalTradeToTargets.values_in_time example_bad_targets (example_args 11)
  = Raise ValueError.
Proof.
  apply (proportional_trade_value_error example_bad_targets (example_args 11)).
  exists (20%Z, [Some 1; Some 1; Some 0]). split; [|split].
  - right. left.
  - simpl. lia.
  - reflexivity.
Defined.

Lemma market_benchmark_weights_witness :
  MarketBenchmark.values_in_time 365 () (example_args 11)
  = Ok (Some <$> [q 1 2; q 1 2; 0])
  /\ np_sum (Some <$> [q 1 2; q 1 2; 0]) = Some 1.
Proof.
  assert (Hvalue : MarketBenchmark.values_in_time 365 () (example_args 11)
                   = Ok (Some <$> [q 1 2; q 1 2; 0])).
  { unfold MarketBenchmark.values_in_time, pd_Series. simpl. f_equal.
    compute_Qc. }
  split; [done|].
  destruct (market_benchmark_weights 365 (example_args 11)) as [_ Hweights].
  destruct (Hweights _ Hvalue) as (_ & _ & [Hone|Hnan]); [done|].
  apply Forall_inv in Hnan. discriminate.
Defined.

Lemma trades_sum_to_zero_witness :
  exists u,
    execute (initialize_estimator_recursive no_initialize_estimator)
      (values_in_time_recursive AllCash.values_in_time) ()
      (Some <$> example_holdings) example_market_data None []
    = (Ok ((), (Some <$> u, 13%Z, None)),
       [TradingCalendar; Serve 13; InitializeEstimator; ValuesInTime 13])
    /\ foldl Qcplus 0 u = 0.
Proof.
  eapply (trades_sum_to_zero (initialize_estimator_recursive no_initialize_estimator)
            (values_in_time_recursive AllCash.values_in_time) () () ()
            example_holdings [0; 0; 0; 0; 0; 1] example_market_data None 13%Z
            (q 1000 1)).
  - reflexivity.
  - compute_Qc.
  - compute_Qc.
  - compute_Qc.
  - reflexivity.
  - reflexivity.
  - reflexivity.
  - reflexivity.
  - compute_Qc.
Defined.
Local Abbreviation example_holds := (fun (_ : Var -> Series) (c : bool) => c = true).

Lemma example_solution_feasible :
  exists p,
    problem Example.two_steps_compiled = Some p
    /\ feasible example_holds p example_solution
         [Some 0; Some 0; Some 1] [Some 0; Some 0; Some 1].
Proof.
  eexists. split; [reflexivity|].
  unfold feasible. simpl.
  repeat constructor; simpl; try reflexivity; compute_Qc.
Qed.

Lemma post_trade_weights_accumulate_witness :
  example_solution (w_plus_at_lag 1)
  = cumulative_trades example_solution [Some 0; Some 0; Some 1] 1.
Proof.
  destruct example_solution_feasible as (p & Hp & Hfeasible).
  eapply (post_trade_weights_accumulate Example.initialize Example.initialize
            Example.initialize Example.cost_compile Example.constraint_compile
            Example.is_dcp Example.is_concave id Example.problem_is_dcp
            example_holds
            Example.two_steps Example.two_steps_compiled 3 [10%Z] []
            Example.two_steps_compiled_log p example_solution
            [Some 0; Some 0; Some 1] [Some 0; Some 0; Some 1]).
  - vm_compute. reflexivity.
  - exact Hp.
  - exact Hfeasible.
  - simpl. lia.
Defined.

Lemma post_trade_weights_keep_sum_witness :
  np_sum (example_solution (w_plus_at_lag 0)) = np_sum [Some 0; Some 0; Some 1].
Proof.
  destruct example_solution_feasible as (p & Hp & Hfeasible).
  eapply (post_trade_weights_keep_sum Example.initialize Example.initialize
            Example.initialize Example.cost_compile Example.constraint_compile
            Example.is_dcp Example.is_concave id Example.problem_is_dcp
            example_holds
            Example.two_steps Example.two_steps_compiled 3 [10%Z] []
            Example.two_steps_compiled_log p example_solution
            [Some 0; Some 0; Some 1] [Some 0; Some 0; Some 1] 3).
  - vm_compute. reflexivity.
  - exact Hp.
  - exact Hfeasible.
  - intros [[|[|i]]|[|[|i]]|[|[|i]]]; reflexivity.
  - reflexivity.
  - simpl. lia.
Defined.

Lemma nonpositive_horizon_index_error_witness :
  (Example.initialize_estimator_recursive
     (Example.policy (SameAtEveryStep Example.CONCAVE [true] (Some 0%Z)) None)
     3 [10%Z] []).1
  = Raise IndexError.
Proof.
  erewrite (nonpositive_horizon_index_error id Example.initialize
              Example.initialize Example.initialize Example.cost_compile
              Example.constraint_compile Example.is_dcp Example.is_concave id
              Example.problem_is_dcp Example.CONCAVE [true] 0%Z false None ()
              (Example.policy (SameAtEveryStep Example.CONCAVE [true] (Some 0%Z)) None)).
  - reflexivity.
  - lia.
  - reflexivity.
  - vm_compute. reflexivity.
Defined.

Lemma initialization_succeeds_witness :
  exists self' p,
    Example.initialize_estimator_recursive Example.two_steps 3 [10%Z] []
    = (Ok self', [InitializeObjective 0; InitializeObjective 1;
                  InitializeConstraint 0 0; InitializeConstraint 1 0;
                  InitializeBenchmark; Compile])
    /\ problem self' = Some p
    /\ length (maximize p) = 2%nat.
Proof.
  edestruct (initialization_succeeds Example.initialize Example.initialize
               Example.initialize Example.cost_compile Example.constraint_compile
               Example.is_dcp Example.is_concave id Example.problem_is_dcp
               Example.two_steps) as (p & self' & Hp & Hlen & Hinit).
  - vm_compute. reflexivity.
  - reflexivity.
  - reflexivity.
  - intros [|[|i]] el Hel; simpl in Hel; try done; injection Hel as <-; by split.
  - intros [|[|i]] el Hel; simpl in Hel; try done; injection Hel as <-;
      by repeat constructor.
  - exists self', p. split; [|done].
    assert (Hok : (Example.initialize_estimator_recursive Example.two_steps 3
                     [10%Z] []).1 = Ok Example.two_steps_compiled)
      by (vm_compute; reflexivity).
    unfold Example.initialize_estimator_recursive in *.
    rewrite Hinit in Hok |- *. simpl in Hok.
    by destruct (Example.problem_is_dcp p).
Defined.

Lemma refresh_refuses_bad_inputs_witness :
  Example.values_in_time_recursive Example.solve_optimal Example.two_steps_compiled
    {| Policies.t := 10%Z; past_returns := {| columns := 3; rows := [] |};
       past_volumes := None; current_weights := [Some 0; Some 0; Some 1];
       current_portfolio_value := Some 0; current_prices := None |} []
  = (Raise DataError, [ValuesInTime 10]).
Proof.
  destruct (refresh_refuses_bad_inputs (Term:=Example.Curvature)
              (CompiledConstraint:=bool) Example.values_in_time
              Example.values_in_time Example.benchmark_values_in_time
              Example.solve_optimal Example.two_steps_compiled
              {| Policies.t := 10%Z; past_returns := {| columns := 3; rows := [] |};
                 past_volumes := None; current_weights := [Some 0; Some 0; Some 1];
                 current_portfolio_value := Some 0; current_prices := None |} [])
    as [Hdata _].
  apply Hdata. intros (v & Hv & Hpos). simpl in Hv. injection Hv as <-.
  by apply Qclt_not_eq in Hpos.
Defined.

Lemma failing_term_propagates_witness :
  MultiPeriodOptimization.values_in_time_recursive (Term:=Example.Curvature)
    (CompiledConstraint:=bool)
    failing_values_in_time Example.values_in_time Example.benchmark_values_in_time
    Example.solve_optimal Example.two_steps_compiled Example.args []
  = (Raise ForecastError,
     [ValuesInTime 10; ValuesInTimeObjective 0; ValuesInTimeObjective 1]).
Proof.
  eapply (failing_term_propagates (Term:=Example.Curvature)
            (CompiledConstraint:=bool) failing_values_in_time
            Example.values_in_time Example.benchmark_values_in_time
            Example.solve_optimal Example.two_steps_compiled Example.args []
            1 Example.CONCAVE ForecastError (q 1000 1)).
  - reflexivity.
  - compute_Qc.
  - vm_compute. reflexivity.
  - reflexivity.
  - reflexivity.
  - intros [|k] obj' Hk Hobj'; [|lia]. by eexists.
Defined.

Lemma execute_compiles_at_every_call_witness :
  exists pre post,
    (execute Example.initialize_estimator_recursive
       (Example.values_in_time_recursive solve_no_trade) one_step
       (Some <$> example_holdings) example_market_data None []).2
    = [] ++ [TradingCalendar; Serve 13] ++ pre ++ [Compile] ++ post ++ [Solve]
    /\ Forall (fun e => is_initialize_event e = true) pre
    /\ Forall (fun e => is_values_in_time_event e = true) post.
Proof.
  pose proof (surjective_pairing
                (execute Example.initialize_estimator_recursive
                   (Example.values_in_time_recursive solve_no_trade) one_step
                   (Some <$> example_holdings) example_market_data None []))
    as Hexec.
  assert (Hok : exists out,
    (execute Example.initialize_estimator_recursive
       (Example.values_in_time_recursive solve_no_trade) one_step
       (Some <$> example_holdings) example_market_data None []).1 = Ok out).
  { eexists. vm_compute. reflexivity. }
  destruct Hok as [out Hok]. rewrite Hok in Hexec.
  pose proof (execute_compiles_at_every_call Example.initialize Example.initialize
           Example.initialize Example.cost_compile Example.constraint_compile
           Example.is_dcp Example.is_concave id Example.problem_is_dcp
           Example.values_in_time Example.values_in_time
           Example.benchmark_values_in_time solve_no_trade) as Hcalls.
  specialize (Hcalls one_step (Some <$> example_holdings) example_market_data
                None [] _ _ Hexec).
  destruct Hcalls as (t0 & pre & post & Ht0 & Hlog & Hpre & Hpost).
  assert (Ht : t0 = 13%Z) by (vm_compute in Ht0; congruence).
  subst t0. exists pre, post.
  split; [exact Hlog|split; [exact Hpre|exact Hpost]].
Defined.
End MoreWitnesses.
